(** * Metrics computation engine of agile-metrics-action

    A shallow embedding of the calculators of the action
    (src/metrics-collector.js, src/team-metrics-collector.js and the
    PR maturity calculator exercised in __tests__/debug-maturity.test.js)
    and the properties they are specified to have.

    Conventions of the embedding:
    - a JavaScript date is the integer number of milliseconds since the
      epoch that [new Date(s).getTime()] yields for it;
    - line counts and lengths are integers ([Z], [nat]); a JavaScript
      number that results from a division is an exact rational ([Q])
      where what is stated of it does not depend on the rounding of the
      machine, and a binary64 number ([float], with the operations of the
      kernel) where it does ([TeamBinary64]);
    - [null]/[undefined] are [None];
    - the GitHub client is a record of functions, one per request the
      calculators issue: a snapshot of what the API answers;
    - a computation that may throw has an [Outcome]. *)

From Stdlib Require Import PrimFloat SpecFloat FloatOps Uint63.
From Stdlib Require Import Ascii String ZArith QArith Qround List Bool Lia Lqa.
Import ListNotations.

Local Open Scope string_scope.
Local Open Scope Z_scope.

(** ** JavaScript primitives used by the calculators *)

Module JS.

(** [x || 0] on a possibly absent number. *)
Definition orZero (x : option Z) : Z :=
  match x with
  | Some v => v
  | None => 0
  end.

(** [a || b] on possibly absent values. *)
Definition orElse {A : Type} (a b : option A) : option A :=
  match a with
  | Some _ => a
  | None => b
  end.

(** [Math.round]: the nearest integer, ties towards plus infinity. *)
Definition Math_round (x : Q) : Z := Qfloor (x + (1 # 2)).

(** [Number(x.toFixed(2))]: the nearest multiple of 1/100; [toFixed]
    rounds the magnitude and puts the sign back. *)
Definition toFixed2 (x : Q) : Q :=
  if Qle_bool 0 x
  then inject_Z (Qfloor (x * 100 + (1 # 2))) / 100
  else - (inject_Z (Qfloor (- x * 100 + (1 # 2))) / 100).

(** [Array.prototype.findIndex]: the first index whose element satisfies
    [p], or -1. *)
Fixpoint findIndex {A : Type} (p : A -> bool) (l : list A) : Z :=
  match l with
  | [] => -1
  | x :: t =>
      if p x then 0
      else let r := findIndex p t in if r <? 0 then -1 else r + 1
  end.

(** [Math.max(...xs)] and [Math.min(...xs)]. The calculators apply them
    to non-empty arrays only; on the empty array, where JavaScript
    answers an infinity, they are given the value 0 here. *)
Definition Qmax (a b : Q) : Q := if Qle_bool a b then b else a.
Definition Qmin (a b : Q) : Q := if Qle_bool a b then a else b.

Definition Math_max (xs : list Q) : Q :=
  match xs with
  | [] => 0%Q
  | x :: t => fold_left Qmax t x
  end.

Definition Math_min (xs : list Q) : Q :=
  match xs with
  | [] => 0%Q
  | x :: t => fold_left Qmin t x
  end.

(** [xs || []] on a possibly absent array. *)
Definition orEmpty {A : Type} (xs : option (list A)) : list A :=
  match xs with
  | Some l => l
  | None => []
  end.

End JS.

(** ** PR maturity (class TestDevExMatricsCollector) *)

Module Maturity.

Record PRFile : Type := {
  filename : string;
  status : option string;
  additions : option Z;
  deletions : option Z
}.

(** A PR commit: [sha] and [commit.author.date]. *)
Record PRCommit : Type := {
  sha : string;
  author_date : Z
}.

Record PRDetails : Type := {
  created_at : Z
}.

Record CommitDiff : Type := {
  files : option (list PRFile)
}.

Record GitHubClient : Type := {
  getPullRequest : Z -> option PRDetails;
  getPullRequestCommits : Z -> option (list PRCommit);
  getPullRequestFiles : Z -> option (list PRFile);
  compareCommitsDiff : string -> string -> option CommitDiff
}.

Record Options : Type := {
  filesToIgnore : list string;
  ignoreLineDeletions : bool;
  ignoreFileDeletions : bool
}.

Definition defaultOptions : Options :=
  {| filesToIgnore := []; ignoreLineDeletions := false;
     ignoreFileDeletions := false |}.

Record SizeDetails : Type := {
  total_additions : Z;
  total_deletions : Z;
  size_total_changes : Z
}.

Record MaturityDetails : Type := {
  total_commits : nat;
  commits_after_publication : option nat;
  total_changes : Z;
  changes_after_publication : Z;
  stable_changes : Z;
  first_commit_sha : string;
  last_commit_sha : string;
  baseline_commit_sha : option string;
  first_significant_commit_sha : option string;
  pr_created_at : Z;
  reason : string
}.

Inductive Details : Type :=
| DetailsError (error : string)
| DetailsOk (d : MaturityDetails).

Record MaturityResult : Type := {
  maturity_ratio : option Q;
  maturity_percentage : option Z;
  details : Details
}.

Definition failure (msg : string) : MaturityResult :=
  {| maturity_ratio := None; maturity_percentage := None;
     details := DetailsError msg |}.

Definition reasonSingle : string := "Single commit PR".
Definition reasonGrace : string :=
  "All commits within grace period or pre-existing".
Definition reasonNoSignificant : string :=
  "No significant commits after PR publication".
Definition reasonGeneral : string :=
  "Calculated based on meaningful commits after publication".

Section Collector.

(** [globTest pattern name] stands for
    [new RegExp('^' + pattern.replace(/\*/g, '.*').replace(/\?/g, '.') + '$').test(name)],
    the regular-expression engine of the host, for patterns that it
    compiles; [MaturityErrors] has the engine that throws. *)
Variable globTest : string -> string -> bool.
Variable githubClient : GitHubClient.
Variable options : Options.

Definition isRemoved (f : PRFile) : bool :=
  match status f with
  | Some s => String.eqb s "removed"
  | None => false
  end.

Definition filterFiles (fs : list PRFile) : list PRFile :=
  filter
    (fun file =>
       if ignoreFileDeletions options && isRemoved file then false
       else if (0 <? length (filesToIgnore options))%nat
               && existsb (fun pattern => globTest pattern (filename file))
                    (filesToIgnore options)
       then false
       else true)
    fs.

Definition calculateSizeDetails (fs : list PRFile) : SizeDetails :=
  let acc :=
    fold_left
      (fun (acc : Z * Z) file =>
         (fst acc + JS.orZero (additions file),
          if ignoreLineDeletions options then snd acc
          else snd acc + JS.orZero (deletions file)))
      fs (0, 0) in
  {| total_additions := fst acc;
     total_deletions := snd acc;
     size_total_changes := fst acc + snd acc |}.

Definition calculateDiffSize (fs : list PRFile) : Z :=
  fold_left
    (fun changes file =>
       changes + (JS.orZero (additions file) + JS.orZero (deletions file)))
    fs 0.

(** [(commitDate - prCreatedAt) / (1000 * 60)] *)
Definition timeDiffMinutes (prCreatedAt : Z) (c : PRCommit) : Q :=
  (inject_Z (author_date c - prCreatedAt) / inject_Z (1000 * 60))%Q.

(** [Math.abs(commitDate - prCreatedAt) / (1000 * 60)] *)
Definition absTimeDiffMinutes (prCreatedAt : Z) (c : PRCommit) : Q :=
  (inject_Z (Z.abs (author_date c - prCreatedAt)) / inject_Z (1000 * 60))%Q.

Definition withinGracePeriod (prCreatedAt : Z) (c : PRCommit) : bool :=
  Qle_bool (absTimeDiffMinutes prCreatedAt c) 5
  || (author_date c <=? prCreatedAt).

Definition isSignificant (prCreatedAt : Z) (c : PRCommit) : bool :=
  negb (Qle_bool (timeDiffMinutes prCreatedAt c) 5).

(** The baseline of the general case: the commit before the first
    significant one, or the first commit ([first] is [prCommits[0]]). *)
Definition baselineCommitOf (first : PRCommit) (prCommits : list PRCommit)
    (firstSignificantCommit : PRCommit) : PRCommit :=
  let firstSignificantIndex :=
    JS.findIndex (fun c => String.eqb (sha c) (sha firstSignificantCommit))
      prCommits in
  if 0 <? firstSignificantIndex
  then nth (Z.to_nat (firstSignificantIndex - 1)) prCommits first
  else first.

(** [calculatePRMaturity], when nothing throws: the requests of the
    client answer or answer [null], and [globTest] answers for every
    pattern. The [try] and [catch] of the source are in
    [MaturityErrors.calculatePRMaturity]. *)
Definition calculatePRMaturity (prNumber : Z) : MaturityResult :=
  match getPullRequest githubClient prNumber with
  | None => failure "Could not fetch PR details"
  | Some prDetails =>
  match getPullRequestCommits githubClient prNumber with
  | None => failure "No commits found in PR"
  | Some [] => failure "No commits found in PR"
  | Some ((first :: others) as prCommits) =>
  let prCreatedAt := created_at prDetails in
  if (length prCommits =? 1)%nat then
    (* Single commit case *)
    let prFiles := getPullRequestFiles githubClient prNumber in
    let filteredFiles := filterFiles (JS.orEmpty prFiles) in
    let sizeDetails := calculateSizeDetails filteredFiles in
    {| maturity_ratio := Some 1%Q;
       maturity_percentage := Some 100;
       details := DetailsOk
         {| total_commits := 1;
            commits_after_publication := None;
            total_changes := size_total_changes sizeDetails;
            changes_after_publication := 0;
            stable_changes := size_total_changes sizeDetails;
            first_commit_sha := sha first;
            last_commit_sha := sha first;
            baseline_commit_sha := None;
            first_significant_commit_sha := None;
            pr_created_at := prCreatedAt;
            reason := reasonSingle |} |}
  else
  (* Check for commits within grace period *)
  let commitsWithinGracePeriod :=
    filter (withinGracePeriod prCreatedAt) prCommits in
  if (length commitsWithinGracePeriod =? length prCommits)%nat then
    let prFiles := getPullRequestFiles githubClient prNumber in
    let filteredFiles := filterFiles (JS.orEmpty prFiles) in
    let sizeDetails := calculateSizeDetails filteredFiles in
    {| maturity_ratio := Some 1%Q;
       maturity_percentage := Some 100;
       details := DetailsOk
         {| total_commits := length prCommits;
            commits_after_publication := None;
            total_changes := size_total_changes sizeDetails;
            changes_after_publication := 0;
            stable_changes := size_total_changes sizeDetails;
            first_commit_sha := sha first;
            last_commit_sha := sha (last prCommits first);
            baseline_commit_sha := None;
            first_significant_commit_sha := None;
            pr_created_at := prCreatedAt;
            reason := reasonGrace |} |}
  else
  (* Find significant commits after PR creation *)
  let significantCommitsAfterPR :=
    filter (isSignificant prCreatedAt) prCommits in
  match significantCommitsAfterPR with
  | [] =>
    let prFiles := getPullRequestFiles githubClient prNumber in
    let filteredFiles := filterFiles (JS.orEmpty prFiles) in
    let sizeDetails := calculateSizeDetails filteredFiles in
    {| maturity_ratio := Some 1%Q;
       maturity_percentage := Some 100;
       details := DetailsOk
         {| total_commits := length prCommits;
            commits_after_publication := None;
            total_changes := size_total_changes sizeDetails;
            changes_after_publication := 0;
            stable_changes := size_total_changes sizeDetails;
            first_commit_sha := sha first;
            last_commit_sha := sha (last prCommits first);
            baseline_commit_sha := None;
            first_significant_commit_sha := None;
            pr_created_at := prCreatedAt;
            reason := reasonNoSignificant |} |}
  | firstSignificantCommit :: _ =>
  (* Calculate maturity based on significant changes *)
  let lastCommit := last prCommits first in
  let baselineCommit :=
    baselineCommitOf first prCommits firstSignificantCommit in
  (* Get total PR changes *)
  let prFiles := getPullRequestFiles githubClient prNumber in
  let filteredFiles := filterFiles (JS.orEmpty prFiles) in
  let totalPRChanges := calculateSizeDetails filteredFiles in
  (* Get changes after baseline *)
  match compareCommitsDiff githubClient (sha baselineCommit) (sha lastCommit)
  with
  | None => failure "Could not compare commits for maturity analysis"
  | Some changesAfterPublicationDiff =>
  let changesAfterPublication :=
    calculateDiffSize (JS.orEmpty (files changesAfterPublicationDiff)) in
  (* Calculate maturity *)
  let stableChanges :=
    Z.max 0 (size_total_changes totalPRChanges - changesAfterPublication) in
  let maturityRatio : Q :=
    if 0 <? size_total_changes totalPRChanges
    then (inject_Z stableChanges
          / inject_Z (size_total_changes totalPRChanges))%Q
    else 1%Q in
  let maturityPercentage := JS.Math_round (maturityRatio * 100)%Q in
  {| maturity_ratio :=
       Some (inject_Z (JS.Math_round (maturityRatio * 1000)%Q) / 1000)%Q;
     maturity_percentage := Some maturityPercentage;
     details := DetailsOk
       {| total_commits := length prCommits;
          commits_after_publication := Some (length significantCommitsAfterPR);
          total_changes := size_total_changes totalPRChanges;
          changes_after_publication := changesAfterPublication;
          stable_changes := stableChanges;
          first_commit_sha := sha first;
          last_commit_sha := sha lastCommit;
          baseline_commit_sha := Some (sha baselineCommit);
          first_significant_commit_sha := Some (sha firstSignificantCommit);
          pr_created_at := prCreatedAt;
          reason := reasonGeneral |} |}
  end
  end
  end
  end.

End Collector.

(** Two expressions of [calculatePRMaturity] by name:
    [calculateSizeDetails(filterFiles(prFiles || [])).total_changes] and
    [calculateDiffSize(diff.files || [])]. *)
Definition totalChangesOf (globTest : string -> string -> bool)
    (githubClient : GitHubClient) (options : Options) (prNumber : Z) : Z :=
  size_total_changes
    (calculateSizeDetails options
       (filterFiles globTest options
          (JS.orEmpty (getPullRequestFiles githubClient prNumber)))).

Definition diffSizeOf (diff : CommitDiff) : Z :=
  calculateDiffSize (JS.orEmpty (files diff)).

End Maturity.

(** ** Deployment metrics (class MetricsCollector, utils.js) *)

Module Dora.

(** utils.js: [(new Date(later) - new Date(earlier)) / 36e5] *)
Definition hoursBetween (laterDate earlierDate : Z) : Q :=
  (inject_Z (laterDate - earlierDate) / inject_Z 3600000)%Q.

(** utils.js: [(new Date(later) - new Date(earlier)) / 864e5] *)
Definition daysBetween (laterDate earlierDate : Z) : Q :=
  (inject_Z (laterDate - earlierDate) / inject_Z 86400000)%Q.

(** A release as [listReleases] returns it. *)
Record Release : Type := {
  name : option string;
  tag_name : string;
  created_at : Z
}.

(** A tag as [listTags] returns it, [{name}]; its name is the field [tag]
    here. *)
Record Tag : Type := {
  tag : string
}.

(** What [resolveTag] answers for a tag name. *)
Record ResolvedTag : Type := {
  resolved_name : option string;
  resolved_sha : option string;
  resolved_created_at : option Z
}.

(** A commit of the compare and commit endpoints: [sha],
    [commit.committer.date], [commit.author.date], [parents] and
    [commit.message]. *)
Record Commit : Type := {
  sha : string;
  committer_date : option Z;
  author_date : option Z;
  parents : option (list string);
  message : option string
}.

Record Comparison : Type := {
  commits : option (list Commit)
}.

Record GitHubClient : Type := {
  owner : string;
  repo : string;
  listReleases : nat -> list Release;
  listTags : nat -> list Tag;
  resolveTag : string -> option ResolvedTag;
  compareCommits : string -> option string -> Comparison;
  getCommit : option string -> option Commit
}.

Record EnabledMetrics : Type := {
  deploymentFrequency : bool;
  leadTime : bool
}.

Record Options : Type := {
  includeMergeCommits : bool;
  maxReleases : nat;
  maxTags : nat;
  enabledMetrics : EnabledMetrics
}.

Definition defaultOptions : Options :=
  {| includeMergeCommits := false;
     maxReleases := 100;
     maxTags := 100;
     enabledMetrics :=
       {| deploymentFrequency := true; leadTime := true |} |}.

(** The [latest]/[previous] objects that [determineDataSource] builds:
    from a release [{name, tag, created_at, sha}], from a tag the object
    [resolveTag] answered, [{name, sha, created_at}]. *)
Record Deployment : Type := {
  d_name : option string;
  d_tag : option string;
  d_sha : option string;
  d_created_at : option Z
}.

Inductive Source : Type := release | tag_source.

Record DataSource : Type := {
  source : Source;
  latest : option Deployment;
  previous : option Deployment
}.

(** A computation that returns or throws [new Error(message)]. *)
Inductive Outcome (A : Type) : Type :=
| Returns (a : A)
| Throws (error_message : string).
Arguments Returns {A} a.
Arguments Throws {A} error_message.

Record DeployFrequency : Type := {
  deployCount : nat;
  deploysPerWeek : option Q
}.

Record CommitWithAge : Type := {
  cwa_sha : string;
  cwa_date : Z;
  cwa_age : Q;
  cwa_isMerge : bool;
  cwa_message : string
}.

Record CycleTime : Type := {
  commit_count : nat;
  avg_hours : option Q;
  oldest_hours : option Q;
  newest_hours : option Q;
  oldest_commit_sha : option string;
  newest_commit_sha : option string;
  newest_excludes_merges : bool
}.

(** The [latest] argument of [calculateCycleTime], of which it reads
    [sha] and [created_at]; [collectMetrics] calls it only after it has
    checked that [created_at] is there. *)
Record Latest : Type := {
  latest_sha : option string;
  latest_created_at : Z
}.

Record DeploymentReport : Type := {
  report_name : option string;
  report_tag : option string;
  report_sha : option string;
  report_created_at : option Z
}.

(** [metricsData]: [deploy_frequency_days] and [deploy_count] are the
    [deploysPerWeek] and the [deployCount] of [deploy_frequency]; a
    metric that is not enabled is absent. *)
Record MetricsData : Type := {
  deploy_frequency : option DeployFrequency;
  cycle_time : option CycleTime
}.

Record Metrics : Type := {
  generated_at : Z;
  metrics_repo : string;
  metrics_source : Source;
  metrics_latest : DeploymentReport;
  metrics_previous : option DeploymentReport;
  metrics : MetricsData
}.

Inductive CollectResult : Type :=
| CollectError (error : string)
| Collected (m : Metrics).

(** [c.commit?.committer?.date || c.commit?.author?.date] *)
Definition commitDate (c : Commit) : option Z :=
  JS.orElse (committer_date c) (author_date c).

(** [c.parents?.length > 1 || false] *)
Definition isMergeCommit (c : Commit) : bool :=
  match parents c with
  | Some ps => (1 <? length ps)%nat
  | None => false
  end.

(** [d.sha = resolved?.sha] *)
Definition setSha (d : Deployment) (resolved : option ResolvedTag)
    : Deployment :=
  {| d_name := d_name d;
     d_tag := d_tag d;
     d_sha := match resolved with
              | Some r => resolved_sha r
              | None => None
              end;
     d_created_at := d_created_at d |}.

Section Collector.

Variable githubClient : GitHubClient.
Variable options : Options.

Definition determineDataSource : Outcome DataSource :=
  (* Try releases first *)
  let releases := listReleases githubClient (maxReleases options) in
  match releases with
  | release0 :: more =>
      let latest0 :=
        {| d_name := Some match name release0 with
                          | Some n =>
                              if String.eqb n "" then tag_name release0
                              else n
                          | None => tag_name release0
                          end;
           d_tag := Some (tag_name release0);
           d_sha := None;
           d_created_at := Some (created_at release0) |} in
      let previous0 :=
        match more with
        | release1 :: _ =>
            Some {| d_name := Some match name release1 with
                                   | Some n =>
                                       if String.eqb n ""
                                       then tag_name release1
                                       else n
                                   | None => tag_name release1
                                   end;
                    d_tag := Some (tag_name release1);
                    d_sha := None;
                    d_created_at := Some (created_at release1) |}
        | [] => None
        end in
      (* Resolve SHAs from tags *)
      let headResolved := resolveTag githubClient (tag_name release0) in
      let latest1 := setSha latest0 headResolved in
      let previous1 :=
        match more with
        | release1 :: _ =>
            let baseResolved := resolveTag githubClient (tag_name release1) in
            option_map (fun p => setSha p baseResolved) previous0
        | [] => None
        end in
      Returns {| source := release; latest := Some latest1;
                 previous := previous1 |}
  | [] =>
      (* Fallback to tags *)
      let tags := listTags githubClient (maxTags options) in
      match tags with
      | [] => Throws "No releases or tags found"
      | tag0 :: more =>
          let ofResolved (r : ResolvedTag) : Deployment :=
            {| d_name := resolved_name r;
               d_tag := None;
               d_sha := resolved_sha r;
               d_created_at := resolved_created_at r |} in
          let latestTag := resolveTag githubClient (tag tag0) in
          let prevTag :=
            match more with
            | tag1 :: _ => resolveTag githubClient (tag tag1)
            | [] => None
            end in
          Returns {| source := tag_source;
                     latest := option_map ofResolved latestTag;
                     previous := option_map ofResolved prevTag |}
      end
  end.

(** [calculateDeployFrequency]; as for [calculatePRMaturity], the
    [catch] of the source has no counterpart. *)
Definition calculateDeployFrequency : DeployFrequency :=
  let releases := listReleases githubClient (maxReleases options) in
  match releases with
  | [] =>
      (* Fallback to tags if no releases *)
      let tags := listTags githubClient (maxTags options) in
      match tags with
      | [] => {| deployCount := 0; deploysPerWeek := None |}
      | [_] => {| deployCount := 1; deploysPerWeek := None |}
      | newest :: _ =>
          let oldest := last tags newest in
          let oldestResolved := resolveTag githubClient (tag oldest) in
          let newestResolved := resolveTag githubClient (tag newest) in
          match oldestResolved, newestResolved with
          | Some {| resolved_created_at := Some oldest_created_at |},
            Some {| resolved_created_at := Some newest_created_at |} =>
              let days := daysBetween newest_created_at oldest_created_at in
              let weeks := (days / 7)%Q in
              let deploysPerWeek0 :=
                if negb (Qle_bool weeks 0)
                then Some (JS.toFixed2
                             (inject_Z (Z.of_nat (length tags)) / weeks))
                else None in
              {| deployCount := length tags;
                 deploysPerWeek := deploysPerWeek0 |}
          | _, _ => {| deployCount := length tags; deploysPerWeek := None |}
          end
      end
  | [_] => {| deployCount := 1; deploysPerWeek := None |}
  | newest :: _ =>
      (* Use releases *)
      let oldest := last releases newest in
      let days := daysBetween (created_at newest) (created_at oldest) in
      let weeks := (days / 7)%Q in
      let deploysPerWeek0 :=
        if negb (Qle_bool weeks 0)
        then Some (JS.toFixed2
                     (inject_Z (Z.of_nat (length releases)) / weeks))
        else None in
      {| deployCount := length releases; deploysPerWeek := deploysPerWeek0 |}
  end.

(** The commit set of [calculateCycleTime]. *)
Definition fetchCommits (latest : Latest) (previous : option Deployment)
    : list Commit :=
  match previous with
  | Some {| d_sha := Some previous_sha |} =>
      (* Compare all commits included in the latest production
         deployment *)
      let comparison :=
        compareCommits githubClient previous_sha (latest_sha latest) in
      JS.orEmpty (commits comparison)
  | _ =>
      (* Single-tag case: use the single tagged commit *)
      match getCommit githubClient (latest_sha latest) with
      | Some commit => [commit]
      | None => []
      end
  end.

(** [allCommits.map(c => date(c)).filter(Boolean)] *)
Definition datesOf (allCommits : list Commit) : list Z :=
  flat_map (fun c => match commitDate c with Some d => [d] | None => [] end)
    allCommits.

(** [allCommits.map(c => ({sha, date, age, isMerge, message}))
     .filter(c => c.date)]: the age is kept for the commits that have a
    date. *)
Definition withAges (latest : Latest) (allCommits : list Commit)
    : list CommitWithAge :=
  flat_map
    (fun c =>
       match commitDate c with
       | Some d =>
           [{| cwa_sha := sha c;
               cwa_date := d;
               cwa_age := hoursBetween (latest_created_at latest) d;
               cwa_isMerge := isMergeCommit c;
               cwa_message := match message c with
                              | Some m => m
                              | None => ""
                              end |}]
       | None => []
       end)
    allCommits.

Definition calculateCycleTime (latest : Latest)
    (previous : option Deployment) : CycleTime :=
  let allCommits := fetchCommits latest previous in
  (* Extract commit dates *)
  let commitDates := datesOf allCommits in
  let commitsWithAges := withAges latest allCommits in
  let excludes := negb (includeMergeCommits options) in
  if (0 <? length commitDates)%nat && (0 <? length commitsWithAges)%nat then
    (* Calculate overall stats using all commits (including merges) *)
    let ages := map cwa_age commitsWithAges in
    let sum := fold_left Qplus ages 0%Q in
    let ltcAvgHours :=
      JS.toFixed2 (sum / inject_Z (Z.of_nat (length ages))) in
    let ltcOldestHours := JS.toFixed2 (JS.Math_max ages) in
    (* Find oldest commit (can be merge or non-merge) *)
    let oldestCommit :=
      find (fun c => Qeq_bool (cwa_age c) (JS.Math_max ages)) commitsWithAges in
    (* Find newest NON-MERGE commit (unless includeMergeCommits is true) *)
    let candidateCommits :=
      if negb (includeMergeCommits options)
      then filter (fun c => negb (cwa_isMerge c)) commitsWithAges
      else commitsWithAges in
    if (0 <? length candidateCommits)%nat then
      let newestCommit :=
        find
          (fun c =>
             Qeq_bool (cwa_age c) (JS.Math_min (map cwa_age candidateCommits)))
          candidateCommits in
      {| commit_count := length commitDates;
         avg_hours := Some ltcAvgHours;
         oldest_hours := Some ltcOldestHours;
         newest_hours :=
           Some (JS.toFixed2 (JS.Math_min (map cwa_age candidateCommits)));
         oldest_commit_sha := option_map cwa_sha oldestCommit;
         newest_commit_sha := option_map cwa_sha newestCommit;
         newest_excludes_merges := excludes |}
    else
      (* Fallback: if all commits are merges and we're excluding them,
         use the newest merge commit *)
      let newestCommit :=
        find (fun c => Qeq_bool (cwa_age c) (JS.Math_min ages))
          commitsWithAges in
      {| commit_count := length commitDates;
         avg_hours := Some ltcAvgHours;
         oldest_hours := Some ltcOldestHours;
         newest_hours := Some (JS.toFixed2 (JS.Math_min ages));
         oldest_commit_sha := option_map cwa_sha oldestCommit;
         newest_commit_sha := option_map cwa_sha newestCommit;
         newest_excludes_merges := excludes |}
  else
    {| commit_count := length commitDates;
       avg_hours := None;
       oldest_hours := None;
       newest_hours := None;
       oldest_commit_sha := None;
       newest_commit_sha := None;
       newest_excludes_merges := excludes |}.

(** [collectMetrics]; [now] is the clock reading of [new Date()]. The
    [try]/[catch] turns the error that [determineDataSource] throws into
    an error result. *)
Definition collectMetrics (now : Z) : CollectResult :=
  match determineDataSource with
  | Throws error_message =>
      CollectError ("Metrics collection failed: " ++ error_message)
  | Returns {| source := source0; latest := latest0;
               previous := previous0 |} =>
      match latest0 with
      | Some {| d_name := latest_name; d_tag := latest_tag;
                d_sha := Some latest_sha0;
                d_created_at := Some latest_created_at0 |} =>
          let metricsData :=
            {| deploy_frequency :=
                 (* Calculate deploy frequency if enabled *)
                 if deploymentFrequency (enabledMetrics options)
                 then Some calculateDeployFrequency
                 else None;
               cycle_time :=
                 (* Calculate lead time for changes if enabled *)
                 if leadTime (enabledMetrics options)
                 then Some (calculateCycleTime
                              {| latest_sha := Some latest_sha0;
                                 latest_created_at := latest_created_at0 |}
                              previous0)
                 else None |} in
          (* Generate complete metrics object *)
          Collected
            {| generated_at := now;
               metrics_repo :=
                 owner githubClient ++ "/" ++ repo githubClient;
               metrics_source := source0;
               metrics_latest :=
                 {| report_name :=
                      JS.orElse latest_name
                        (JS.orElse latest_tag latest_name);
                    report_tag := JS.orElse latest_tag latest_name;
                    report_sha := Some latest_sha0;
                    report_created_at := Some latest_created_at0 |};
               metrics_previous :=
                 option_map
                   (fun p =>
                      {| report_name :=
                           JS.orElse (d_name p)
                             (JS.orElse (d_tag p) (d_name p));
                         report_tag := JS.orElse (d_tag p) (d_name p);
                         report_sha := d_sha p;
                         report_created_at := d_created_at p |})
                   previous0;
               metrics := metricsData |}
      | _ =>
          CollectError
            "Could not resolve latest release/tag SHA or created_at"
      end
  end.

End Collector.

(** The same client with another answer to [listTags]. *)
Definition withTags (githubClient : GitHubClient)
    (tags : nat -> list Tag) : GitHubClient :=
  {| owner := owner githubClient;
     repo := repo githubClient;
     listReleases := listReleases githubClient;
     listTags := tags;
     resolveTag := resolveTag githubClient;
     compareCommits := compareCommits githubClient;
     getCommit := getCommit githubClient |}.



End Dora.

(** ** Team aggregation (class TeamMetricsCollector) *)

Module Team.

(** The per-PR metrics that [calculatePRMetrics] returns and
    [calculateAggregateStats] reads. *)
Record PRMetrics : Type := {
  pr_number : Z;
  author : string;
  merged : bool;
  pickup_time_hours : option Q;
  approve_time_hours : option Q;
  merge_time_hours : option Q;
  pr_size : option string
}.

Record TimeStat : Type := {
  average_hours : option Q;
  rating : option string;
  sample_size : nat
}.

Record MergeFrequency : Type := {
  mf_value : Q;
  mf_rating : string;
  merged_prs : nat;
  total_prs : nat;
  unique_authors : nat
}.

Record SizeDistribution : Type := {
  small_percent : Z;
  medium_percent : Z;
  large_percent : Z;
  xl_percent : Z;
  unknown_percent : Z;
  predominant_size : string;
  predominant_rating : string;
  predominant_percent : Z
}.

Record AggregateStats : Type := {
  pickup_time : TimeStat;
  approve_time : TimeStat;
  merge_time : TimeStat;
  merge_frequency : MergeFrequency;
  size_distribution : SizeDistribution
}.

(** [xs.map(f).filter((t) => t !== null)] *)
Definition nonNull (f : PRMetrics -> option Q) (prMetrics : list PRMetrics)
    : list Q :=
  flat_map (fun m => match f m with Some t => [t] | None => [] end)
    prMetrics.

(** [xs.length > 0 ? xs.reduce((a, b) => a + b, 0) / xs.length : null] *)
Definition average (xs : list Q) : option Q :=
  if (0 <? length xs)%nat
  then Some (fold_left Qplus xs 0 / inject_Z (Z.of_nat (length xs)))%Q
  else None.

(** The truth value of a number or [null]: [null] and zero are falsy. *)
Definition truthy (x : option Q) : bool :=
  match x with
  | Some v => negb (Qeq_bool v 0)
  | None => false
  end.

(** [Math.round(x * 100) / 100] *)
Definition round2 (x : Q) : Q :=
  (inject_Z (JS.Math_round (x * 100)) / 100)%Q.

Definition Qlt_bool (a b : Q) : bool := negb (Qle_bool b a).

Definition ratePickupTime (hours : Q) : string :=
  if Qlt_bool hours 2 then "Elite"
  else if Qle_bool hours 6 then "Good"
  else if Qle_bool hours 16 then "Fair"
  else "Needs Focus".

Definition rateApproveTime (hours : Q) : string :=
  if Qlt_bool hours 17 then "Elite"
  else if Qle_bool hours 24 then "Good"
  else if Qle_bool hours 45 then "Fair"
  else "Needs Focus".

Definition rateMergeTime (hours : Q) : string :=
  if Qlt_bool hours 2 then "Elite"
  else if Qle_bool hours 5 then "Good"
  else if Qle_bool hours 19 then "Fair"
  else "Needs Focus".

Definition rateMergeFrequency (frequency : Q) : string :=
  if Qlt_bool (16 # 10) frequency then "Elite"
  else if Qle_bool (11 # 10) frequency then "Good"
  else if Qle_bool (6 # 10) frequency then "Fair"
  else "Needs Focus".

Definition ratePRSize (size : string) : string :=
  if String.eqb size "s" then "Elite"
  else if String.eqb size "m" then "Good"
  else if String.eqb size "l" then "Fair"
  else if String.eqb size "xl" then "Needs Focus"
  else "Unknown".

(** The counters [{ s, m, l, xl, unknown }], in the order of their keys. *)
Definition Sizes : Type := list (string * nat).

Definition initialSizes : Sizes :=
  [("s", 0%nat); ("m", 0%nat); ("l", 0%nat); ("xl", 0%nat);
   ("unknown", 0%nat)].

Definition hasOwnProperty (sizes : Sizes) (key : string) : bool :=
  existsb (fun kv => String.eqb (fst kv) key) sizes.

(** [sizes[key]++] *)
Definition increment (sizes : Sizes) (key : string) : Sizes :=
  map (fun kv => if String.eqb (fst kv) key then (fst kv, S (snd kv)) else kv)
    sizes.

(** [sizes[key]] for one of the five keys. *)
Definition count (sizes : Sizes) (key : string) : nat :=
  match find (fun kv => String.eqb (fst kv) key) sizes with
  | Some kv => snd kv
  | None => 0%nat
  end.

(** [Math.round((n / total) * 100)] *)
Definition percent (n total : nat) : Z :=
  JS.Math_round
    (inject_Z (Z.of_nat n) / inject_Z (Z.of_nat total) * 100)%Q.

Definition calculateSizeDistribution (prMetrics : list PRMetrics)
    : SizeDistribution :=
  let total := length prMetrics in
  let sizes :=
    fold_left
      (fun sizes pr =>
         match pr_size pr with
         | Some size =>
             if negb (String.eqb size "") && hasOwnProperty sizes size
             then increment sizes size
             else increment sizes "unknown"
         | None => increment sizes "unknown"
         end)
      prMetrics initialSizes in
  (* Calculate predominant size and rating *)
  let predominant :=
    fold_left
      (fun (acc : string * nat) (entry : string * nat) =>
         if negb (String.eqb (fst entry) "unknown")
            && (snd acc <? snd entry)%nat
         then (fst entry, snd entry)
         else acc)
      sizes ("unknown", 0%nat) in
  let predominantSize := fst predominant in
  let maxCount := snd predominant in
  let predominantRating := ratePRSize predominantSize in
  let predominantPercent :=
    if (0 <? total)%nat then percent maxCount total else 0 in
  {| small_percent :=
       if (0 <? total)%nat then percent (count sizes "s") total else 0;
     medium_percent :=
       if (0 <? total)%nat then percent (count sizes "m") total else 0;
     large_percent :=
       if (0 <? total)%nat then percent (count sizes "l") total else 0;
     xl_percent :=
       if (0 <? total)%nat then percent (count sizes "xl") total else 0;
     unknown_percent :=
       if (0 <? total)%nat then percent (count sizes "unknown") total
       else 0;
     predominant_size := predominantSize;
     predominant_rating := predominantRating;
     predominant_percent := predominantPercent |}.

Section Collector.

(** [this.options.timePeriod] *)
Variable timePeriod : string.

Definition getDaysInPeriod : Z :=
  if String.eqb timePeriod "fortnightly" then 14
  else if String.eqb timePeriod "monthly" then 30
  else 7.

Definition calculateAggregateStats (prMetrics : list PRMetrics)
    : AggregateStats :=
  (* Filter out null values for each metric *)
  let pickupTimes := nonNull pickup_time_hours prMetrics in
  let approveTimes := nonNull approve_time_hours prMetrics in
  let mergeTimes := nonNull merge_time_hours prMetrics in
  (* Calculate averages *)
  let avgPickupTime := average pickupTimes in
  let avgApproveTime := average approveTimes in
  let avgMergeTime := average mergeTimes in
  (* Count merged PRs *)
  let mergedCount := length (filter merged prMetrics) in
  let totalPRs := length prMetrics in
  (* Calculate merge frequency per developer per week *)
  let uniqueAuthors :=
    length (nodup string_dec (map author prMetrics)) in
  let daysInPeriod := getDaysInPeriod in
  let weeksInPeriod := (inject_Z daysInPeriod / 7)%Q in
  let mergeFrequency :=
    if (0 <? uniqueAuthors)%nat && Qlt_bool 0 weeksInPeriod
    then (inject_Z (Z.of_nat mergedCount)
          / (inject_Z (Z.of_nat uniqueAuthors) * weeksInPeriod))%Q
    else 0%Q in
  (* Calculate PR size distribution *)
  let sizeDistribution := calculateSizeDistribution prMetrics in
  {| pickup_time :=
       {| average_hours :=
            if truthy avgPickupTime
            then option_map round2 avgPickupTime
            else None;
          rating :=
            if truthy avgPickupTime
            then option_map ratePickupTime avgPickupTime
            else None;
          sample_size := length pickupTimes |};
     approve_time :=
       {| average_hours :=
            if truthy avgApproveTime
            then option_map round2 avgApproveTime
            else None;
          rating :=
            if truthy avgApproveTime
            then option_map rateApproveTime avgApproveTime
            else None;
          sample_size := length approveTimes |};
     merge_time :=
       {| average_hours :=
            if truthy avgMergeTime
            then option_map round2 avgMergeTime
            else None;
          rating :=
            if truthy avgMergeTime
            then option_map rateMergeTime avgMergeTime
            else None;
          sample_size := length mergeTimes |};
     merge_frequency :=
       {| mf_value := round2 mergeFrequency;
          mf_rating := rateMergeFrequency mergeFrequency;
          merged_prs := mergedCount;
          total_prs := totalPRs;
          unique_authors := uniqueAuthors |};
     size_distribution := sizeDistribution |}.

End Collector.

End Team.

(** ** The scenarios of the test suites, as data *)

Module Scenarios.

Import Maturity.

(** 2024-01-01T10:00:00Z *)
Definition t1000 : Z := 1704103200000.
Definition minutes (n : Z) : Z := n * 60 * 1000.

Definition noGlob (pattern name : string) : bool := false.

Definition file (name : string) (a d : Z) : PRFile :=
  {| filename := name; status := None;
     additions := Some a; deletions := Some d |}.

(** debug-maturity.test.js, "scenario with multiple commits". *)
Definition multipleCommits : GitHubClient :=
  {| getPullRequest := fun _ => Some {| created_at := t1000 |};
     getPullRequestCommits := fun _ =>
       Some [ {| sha := "commit1-sha"; author_date := t1000 - minutes 2 |};
              {| sha := "commit2-sha"; author_date := t1000 + minutes 2 |};
              {| sha := "commit3-sha"; author_date := t1000 + minutes 15 |} ];
     getPullRequestFiles := fun _ =>
       Some [ file "src/file1.js" 50 10;
              file "src/file2.js" 30 5;
              file "test/file1.test.js" 20 0 ];
     compareCommitsDiff := fun _ _ =>
       Some {| files := Some [ file "test/file1.test.js" 20 0 ] |} |}.


(** debug-maturity.test.js, "all commits within grace period". *)
Definition allWithinGrace : GitHubClient :=
  {| getPullRequest := fun _ => Some {| created_at := t1000 |};
     getPullRequestCommits := fun _ =>
       Some [ {| sha := "commit1-sha"; author_date := t1000 - minutes 2 |};
              {| sha := "commit2-sha"; author_date := t1000 + minutes 2 |} ];
     getPullRequestFiles := fun _ =>
       Some [ file "src/main.js" 100 50; file "test/main.test.js" 30 0 ];
     compareCommitsDiff := fun _ _ => None |}.

(** debug-maturity.test.js, "single commit PR". *)
Definition singleCommit : GitHubClient :=
  {| getPullRequest := fun _ => Some {| created_at := t1000 |};
     getPullRequestCommits := fun _ =>
       Some [ {| sha := "single-commit-sha";
                 author_date := t1000 - minutes 5 |} ];
     getPullRequestFiles := fun _ => Some [ file "src/feature.js" 75 25 ];
     compareCommitsDiff := fun _ _ => None |}.

(** A PR whose second commit, pushed a quarter of an hour after the PR
    was opened, rewrites what the first one added: the PR as a whole
    changes 10 lines, the diff from the first to the last commit 25. *)
Definition rewrittenAfterPublication : GitHubClient :=
  {| getPullRequest := fun _ => Some {| created_at := t1000 |};
     getPullRequestCommits := fun _ =>
       Some [ {| sha := "commit1-sha"; author_date := t1000 - minutes 2 |};
              {| sha := "commit2-sha"; author_date := t1000 + minutes 15 |} ];
     getPullRequestFiles := fun _ => Some [ file "src/app.js" 10 0 ];
     compareCommitsDiff := fun _ _ =>
       Some {| files := Some [ file "src/app.js" 20 5 ] |} |}.

End Scenarios.

Module DoraScenarios.

Import Dora.

(** 2023-01-01T00:00:00Z *)
Definition jan1 : Z := 1672531200000.
Definition hours (n : Z) : Z := n * 3600 * 1000.

Definition commitAt (s : string) (date : Z) (ps : list string) (m : string)
    : Commit :=
  {| sha := s; committer_date := Some date; author_date := None;
     parents := Some ps; message := Some m |}.

Definition resolved (n s : string) (date : Z) : ResolvedTag :=
  {| resolved_name := Some n; resolved_sha := Some s;
     resolved_created_at := Some date |}.

(** metrics-collector.test.js, "should collect metrics from releases". *)
Definition fromReleases : GitHubClient :=
  {| owner := "test-owner";
     repo := "test-repo";
     listReleases := fun _ =>
       [ {| name := Some "v2.0.0"; tag_name := "v2.0.0";
            created_at := jan1 + hours 24 |};
         {| name := Some "v1.0.0"; tag_name := "v1.0.0";
            created_at := jan1 |} ];
     listTags := fun _ => [];
     resolveTag := fun n =>
       if String.eqb n "v2.0.0"
       then Some {| resolved_name := None; resolved_sha := Some "sha2";
                    resolved_created_at := None |}
       else Some {| resolved_name := None; resolved_sha := Some "sha1";
                    resolved_created_at := None |};
     compareCommits := fun _ _ =>
       {| commits :=
            Some [ commitAt "commit1" (jan1 + hours 12) ["parent"]
                     "Test commit" ] |};
     getCommit := fun _ => None |}.

(** metrics-collector.test.js, "should fallback to tags when no
    releases". *)
Definition fromTags : GitHubClient :=
  {| owner := "test-owner";
     repo := "test-repo";
     listReleases := fun _ => [];
     listTags := fun _ => [ {| tag := "v1.0.0" |}; {| tag := "v0.9.0" |} ];
     resolveTag := fun n =>
       if String.eqb n "v1.0.0"
       then Some (resolved "v1.0.0" "sha1" jan1)
       else Some (resolved "v0.9.0" "sha0" (jan1 - hours 24));
     compareCommits := fun _ _ => {| commits := Some [] |};
     getCommit := fun _ => None |}.

(** metrics-collector.test.js, "should handle error when no releases or
    tags". *)
Definition noDeployments : GitHubClient :=
  {| owner := "test-owner";
     repo := "test-repo";
     listReleases := fun _ => [];
     listTags := fun _ => [];
     resolveTag := fun _ => None;
     compareCommits := fun _ _ => {| commits := Some [] |};
     getCommit := fun _ => None |}.


(** metrics-collector.test.js, "should exclude merge commits from newest
    calculation". *)
Definition regular : Commit :=
  commitAt "commit1" (jan1 + hours 12) ["parent"] "Regular commit".
Definition merge : Commit :=
  commitAt "commit2" (jan1 + hours 18) ["parent1"; "parent2"] "Merge commit".

Definition mergeAndRegular : GitHubClient :=
  {| owner := "test-owner";
     repo := "test-repo";
     listReleases := fun _ => [];
     listTags := fun _ => [];
     resolveTag := fun _ => None;
     compareCommits := fun _ _ => {| commits := Some [ regular; merge ] |};
     getCommit := fun _ => None |}.

(** A range of merge commits only. *)
Definition merge2 : Commit :=
  commitAt "commit3" (jan1 + hours 20) ["parent2"; "parent3"] "Merge commit".

Definition mergesOnly : GitHubClient :=
  {| owner := "test-owner";
     repo := "test-repo";
     listReleases := fun _ => [];
     listTags := fun _ => [];
     resolveTag := fun _ => None;
     compareCommits := fun _ _ => {| commits := Some [ merge; merge2 ] |};
     getCommit := fun _ => None |}.

(** A merge commit and a commit with one parent whose committer and
    author dates are both missing. *)
Definition undated : Commit :=
  {| sha := "commit0"; committer_date := None; author_date := None;
     parents := Some ["parent"]; message := Some "Regular commit" |}.

Definition mergeAndUndated : GitHubClient :=
  {| owner := "test-owner";
     repo := "test-repo";
     listReleases := fun _ => [];
     listTags := fun _ => [];
     resolveTag := fun _ => None;
     compareCommits := fun _ _ => {| commits := Some [ undated; merge ] |};
     getCommit := fun _ => None |}.

Definition latestJan2 : Latest :=
  {| latest_sha := None; latest_created_at := jan1 + hours 24 |}.

Definition previousSha : option Deployment :=
  Some {| d_name := None; d_tag := None; d_sha := Some "prev-sha";
          d_created_at := None |}.

End DoraScenarios.

(** ** More of the team collector, and the ratings of the output manager *)

Module TeamMore.

Import Team.

Definition rateDeployFrequency (frequency : Q) : string :=
  if Qlt_bool (9 # 10) frequency then "Elite"
  else if Qle_bool (5 # 10) frequency then "Good"
  else if Qle_bool (2 # 10) frequency then "Fair"
  else "Needs Focus".

Definition rateCycleTime (hours : Q) : string :=
  if Qlt_bool hours 45 then "Elite"
  else if Qle_bool hours 95 then "Good"
  else if Qle_bool hours 169 then "Fair"
  else "Needs Focus".

(** [ratePRMaturity]; a percentage that is [null] or [undefined] is
    [None]. *)
Definition ratePRMaturity (percentage : option Q) : string :=
  match percentage with
  | None => "Unknown"
  | Some p =>
      if Qlt_bool 88 p then "Elite"
      else if Qle_bool 81 p then "Good"
      else if Qle_bool 75 p then "Fair"
      else "Needs Focus"
  end.

(** The order of the tiers, best first, by which the rating tables are
    compared. *)
Definition tierRank (rating : string) : nat :=
  if String.eqb rating "Elite" then 0
  else if String.eqb rating "Good" then 1
  else if String.eqb rating "Fair" then 2
  else if String.eqb rating "Needs Focus" then 3
  else 4.

(** The counters of [calculateSizeDistribution] after its [forEach]. *)
Definition sizesOf (prMetrics : list PRMetrics) : Sizes :=
  fold_left
    (fun sizes pr =>
       match pr_size pr with
       | Some size =>
           if negb (String.eqb size "") && hasOwnProperty sizes size
           then increment sizes size
           else increment sizes "unknown"
       | None => increment sizes "unknown"
       end)
    prMetrics initialSizes.

(** The number of PRs whose size is [key]. *)
Definition withSize (key : string) (prMetrics : list PRMetrics) : nat :=
  length
    (filter
       (fun pr =>
          match pr_size pr with
          | Some size => String.eqb size key
          | None => false
          end)
       prMetrics).

(** The number of PRs whose size is none of [s], [m], [l] and [xl], or
    absent. *)
Definition withoutSize (prMetrics : list PRMetrics) : nat :=
  length
    (filter
       (fun pr =>
          match pr_size pr with
          | Some size =>
              negb (String.eqb size "s" || String.eqb size "m"
                    || String.eqb size "l" || String.eqb size "xl")
          | None => true
          end)
       prMetrics).

(** *** Review times *)

(** A timeline event: [event], [created_at] and [user?.type]. *)
Record TimelineEvent : Type := {
  event : string;
  event_created_at : option Z;
  user_type : option string
}.

Record Review : Type := {
  state : string;
  submitted_at : option Z
}.

(** What the three calculators return: [null], a number of hours, or
    the [NaN] that a missing date gives. *)
Inductive Duration : Type :=
| Null
| NotANumber
| Hours (hours : Q).

(** [Math.round((diffMs / (1000 * 60 * 60)) * 100) / 100] *)
Definition roundedHours (diffMs : Z) : Q :=
  round2 (inject_Z diffMs / inject_Z (1000 * 60 * 60)).

(** [a - b] on two dates of which the first may be invalid. *)
Definition since (later : option Z) (earlier : Z) : Duration :=
  match later with
  | Some t => Hours (roundedHours (t - earlier))
  | None => NotANumber
  end.

(** The reviews that have a submission date, each with its date. *)
Definition submitted (reviews : list Review) : list (Z * Review) :=
  flat_map
    (fun r =>
       match submitted_at r with
       | Some t => [(t, r)]
       | None => []
       end)
    reviews.

(** [Array.prototype.sort] with the comparator [a - b] on the dates: a
    stable sort, of which the result does not depend on the algorithm;
    by insertion here. *)
Fixpoint insertByDate (x : Z * Review) (sorted : list (Z * Review))
    : list (Z * Review) :=
  match sorted with
  | [] => [x]
  | y :: rest =>
      if fst x <=? fst y then x :: y :: rest
      else y :: insertByDate x rest
  end.

Definition sortByDate (l : list (Z * Review)) : list (Z * Review) :=
  fold_right insertByDate [] l.

Definition isReviewActivity (e : TimelineEvent) : bool :=
  String.eqb (event e) "reviewed"
  || String.eqb (event e) "commented"
  || String.eqb (event e) "line-commented".

(** [arr?.find(p)] *)
Definition findIn {A : Type} (p : A -> bool) (arr : option (list A))
    : option A :=
  match arr with
  | Some l => find p l
  | None => None
  end.

(** The events that [calculatePickupTime] looks for: a review, a comment,
    or a line comment of a user that is not a bot. *)
Definition isPickupActivity (e : TimelineEvent) : bool :=
  String.eqb (event e) "reviewed"
  || String.eqb (event e) "commented"
  || (String.eqb (event e) "line-commented"
      && negb match user_type e with
              | Some type => String.eqb type "Bot"
              | None => false
              end).

Definition isApproved (review : Review) : bool :=
  String.eqb (state review) "APPROVED".

Definition calculatePickupTime (createdAt : Z)
    (timeline : option (list TimelineEvent))
    (reviews : option (list Review)) : Duration :=
  (* Find first review comment or review *)
  let firstReviewComment := findIn isPickupActivity timeline in
  (* Find first review (sorted by submission time) *)
  let sortedReviews :=
    option_map (fun rs => sortByDate (submitted rs)) reviews in
  let firstReview :=
    match sortedReviews with
    | Some (first :: _) => Some first
    | _ => None
    end in
  let firstActivityTime : option (option Z) :=
    match firstReviewComment, firstReview with
    | Some comment, Some (reviewTime, _) =>
        Some match event_created_at comment with
             | Some commentTime =>
                 if commentTime <? reviewTime
                 then Some commentTime
                 else Some reviewTime
             | None => Some reviewTime
             end
    | Some comment, None => Some (event_created_at comment)
    | None, Some (reviewTime, _) => Some (Some reviewTime)
    | None, None => None
    end in
  match firstActivityTime with
  | None => Null
  | Some time => since time createdAt
  end.

Definition calculateApproveTime (createdAt : Z)
    (timeline : option (list TimelineEvent))
    (reviews : option (list Review)) : Duration :=
  (* Find first approval *)
  match findIn isApproved reviews with
  | None => Null
  | Some firstApproval =>
      (* Find first review activity (excluding the approval itself) *)
      let firstComment :=
        findIn
          (fun e =>
             isReviewActivity e
             && match event_created_at e, submitted_at firstApproval with
                | Some commentTime, Some approvalTime =>
                    commentTime <? approvalTime
                | _, _ => false
                end)
          timeline in
      let startTime :=
        match firstComment with
        | Some {| event_created_at := Some commentTime |} => commentTime
        | _ => createdAt
        end in
      since (submitted_at firstApproval) startTime
  end.

Definition calculateMergeTime (mergedAt : Z)
    (reviews : option (list Review)) : Duration :=
  match findIn isApproved reviews with
  | None => Null
  | Some firstApproval =>
      match submitted_at firstApproval with
      | Some approvalTime => Hours (roundedHours (mergedAt - approvalTime))
      | None => NotANumber
      end
  end.

End TeamMore.

(** outputs.js *)

Module Outputs.

Import Team.

Definition getMaturityLevel (percentage : option Q) : string :=
  match percentage with
  | None => "Unknown"
  | Some p =>
      if Qlt_bool 88 p then "Elite"
      else if Qle_bool 81 p then "Good"
      else if Qle_bool 75 p then "Fair"
      else "Needs Focus"
  end.

End Outputs.

Module ReviewScenarios.

Import DoraScenarios TeamMore.

(** A PR opened on 1 January, commented after one hour, reviewed after
    two and approved after five. *)
Definition commentedThenApproved : list TimelineEvent :=
  [ {| event := "labeled"; event_created_at := Some (jan1 + hours 0);
       user_type := Some "User" |};
    {| event := "commented"; event_created_at := Some (jan1 + hours 1);
       user_type := Some "User" |} ].

Definition changesThenApproval : list Review :=
  [ {| state := "APPROVED"; submitted_at := Some (jan1 + hours 5) |};
    {| state := "CHANGES_REQUESTED";
       submitted_at := Some (jan1 + hours 2) |};
    {| state := "PENDING"; submitted_at := None |} ].

End ReviewScenarios.

Module DoraMoreScenarios.

Import Dora DoraScenarios.

(** The configuration of the test "should include merge commits when
    configured". *)
Definition includingMerges : Options :=
  {| includeMergeCommits := true;
     maxReleases := 100;
     maxTags := 100;
     enabledMetrics :=
       {| deploymentFrequency := true; leadTime := true |} |}.

(** metrics-collector.test.js, "should handle single tag scenario". *)
Definition singleTag : GitHubClient :=
  {| owner := "test-owner";
     repo := "test-repo";
     listReleases := fun _ => [];
     listTags := fun _ => [ {| tag := "v1.0.0" |} ];
     resolveTag := fun _ => Some (resolved "v1.0.0" "sha1" jan1);
     compareCommits := fun _ _ => {| commits := Some [] |};
     getCommit := fun _ =>
       Some (commitAt "commit1" (jan1 + hours 12) ["parent"]
               "Initial commit") |}.

Definition latestJan1 : Latest :=
  {| latest_sha := Some "sha1"; latest_created_at := jan1 |}.

End DoraMoreScenarios.

(** ** Sums over file lists *)

Module Sums.

Import Maturity.

(** The additions and the deletions of a list of files, [x || 0] each. *)
Definition additionsOf (fs : list PRFile) : Z :=
  fold_right (fun file total => JS.orZero (additions file) + total) 0 fs.

Definition deletionsOf (fs : list PRFile) : Z :=
  fold_right (fun file total => JS.orZero (deletions file) + total) 0 fs.

(** A file whose counts are natural numbers, as the API reports them. *)
Definition countsNonNegative (file : PRFile) : Prop :=
  0 <= JS.orZero (additions file) /\ 0 <= JS.orZero (deletions file).

End Sums.

(** ** PR maturity, with the error path of the calculator

    The body of [calculatePRMaturity] runs in a [try]: what it throws is
    caught and reported as a result without ratio and percentage, with
    the message of the exception in [details.error]. Within the body
    [filterFiles] compiles every ignore pattern it tries with
    [new RegExp], which throws a SyntaxError on a text that is not a
    regular expression. [Maturity] above is the calculator for an engine
    that compiles every pattern; here the engine may throw. *)

Module MaturityErrors.

Import Maturity.

Import Dora(Outcome(..)).

(** Sequencing: an exception ends the computation. *)
Definition bind {A B : Type} (x : Outcome A) (f : A -> Outcome B)
    : Outcome B :=
  match x with
  | Returns a => f a
  | Throws error_message => Throws error_message
  end.

Notation "'let*' x ':=' e 'in' k" := (bind e (fun x => k))
  (at level 10, x name, e at level 100, k at level 200).

(** [try { return body } catch (error) { return handler(error.message) }] *)
Definition tryCatch {A : Type} (body : Outcome A) (handler : string -> A)
    : A :=
  match body with
  | Returns a => a
  | Throws error_message => handler error_message
  end.

(** [xs.some(callback)], for a callback that may throw: the elements
    are tried in order, up to the first for which it answers true. *)
Fixpoint Array_some {A : Type} (callback : A -> Outcome bool)
    (xs : list A) : Outcome bool :=
  match xs with
  | [] => Returns false
  | x :: rest =>
      let* found := callback x in
      if found then Returns true else Array_some callback rest
  end.

(** [xs.filter(callback)], for a callback that may throw. *)
Fixpoint Array_filter {A : Type} (callback : A -> Outcome bool)
    (xs : list A) : Outcome (list A) :=
  match xs with
  | [] => Returns []
  | x :: rest =>
      let* keep := callback x in
      let* kept := Array_filter callback rest in
      Returns (if keep then x :: kept else kept)
  end.

(** [s.replace(/c/g, replacement)] for a character [c]. *)
Fixpoint replaceAll (c : ascii) (replacement s : string) : string :=
  match s with
  | EmptyString => EmptyString
  | String a rest =>
      if Ascii.eqb a c then replacement ++ replaceAll c replacement rest
      else String a (replaceAll c replacement rest)
  end.

(** The text that [filterFiles] compiles for an ignore pattern:
    [`^${pattern.replace(/\*/g, '.*').replace(/\?/g, '.')}$`]. *)
Definition regexSource (pattern : string) : string :=
  "^" ++ replaceAll "?" "." (replaceAll "*" ".*" pattern) ++ "$".

Section Collector.

(** [RegExp source] stands for [new RegExp(source)] in the engine of the
    host: it throws, or returns a regular expression, given by its
    [test]. *)
Variable RegExp : string -> Outcome (string -> bool).
Variable githubClient : GitHubClient.
Variable options : Options.

Definition filterFiles (fs : list PRFile) : Outcome (list PRFile) :=
  Array_filter
    (fun file =>
       if ignoreFileDeletions options && isRemoved file then Returns false
       else if (0 <? length (filesToIgnore options))%nat then
         let* shouldIgnore :=
           Array_some
             (fun pattern =>
                let* regex := RegExp (regexSource pattern) in
                Returns (regex (filename file)))
             (filesToIgnore options) in
         if shouldIgnore then Returns false else Returns true
       else Returns true)
    fs.

(** [calculatePRMaturity], with its [try] and [catch]. *)
Definition calculatePRMaturity (prNumber : Z) : MaturityResult :=
  tryCatch
  (match getPullRequest githubClient prNumber with
  | None => Returns (failure "Could not fetch PR details")
  | Some prDetails =>
  match getPullRequestCommits githubClient prNumber with
  | None => Returns (failure "No commits found in PR")
  | Some [] => Returns (failure "No commits found in PR")
  | Some ((first :: others) as prCommits) =>
  let prCreatedAt := created_at prDetails in
  if (length prCommits =? 1)%nat then
    (* Single commit case *)
    let prFiles := getPullRequestFiles githubClient prNumber in
    let* filteredFiles := filterFiles (JS.orEmpty prFiles) in
    let sizeDetails := calculateSizeDetails options filteredFiles in
    Returns
    {| maturity_ratio := Some 1%Q;
       maturity_percentage := Some 100;
       details := DetailsOk
         {| total_commits := 1;
            commits_after_publication := None;
            total_changes := size_total_changes sizeDetails;
            changes_after_publication := 0;
            stable_changes := size_total_changes sizeDetails;
            first_commit_sha := sha first;
            last_commit_sha := sha first;
            baseline_commit_sha := None;
            first_significant_commit_sha := None;
            pr_created_at := prCreatedAt;
            reason := reasonSingle |} |}
  else
  (* Check for commits within grace period *)
  let commitsWithinGracePeriod :=
    filter (withinGracePeriod prCreatedAt) prCommits in
  if (length commitsWithinGracePeriod =? length prCommits)%nat then
    let prFiles := getPullRequestFiles githubClient prNumber in
    let* filteredFiles := filterFiles (JS.orEmpty prFiles) in
    let sizeDetails := calculateSizeDetails options filteredFiles in
    Returns
    {| maturity_ratio := Some 1%Q;
       maturity_percentage := Some 100;
       details := DetailsOk
         {| total_commits := length prCommits;
            commits_after_publication := None;
            total_changes := size_total_changes sizeDetails;
            changes_after_publication := 0;
            stable_changes := size_total_changes sizeDetails;
            first_commit_sha := sha first;
            last_commit_sha := sha (last prCommits first);
            baseline_commit_sha := None;
            first_significant_commit_sha := None;
            pr_created_at := prCreatedAt;
            reason := reasonGrace |} |}
  else
  (* Find significant commits after PR creation *)
  let significantCommitsAfterPR :=
    filter (isSignificant prCreatedAt) prCommits in
  match significantCommitsAfterPR with
  | [] =>
    let prFiles := getPullRequestFiles githubClient prNumber in
    let* filteredFiles := filterFiles (JS.orEmpty prFiles) in
    let sizeDetails := calculateSizeDetails options filteredFiles in
    Returns
    {| maturity_ratio := Some 1%Q;
       maturity_percentage := Some 100;
       details := DetailsOk
         {| total_commits := length prCommits;
            commits_after_publication := None;
            total_changes := size_total_changes sizeDetails;
            changes_after_publication := 0;
            stable_changes := size_total_changes sizeDetails;
            first_commit_sha := sha first;
            last_commit_sha := sha (last prCommits first);
            baseline_commit_sha := None;
            first_significant_commit_sha := None;
            pr_created_at := prCreatedAt;
            reason := reasonNoSignificant |} |}
  | firstSignificantCommit :: _ =>
  (* Calculate maturity based on significant changes *)
  let lastCommit := last prCommits first in
  let baselineCommit :=
    baselineCommitOf first prCommits firstSignificantCommit in
  (* Get total PR changes *)
  let prFiles := getPullRequestFiles githubClient prNumber in
  let* filteredFiles := filterFiles (JS.orEmpty prFiles) in
  let totalPRChanges := calculateSizeDetails options filteredFiles in
  (* Get changes after baseline *)
  match compareCommitsDiff githubClient (sha baselineCommit) (sha lastCommit)
  with
  | None =>
      Returns (failure "Could not compare commits for maturity analysis")
  | Some changesAfterPublicationDiff =>
  let changesAfterPublication :=
    calculateDiffSize (JS.orEmpty (files changesAfterPublicationDiff)) in
  (* Calculate maturity *)
  let stableChanges :=
    Z.max 0 (size_total_changes totalPRChanges - changesAfterPublication) in
  let maturityRatio : Q :=
    if 0 <? size_total_changes totalPRChanges
    then (inject_Z stableChanges
          / inject_Z (size_total_changes totalPRChanges))%Q
    else 1%Q in
  let maturityPercentage := JS.Math_round (maturityRatio * 100)%Q in
  Returns
  {| maturity_ratio :=
       Some (inject_Z (JS.Math_round (maturityRatio * 1000)%Q) / 1000)%Q;
     maturity_percentage := Some maturityPercentage;
     details := DetailsOk
       {| total_commits := length prCommits;
          commits_after_publication := Some (length significantCommitsAfterPR);
          total_changes := size_total_changes totalPRChanges;
          changes_after_publication := changesAfterPublication;
          stable_changes := stableChanges;
          first_commit_sha := sha first;
          last_commit_sha := sha lastCommit;
          baseline_commit_sha := Some (sha baselineCommit);
          first_significant_commit_sha := Some (sha firstSignificantCommit);
          pr_created_at := prCreatedAt;
          reason := reasonGeneral |} |}
  end
  end
  end
  end)
  failure.

End Collector.

(** An engine that compiles every pattern: [test source] is the [test]
    of the regular expression of that source. *)
Definition compiling (test : string -> string -> bool)
    : string -> Outcome (string -> bool) :=
  fun source => Returns (test source).

End MaturityErrors.

Module ErrorScenarios.

Import Maturity.

(** An ignore list meant for C++ sources. *)
Definition ignoreCpp : Options :=
  {| filesToIgnore := ["*.c++"]; ignoreLineDeletions := false;
     ignoreFileDeletions := false |}.

(** The engine on the scenarios with [ignoreCpp]: the one text they
    compile, [^.*.c++$], is not a regular expression (the second [+] has
    nothing to repeat), and [new RegExp] throws its SyntaxError. No other
    text is compiled there. *)
Definition nothingToRepeat : string :=
  "Invalid regular expression: /^.*.c++$/: Nothing to repeat".

Definition engine (source : string)
    : Dora.Outcome (string -> bool) :=
  if String.eqb source "^.*.c++$" then Dora.Throws nothingToRepeat
  else Dora.Returns (fun _ => false).

End ErrorScenarios.

(** ** Team aggregation on binary64 numbers

    The durations of a PR are JavaScript numbers, IEEE 754 binary64, and
    [calculateAggregateStats] adds, divides and tests them as such: a
    sum that is zero as a sum of rationals need not be computed as zero.
    This is the aggregation on the numbers of the machine ([float], with
    the operations of the kernel), where a duration may also be [NaN].
    [Math.round] is defined on them by the value it has to return. *)

Module TeamBinary64.

#[local] Set Warnings "-inexact-float".

Record PRMetrics : Type := {
  pr_number : Z;
  author : string;
  merged : bool;
  pickup_time_hours : option float;
  approve_time_hours : option float;
  merge_time_hours : option float;
  pr_size : option string
}.

Record TimeStat : Type := {
  average_hours : option float;
  rating : option string;
  sample_size : nat
}.

Record MergeFrequency : Type := {
  mf_value : float;
  mf_rating : string;
  merged_prs : nat;
  total_prs : nat;
  unique_authors : nat
}.

Record SizeDistribution : Type := {
  small_percent : float;
  medium_percent : float;
  large_percent : float;
  xl_percent : float;
  unknown_percent : float;
  predominant_size : string;
  predominant_rating : string;
  predominant_percent : float
}.

Record AggregateStats : Type := {
  pickup_time : TimeStat;
  approve_time : TimeStat;
  merge_time : TimeStat;
  merge_frequency : MergeFrequency;
  size_distribution : SizeDistribution
}.

(** An integer as a number: exact for the natural numbers below 2^53,
    as the lengths and counts of the calculator are. *)
Definition ofZ (z : Z) : float := PrimFloat.of_uint63 (Uint63.of_Z z).
Definition ofNat (n : nat) : float := ofZ (Z.of_nat n).

(** The rational that a finite number is: no rounding is involved. *)
Definition exactValue (x : float) : option Q :=
  match Prim2SF x with
  | S754_zero _ => Some 0%Q
  | S754_finite negative mantissa exponent =>
      Some ((if negative then -1 else 1)
            * inject_Z (Zpos mantissa) * Qpower 2 exponent)%Q
  | _ => None
  end.

(** [Math.round]: the nearest integer, ties towards plus infinity. A
    number without fraction, an infinity and [NaN] are returned as they
    are; what rounds to zero from below is the negative zero. *)
Definition Math_round (x : float) : float :=
  match Prim2SF x, exactValue x with
  | S754_finite negative _ exponent, Some value =>
      if 0 <=? exponent then x
      else
        let n := Qfloor (value + (1 # 2)) in
        if n =? 0 then (if negative then (-0)%float else 0%float)
        else if 0 <? n then ofZ n
        else (- ofZ (- n))%float
  | _, _ => x
  end.

(** [xs.map(f).filter((t) => t !== null)] *)
Definition nonNull (f : PRMetrics -> option float)
    (prMetrics : list PRMetrics) : list float :=
  flat_map (fun m => match f m with Some t => [t] | None => [] end)
    prMetrics.

(** [xs.length > 0 ? xs.reduce((a, b) => a + b, 0) / xs.length : null] *)
Definition average (xs : list float) : option float :=
  if (0 <? length xs)%nat
  then Some (fold_left PrimFloat.add xs 0 / ofNat (length xs))%float
  else None.

(** The truth value of a number or [null]: [null], the two zeros and
    [NaN] are falsy. *)
Definition truthy (x : option float) : bool :=
  match x with
  | Some v => negb (v =? 0)%float && (v =? v)%float
  | None => false
  end.

Definition ratePickupTime (hours : float) : string :=
  if (hours <? 2)%float then "Elite"
  else if (hours <=? 6)%float then "Good"
  else if (hours <=? 16)%float then "Fair"
  else "Needs Focus".

Definition rateApproveTime (hours : float) : string :=
  if (hours <? 17)%float then "Elite"
  else if (hours <=? 24)%float then "Good"
  else if (hours <=? 45)%float then "Fair"
  else "Needs Focus".

Definition rateMergeTime (hours : float) : string :=
  if (hours <? 2)%float then "Elite"
  else if (hours <=? 5)%float then "Good"
  else if (hours <=? 19)%float then "Fair"
  else "Needs Focus".

Definition rateMergeFrequency (frequency : float) : string :=
  if (1.6 <? frequency)%float then "Elite"
  else if (1.1 <=? frequency)%float then "Good"
  else if (0.6 <=? frequency)%float then "Fair"
  else "Needs Focus".

Section Collector.

(** [this.options.timePeriod] *)
Variable timePeriod : string.

(** [Math.round(x * 100) / 100] *)
Definition round2 (x : float) : float :=
  (Math_round (x * 100) / 100)%float.

(** [Math.round((n / total) * 100)] *)
Definition percent (n total : nat) : float :=
  Math_round ((ofNat n / ofNat total) * 100)%float.

Definition calculateSizeDistribution (prMetrics : list PRMetrics)
    : SizeDistribution :=
  let total := length prMetrics in
  let sizes :=
    fold_left
      (fun sizes pr =>
         match pr_size pr with
         | Some size =>
             if negb (String.eqb size "") && Team.hasOwnProperty sizes size
             then Team.increment sizes size
             else Team.increment sizes "unknown"
         | None => Team.increment sizes "unknown"
         end)
      prMetrics Team.initialSizes in
  (* Calculate predominant size and rating *)
  let predominant :=
    fold_left
      (fun (acc : string * nat) (entry : string * nat) =>
         if negb (String.eqb (fst entry) "unknown")
            && (snd acc <? snd entry)%nat
         then (fst entry, snd entry)
         else acc)
      sizes ("unknown", 0%nat) in
  let predominantSize := fst predominant in
  let maxCount := snd predominant in
  let predominantRating := Team.ratePRSize predominantSize in
  let predominantPercent :=
    if (0 <? total)%nat then percent maxCount total else 0%float in
  {| small_percent :=
       if (0 <? total)%nat then percent (Team.count sizes "s") total
       else 0%float;
     medium_percent :=
       if (0 <? total)%nat then percent (Team.count sizes "m") total
       else 0%float;
     large_percent :=
       if (0 <? total)%nat then percent (Team.count sizes "l") total
       else 0%float;
     xl_percent :=
       if (0 <? total)%nat then percent (Team.count sizes "xl") total
       else 0%float;
     unknown_percent :=
       if (0 <? total)%nat then percent (Team.count sizes "unknown") total
       else 0%float;
     predominant_size := predominantSize;
     predominant_rating := predominantRating;
     predominant_percent := predominantPercent |}.

Definition calculateAggregateStats (prMetrics : list PRMetrics)
    : AggregateStats :=
  (* Filter out null values for each metric *)
  let pickupTimes := nonNull pickup_time_hours prMetrics in
  let approveTimes := nonNull approve_time_hours prMetrics in
  let mergeTimes := nonNull merge_time_hours prMetrics in
  (* Calculate averages *)
  let avgPickupTime := average pickupTimes in
  let avgApproveTime := average approveTimes in
  let avgMergeTime := average mergeTimes in
  (* Count merged PRs *)
  let mergedCount := length (filter merged prMetrics) in
  let totalPRs := length prMetrics in
  (* Calculate merge frequency per developer per week *)
  let uniqueAuthors :=
    length (nodup string_dec (map author prMetrics)) in
  let daysInPeriod := ofZ (Team.getDaysInPeriod timePeriod) in
  let weeksInPeriod := (daysInPeriod / 7)%float in
  let mergeFrequency :=
    if (0 <? uniqueAuthors)%nat && (0 <? weeksInPeriod)%float
    then (ofNat mergedCount / (ofNat uniqueAuthors * weeksInPeriod))%float
    else 0%float in
  (* Calculate PR size distribution *)
  let sizeDistribution := calculateSizeDistribution prMetrics in
  {| pickup_time :=
       {| average_hours :=
            if truthy avgPickupTime
            then option_map round2 avgPickupTime
            else None;
          rating :=
            if truthy avgPickupTime
            then option_map ratePickupTime avgPickupTime
            else None;
          sample_size := length pickupTimes |};
     approve_time :=
       {| average_hours :=
            if truthy avgApproveTime
            then option_map round2 avgApproveTime
            else None;
          rating :=
            if truthy avgApproveTime
            then option_map rateApproveTime avgApproveTime
            else None;
          sample_size := length approveTimes |};
     merge_time :=
       {| average_hours :=
            if truthy avgMergeTime
            then option_map round2 avgMergeTime
            else None;
          rating :=
            if truthy avgMergeTime
            then option_map rateMergeTime avgMergeTime
            else None;
          sample_size := length mergeTimes |};
     merge_frequency :=
       {| mf_value := round2 mergeFrequency;
          mf_rating := rateMergeFrequency mergeFrequency;
          merged_prs := mergedCount;
          total_prs := totalPRs;
          unique_authors := uniqueAuthors |};
     size_distribution := sizeDistribution |}.

End Collector.


(** The sum of finite numbers as a sum of rationals. *)
Definition exactSum (xs : list float) : option Q :=
  fold_left
    (fun sum x =>
       match sum, exactValue x with
       | Some s, Some v => Some (s + v)%Q
       | _, _ => None
       end)
    xs (Some 0%Q).

End TeamBinary64.

Module Binary64Scenarios.

Import TeamBinary64.

#[local] Set Warnings "-inexact-float".

(** A merged PR of which only the delay from approval to merge is
    known. *)
Definition mergedAfter (hours : float) : PRMetrics :=
  {| pr_number := 1; author := "octocat"; merged := true;
     pickup_time_hours := None; approve_time_hours := None;
     merge_time_hours := Some hours; pr_size := Some "s" |}.

(** Two PRs merged 0.1 and 0.2 hours after their approval, two merged
    as long before it. *)
Definition cancelling : list PRMetrics :=
  map mergedAfter [0.1; 0.2; -0.1; -0.2]%float.

(** A PR approved in the second of its first review and merged in the
    second of its approval. *)
Definition promptReview : PRMetrics :=
  {| pr_number := 1;
     author := "octocat";
     merged := true;
     pickup_time_hours := Some 0%float;
     approve_time_hours := Some 0%float;
     merge_time_hours := Some 0%float;
     pr_size := Some "s" |}.

(** A PR without review activity. *)
Definition unreviewed : PRMetrics :=
  {| pr_number := 2;
     author := "hubot";
     merged := false;
     pickup_time_hours := None;
     approve_time_hours := None;
     merge_time_hours := None;
     pr_size := None |}.

(** A PR whose first review has no date: the delay is not a number. *)
Definition undatedReview : list PRMetrics :=
  map mergedAfter [1.5; nan]%float.

End Binary64Scenarios.

(** * Properties *)

(** ** PR maturity *)

Module MaturityFacts.

Import Maturity.

(** Division by the minute, against the five-minute threshold, is a
    comparison of milliseconds. *)
Lemma minutes_le_5 (ms : Z) :
  Qle_bool (inject_Z ms / inject_Z (1000 * 60)) 5 = (ms <=? 300000).
Proof.
  unfold Qle_bool, Qdiv, Qmult, Qinv, inject_Z; cbn.
  destruct (Z.leb_spec (ms * 1 * 1) 300000), (Z.leb_spec ms 300000);
    try reflexivity; lia.
Qed.

Lemma isSignificant_spec (prCreatedAt : Z) (c : PRCommit) :
  isSignificant prCreatedAt c = true <->
  300000 < author_date c - prCreatedAt.
Proof.
  unfold isSignificant, timeDiffMinutes. rewrite minutes_le_5.
  rewrite negb_true_iff, Z.leb_gt. reflexivity.
Qed.

Lemma withinGracePeriod_spec (prCreatedAt : Z) (c : PRCommit) :
  withinGracePeriod prCreatedAt c = true <->
  Z.abs (author_date c - prCreatedAt) <= 300000
  \/ author_date c <= prCreatedAt.
Proof.
  unfold withinGracePeriod, absTimeDiffMinutes. rewrite minutes_le_5.
  rewrite orb_true_iff, !Z.leb_le. reflexivity.
Qed.

(** A commit is significant exactly when it is outside the grace
    period. *)
Lemma withinGracePeriod_isSignificant (prCreatedAt : Z) (c : PRCommit) :
  withinGracePeriod prCreatedAt c = negb (isSignificant prCreatedAt c).
Proof.
  destruct (isSignificant prCreatedAt c) eqn:Hs; cbn.
  - apply isSignificant_spec in Hs.
    destruct (withinGracePeriod prCreatedAt c) eqn:Hg; [ | reflexivity ].
    apply withinGracePeriod_spec in Hg. lia.
  - apply withinGracePeriod_spec.
    assert (~ 300000 < author_date c - prCreatedAt) as Hn.
    { intro H. apply isSignificant_spec in H. congruence. }
    lia.
Qed.

Lemma filter_all_length {A : Type} (p : A -> bool) (l : list A) :
  (forall x, In x l -> p x = true) ->
  length (filter p l) = length l.
Proof.
  intro H. rewrite forallb_filter_id; [ reflexivity | ].
  apply forallb_forall. exact H.
Qed.

(** When some commit is significant, the grace-period branch is not
    taken. *)
Lemma significant_leaves_grace (prCreatedAt : Z) (cs : list PRCommit) :
  filter (isSignificant prCreatedAt) cs <> [] ->
  (length (filter (withinGracePeriod prCreatedAt) cs) =? length cs)%nat
  = false.
Proof.
  intro Hne. apply Nat.eqb_neq. intro Hlen.
  apply filter_length_forallb in Hlen.
  rewrite forallb_forall in Hlen.
  destruct (filter (isSignificant prCreatedAt) cs) as [ | c more ] eqn:Hf;
    [ congruence | ].
  assert (In c (filter (isSignificant prCreatedAt) cs)) as Hin
    by (rewrite Hf; left; reflexivity).
  apply filter_In in Hin. destruct Hin as [Hin Hs].
  specialize (Hlen c Hin).
  rewrite withinGracePeriod_isSignificant, Hs in Hlen. discriminate.
Qed.

Lemma findIndex_range {A : Type} (p : A -> bool) (l : list A) :
  -1 <= JS.findIndex p l < Z.of_nat (length l).
Proof.
  induction l as [ | x t IH ]; cbn [JS.findIndex length]; [ lia | ].
  destruct (p x); [ lia | ].
  destruct (Z.ltb_spec (JS.findIndex p t) 0); lia.
Qed.

(** The baseline is one of the commits of the PR: the index before the
    first significant commit is within the array. *)
Lemma baselineCommitOf_In (first : PRCommit) (others : list PRCommit)
    (firstSignificant : PRCommit) :
  In (baselineCommitOf first (first :: others) firstSignificant)
    (first :: others).
Proof.
  unfold baselineCommitOf. cbv zeta.
  set (index := JS.findIndex _ (first :: others)).
  pose proof (findIndex_range
                (fun c => String.eqb (sha c) (sha firstSignificant))
                (first :: others)) as Hrange.
  fold index in Hrange.
  destruct (Z.ltb_spec 0 index); [ | left; reflexivity ].
  apply nth_In. lia.
Qed.

Section Branches.

Variable globTest : string -> string -> bool.
Variable githubClient : GitHubClient.
Variable options : Options.

(** What the general case returns, by the outcome of the comparison. *)
Lemma general_case (prNumber : Z) (pr : PRDetails)
    (first : PRCommit) (others : list PRCommit)
    (firstSignificant : PRCommit) (more : list PRCommit) :
  getPullRequest githubClient prNumber = Some pr ->
  getPullRequestCommits githubClient prNumber = Some (first :: others) ->
  filter (isSignificant (created_at pr)) (first :: others)
  = firstSignificant :: more ->
  (1 <= length others)%nat ->
  let prCommits := first :: others in
  let baseline := baselineCommitOf first prCommits firstSignificant in
  let r := calculatePRMaturity globTest githubClient options prNumber in
  match compareCommitsDiff githubClient (sha baseline)
          (sha (last prCommits first)) with
  | None =>
      r = failure "Could not compare commits for maturity analysis"
  | Some diff =>
      let total := totalChangesOf globTest githubClient options prNumber in
      let after := diffSizeOf diff in
      let stable := Z.max 0 (total - after) in
      let ratio :=
        if 0 <? total then (inject_Z stable / inject_Z total)%Q else 1%Q in
      maturity_ratio r
      = Some (inject_Z (JS.Math_round (ratio * 1000)%Q) / 1000)%Q
      /\ maturity_percentage r = Some (JS.Math_round (ratio * 100)%Q)
      /\ exists d,
           details r = DetailsOk d
           /\ total_changes d = total
           /\ changes_after_publication d = after
           /\ stable_changes d = stable
           /\ baseline_commit_sha d = Some (sha baseline)
           /\ last_commit_sha d = sha (last prCommits first)
           /\ reason d = reasonGeneral
  end.
Proof.
  intros Hpr Hcs Hsig Hothers prCommits baseline r.
  assert (filter (isSignificant (created_at pr)) (first :: others) <> [])
    as Hne by (rewrite Hsig; discriminate).
  apply significant_leaves_grace in Hne.
  assert ((length (first :: others) =? 1)%nat = false) as Hlen.
  { destruct others; [ cbn in Hothers; lia | reflexivity ]. }
  subst r. unfold calculatePRMaturity.
  rewrite Hpr, Hcs. cbv zeta. rewrite Hlen, Hne, Hsig.
  fold prCommits. fold baseline.
  destruct (compareCommitsDiff githubClient (sha baseline)
              (sha (last prCommits first))) as [ diff | ].
  - cbn [maturity_ratio maturity_percentage details].
    split; [ reflexivity | ]. split; [ reflexivity | ].
    eexists. split; [ reflexivity | ]. cbn. repeat split; reflexivity.
  - reflexivity.
Qed.

(** C1 (as amended). In the general case [stable_changes] is
    [max(0, total_changes - changes_after_publication)], hence never
    negative, and [stable_changes + changes_after_publication] equals
    [total_changes] exactly when the diff after publication is no larger
    than the total. *)
Theorem general_case_stable_changes (prNumber : Z) (d : MaturityDetails) :
  details (calculatePRMaturity globTest githubClient options prNumber)
  = DetailsOk d ->
  reason d = "Calculated based on meaningful commits after publication" ->
  stable_changes d
  = Z.max 0 (total_changes d - changes_after_publication d)
  /\ 0 <= stable_changes d
  /\ (stable_changes d + changes_after_publication d = total_changes d
      <-> changes_after_publication d <= total_changes d).
Proof.
  unfold calculatePRMaturity.
  destruct (getPullRequest githubClient prNumber) as [ pr | ];
    [ | discriminate ].
  destruct (getPullRequestCommits githubClient prNumber)
    as [ [ | first others ] | ]; try discriminate.
  cbv zeta.
  destruct (length (first :: others) =? 1)%nat.
  { intros [= <-]. discriminate. }
  destruct (length (filter _ (first :: others)) =? _)%nat.
  { intros [= <-]. discriminate. }
  destruct (filter (isSignificant _) (first :: others))
    as [ | firstSignificant more ].
  { intros [= <-]. discriminate. }
  destruct (compareCommitsDiff githubClient _ _) as [ diff | ];
    [ | discriminate ].
  intros [= <-] _. cbn. lia.
Qed.

(** C4. In the general case, a filtered total of 115 lines and a
    baseline-to-last diff of 20 lines give 95 stable changes and a
    maturity of 83 percent. *)
Theorem general_case_115_20 (prNumber : Z) (pr : PRDetails)
    (first : PRCommit) (others : list PRCommit)
    (firstSignificant : PRCommit) (more : list PRCommit)
    (diff : CommitDiff) :
  getPullRequest githubClient prNumber = Some pr ->
  getPullRequestCommits githubClient prNumber = Some (first :: others) ->
  (1 <= length others)%nat ->
  filter (isSignificant (created_at pr)) (first :: others)
  = firstSignificant :: more ->
  compareCommitsDiff githubClient
    (sha (baselineCommitOf first (first :: others) firstSignificant))
    (sha (last (first :: others) first))
  = Some diff ->
  totalChangesOf globTest githubClient options prNumber = 115 ->
  diffSizeOf diff = 20 ->
  let r := calculatePRMaturity globTest githubClient options prNumber in
  maturity_percentage r = Some 83
  /\ exists d,
       details r = DetailsOk d
       /\ total_changes d = 115
       /\ changes_after_publication d = 20
       /\ stable_changes d = 95.
Proof.
  intros Hpr Hcs Hlen Hsig Hdiff Htotal Hafter r.
  pose proof (general_case prNumber pr first others firstSignificant more
                Hpr Hcs Hsig Hlen) as H.
  cbv zeta in H. rewrite Hdiff, Htotal, Hafter in H.
  destruct H as (_ & Hpct & d & Hd & Ht & Ha & Hs & _).
  split; [ exact Hpct | ].
  exists d. repeat split; assumption.
Qed.


End Branches.

Import Scenarios.

(** The PR of the test suite, with three commits of which the last is
    significant, is an instance of the general case. *)
Lemma general_case_stable_changes_witness :
  exists d,
    details (calculatePRMaturity noGlob multipleCommits defaultOptions 123)
    = DetailsOk d
    /\ reason d = "Calculated based on meaningful commits after publication"
    /\ total_changes d = 115
    /\ changes_after_publication d = 20
    /\ stable_changes d
       = Z.max 0 (total_changes d - changes_after_publication d)
    /\ 0 <= stable_changes d
    /\ (stable_changes d + changes_after_publication d = total_changes d
        <-> changes_after_publication d <= total_changes d).
Proof.
  eexists. split; [ reflexivity | ].
  split; [ reflexivity | ]. split; [ reflexivity | ].
  split; [ reflexivity | ].
  apply (general_case_stable_changes noGlob multipleCommits defaultOptions
           123); reflexivity.
Defined.

(** C1 as stated does not hold. The PR [rewrittenAfterPublication]
    reaches the general case with a total of 10 changed lines and a diff
    of 25 lines after the baseline: [stable_changes] is floored at 0 and
    the sum is 25, not 10. *)
Lemma sum_invariant_counterexample :
  exists d,
    details (calculatePRMaturity noGlob rewrittenAfterPublication
               defaultOptions 123)
    = DetailsOk d
    /\ reason d = "Calculated based on meaningful commits after publication"
    /\ total_changes d = 10
    /\ changes_after_publication d = 25
    /\ stable_changes d = 0
    /\ stable_changes d + changes_after_publication d <> total_changes d.
Proof.
  eexists. split; [ reflexivity | ]. cbn.
  repeat split; try reflexivity. discriminate.
Qed.

Lemma general_case_115_20_witness :
  let r := calculatePRMaturity noGlob multipleCommits defaultOptions 123 in
  maturity_percentage r = Some 83
  /\ exists d,
       details r = DetailsOk d
       /\ total_changes d = 115
       /\ changes_after_publication d = 20
       /\ stable_changes d = 95.
Proof.
  apply (general_case_115_20 noGlob multipleCommits defaultOptions 123
           {| created_at := t1000 |}
           {| sha := "commit1-sha"; author_date := t1000 - minutes 2 |}
           [ {| sha := "commit2-sha"; author_date := t1000 + minutes 2 |};
             {| sha := "commit3-sha"; author_date := t1000 + minutes 15 |} ]
           {| sha := "commit3-sha"; author_date := t1000 + minutes 15 |}
           []
           {| files := Some [ file "test/file1.test.js" 20 0 ] |});
    try reflexivity.
  simpl. lia.
Defined.


End MaturityFacts.

(** ** PR maturity: the error path *)

Module MaturityErrorFacts.

Import Maturity.
Import Dora(Outcome(..)).
Import MaturityFacts.

Section Engine.

Variable RegExp : string -> Outcome (string -> bool).
Variable options : Options.

(** When every ignore pattern compiles, no file makes [some] throw. *)
Lemma some_returns (name : string) (patterns : list string) :
  (forall pattern, In pattern patterns ->
     exists regex, RegExp (MaturityErrors.regexSource pattern)
                   = Returns regex) ->
  exists found,
    MaturityErrors.Array_some
      (fun pattern =>
         MaturityErrors.bind (RegExp (MaturityErrors.regexSource pattern))
           (fun regex => Returns (regex name)))
      patterns
    = Returns found.
Proof.
  induction patterns as [ | pattern rest IH ]; intro Hvalid.
  - exists false. reflexivity.
  - destruct (Hvalid pattern (or_introl eq_refl)) as [regex Hregex].
    cbn [MaturityErrors.Array_some]. rewrite Hregex.
    cbn [MaturityErrors.bind].
    destruct (regex name).
    + exists true. reflexivity.
    + apply IH. intros p Hp. apply Hvalid. right. exact Hp.
Qed.

Lemma filterFiles_returns (fs : list PRFile) :
  (forall pattern, In pattern (filesToIgnore options) ->
     exists regex, RegExp (MaturityErrors.regexSource pattern)
                   = Returns regex) ->
  exists filteredFiles,
    MaturityErrors.filterFiles RegExp options fs = Returns filteredFiles.
Proof.
  intro Hvalid. unfold MaturityErrors.filterFiles.
  induction fs as [ | file rest IH ].
  - exists []. reflexivity.
  - cbn [MaturityErrors.Array_filter].
    destruct IH as [kept Hkept]. rewrite Hkept.
    destruct (ignoreFileDeletions options && isRemoved file).
    + exists kept. reflexivity.
    + destruct (0 <? length (filesToIgnore options))%nat.
      * destruct (some_returns (filename file) (filesToIgnore options)
                    Hvalid) as [found Hfound].
        rewrite Hfound. cbn [MaturityErrors.bind].
        destruct found; eexists; reflexivity.
      * eexists. reflexivity.
Qed.

End Engine.

Lemma some_compiling (test : string -> string -> bool) (name : string)
    (patterns : list string) :
  MaturityErrors.Array_some
    (fun pattern =>
       MaturityErrors.bind
         (MaturityErrors.compiling test (MaturityErrors.regexSource pattern))
         (fun regex => Returns (regex name)))
    patterns
  = Returns
      (existsb
         (fun pattern => test (MaturityErrors.regexSource pattern) name)
         patterns).
Proof.
  induction patterns as [ | pattern more IH ]; [ reflexivity | ].
  cbn [MaturityErrors.Array_some existsb MaturityErrors.compiling
       MaturityErrors.bind].
  destruct (test (MaturityErrors.regexSource pattern) name);
    [ reflexivity | exact IH ].
Qed.

(** With an engine that compiles every pattern, filtering is that of
    [Maturity.filterFiles]. *)
Lemma filterFiles_compiling (test : string -> string -> bool)
    (options : Options) (fs : list PRFile) :
  MaturityErrors.filterFiles (MaturityErrors.compiling test) options fs
  = Returns
      (Maturity.filterFiles
         (fun pattern name => test (MaturityErrors.regexSource pattern) name)
         options fs).
Proof.
  unfold MaturityErrors.filterFiles, Maturity.filterFiles.
  induction fs as [ | file rest IH ]; [ reflexivity | ].
  cbn [MaturityErrors.Array_filter filter]. rewrite IH.
  destruct (ignoreFileDeletions options && isRemoved file);
    [ reflexivity | ].
  destruct (0 <? length (filesToIgnore options))%nat; [ | reflexivity ].
  cbn [andb]. rewrite some_compiling. cbn [MaturityErrors.bind].
  destruct (existsb _ (filesToIgnore options)); reflexivity.
Qed.

(** Hence the calculator with its error path, run with such an engine,
    is [Maturity.calculatePRMaturity]: the latter is the calculator for
    ignore patterns that all compile. *)
Lemma calculatePRMaturity_compiling (test : string -> string -> bool)
    (githubClient : GitHubClient) (options : Options) (prNumber : Z) :
  MaturityErrors.calculatePRMaturity (MaturityErrors.compiling test)
    githubClient options prNumber
  = Maturity.calculatePRMaturity
      (fun pattern name => test (MaturityErrors.regexSource pattern) name)
      githubClient options prNumber.
Proof.
  unfold MaturityErrors.calculatePRMaturity, Maturity.calculatePRMaturity.
  destruct (getPullRequest githubClient prNumber) as [ pr | ];
    [ | reflexivity ].
  destruct (getPullRequestCommits githubClient prNumber)
    as [ [ | first others ] | ]; try reflexivity.
  cbv zeta. rewrite filterFiles_compiling. cbn [MaturityErrors.bind].
  destruct (length (first :: others) =? 1)%nat; [ reflexivity | ].
  destruct (length (filter _ (first :: others)) =? _)%nat; [ reflexivity | ].
  destruct (filter (isSignificant _) (first :: others)); [ reflexivity | ].
  destruct (compareCommitsDiff githubClient _ _); reflexivity.
Qed.

Section Branches.

Variable RegExp : string -> Outcome (string -> bool).
Variable githubClient : GitHubClient.
Variable options : Options.

(** C2 (as amended). With two or more commits, each authored within five
    minutes of the creation of the PR or before it, the PR is fully
    mature and the reason is the grace period, provided that filtering
    the files of the PR returns, as it does when every ignore pattern
    compiles; when filtering throws, the ratio and the percentage are
    null and the details carry the message of the exception. *)
Theorem all_within_grace_fully_mature (prNumber : Z) (pr : PRDetails)
    (prCommits : list PRCommit) :
  getPullRequest githubClient prNumber = Some pr ->
  getPullRequestCommits githubClient prNumber = Some prCommits ->
  (2 <= length prCommits)%nat ->
  (forall c, In c prCommits ->
     Z.abs (author_date c - created_at pr) <= 5 * 60 * 1000
     \/ author_date c <= created_at pr) ->
  let r :=
    MaturityErrors.calculatePRMaturity RegExp githubClient options prNumber in
  let filtering :=
    MaturityErrors.filterFiles RegExp options
      (JS.orEmpty (getPullRequestFiles githubClient prNumber)) in
  (forall filteredFiles, filtering = Returns filteredFiles ->
     maturity_ratio r = Some 1%Q
     /\ maturity_percentage r = Some 100
     /\ exists d,
          details r = DetailsOk d
          /\ changes_after_publication d = 0
          /\ stable_changes d = total_changes d
          /\ total_changes d
             = size_total_changes (calculateSizeDetails options filteredFiles)
          /\ reason d = "All commits within grace period or pre-existing")
  /\ (forall message, filtering = Throws message ->
        maturity_ratio r = None
        /\ maturity_percentage r = None
        /\ details r = DetailsError message)
  /\ ((forall pattern, In pattern (filesToIgnore options) ->
         exists regex,
           RegExp (MaturityErrors.regexSource pattern) = Returns regex) ->
      exists filteredFiles, filtering = Returns filteredFiles).
Proof.
  intros Hpr Hcs Hlen Hall r filtering.
  subst r. unfold MaturityErrors.calculatePRMaturity.
  rewrite Hpr, Hcs.
  destruct prCommits as [ | first [ | second others ] ];
    cbn in Hlen; try lia.
  cbv zeta.
  replace (length (first :: second :: others) =? 1)%nat with false
    by reflexivity.
  rewrite filter_all_length.
  2:{ intros c Hin. apply withinGracePeriod_spec.
      specialize (Hall c Hin). lia. }
  rewrite Nat.eqb_refl. fold filtering.
  split; [ | split ].
  - intros filteredFiles ->. cbn.
    split; [ reflexivity | ]. split; [ reflexivity | ].
    eexists. split; [ reflexivity | ]. cbn. repeat split; reflexivity.
  - intros message ->. cbn. repeat split; reflexivity.
  - apply filterFiles_returns.
Qed.

(** C3 (as amended). A PR of exactly one commit is fully mature,
    whatever its files are, provided that filtering them returns, as it
    does when every ignore pattern compiles; when filtering throws, the
    ratio and the percentage are null and the details carry the message
    of the exception. *)
Theorem single_commit_fully_mature (prNumber : Z) (pr : PRDetails)
    (commit : PRCommit) :
  getPullRequest githubClient prNumber = Some pr ->
  getPullRequestCommits githubClient prNumber = Some [commit] ->
  let r :=
    MaturityErrors.calculatePRMaturity RegExp githubClient options prNumber in
  let filtering :=
    MaturityErrors.filterFiles RegExp options
      (JS.orEmpty (getPullRequestFiles githubClient prNumber)) in
  (forall filteredFiles, filtering = Returns filteredFiles ->
     maturity_percentage r = Some 100
     /\ maturity_ratio r = Some 1%Q
     /\ exists d,
          details r = DetailsOk d
          /\ reason d = "Single commit PR"
          /\ total_changes d
             = size_total_changes (calculateSizeDetails options filteredFiles))
  /\ (forall message, filtering = Throws message ->
        maturity_percentage r = None
        /\ maturity_ratio r = None
        /\ details r = DetailsError message)
  /\ ((forall pattern, In pattern (filesToIgnore options) ->
         exists regex,
           RegExp (MaturityErrors.regexSource pattern) = Returns regex) ->
      exists filteredFiles, filtering = Returns filteredFiles).
Proof.
  intros Hpr Hcs r filtering. subst r.
  unfold MaturityErrors.calculatePRMaturity.
  rewrite Hpr, Hcs. cbv zeta.
  replace (length [commit] =? 1)%nat with true by reflexivity.
  fold filtering.
  split; [ | split ].
  - intros filteredFiles ->. cbn.
    split; [ reflexivity | ]. split; [ reflexivity | ].
    eexists. split; [ reflexivity | ]. cbn. split; reflexivity.
  - intros message ->. cbn. repeat split; reflexivity.
  - apply filterFiles_returns.
Qed.

(** X4. Whatever the branch, once the PR and a commit are fetched, an
    exception of the filtering is the result: no ratio, no percentage,
    and the message of the exception as the error. *)
Theorem filtering_error_reported (prNumber : Z) (pr : PRDetails)
    (first : PRCommit) (others : list PRCommit) (message : string) :
  getPullRequest githubClient prNumber = Some pr ->
  getPullRequestCommits githubClient prNumber = Some (first :: others) ->
  MaturityErrors.filterFiles RegExp options
    (JS.orEmpty (getPullRequestFiles githubClient prNumber))
  = Throws message ->
  MaturityErrors.calculatePRMaturity RegExp githubClient options prNumber
  = failure message.
Proof.
  intros Hpr Hcs Hthrows. unfold MaturityErrors.calculatePRMaturity.
  rewrite Hpr, Hcs. cbv zeta. rewrite Hthrows. cbn [MaturityErrors.bind].
  destruct (length (first :: others) =? 1)%nat; [ reflexivity | ].
  destruct (length (filter _ (first :: others)) =? _)%nat; [ reflexivity | ].
  destruct (filter (isSignificant _) (first :: others)); reflexivity.
Qed.

End Branches.

Import Scenarios ErrorScenarios.

(** C2 as stated does not hold. The two commits of [allWithinGrace] are
    within the grace period; with the ignore pattern [*.c++] the text
    that [filterFiles] compiles is not a regular expression, [new RegExp]
    throws, and the result has no ratio and no percentage. *)
Lemma all_within_grace_counterexample :
  exists pr prCommits,
    getPullRequest allWithinGrace 789 = Some pr
    /\ getPullRequestCommits allWithinGrace 789 = Some prCommits
    /\ (2 <= length prCommits)%nat
    /\ (forall c, In c prCommits ->
          Z.abs (author_date c - created_at pr) <= 5 * 60 * 1000
          \/ author_date c <= created_at pr)
    /\ MaturityErrors.regexSource "*.c++" = "^.*.c++$"
    /\ let r :=
         MaturityErrors.calculatePRMaturity engine allWithinGrace ignoreCpp
           789 in
       maturity_ratio r = None
       /\ maturity_percentage r = None
       /\ details r = DetailsError nothingToRepeat
       /\ maturity_percentage r <> Some 100.
Proof.
  eexists. eexists.
  split; [ reflexivity | ]. split; [ reflexivity | ].
  split; [ simpl; lia | ].
  split.
  { intros c [ <- | [ <- | [] ] ]; vm_compute; left; discriminate. }
  split; [ reflexivity | ].
  cbn. repeat split; try reflexivity. discriminate.
Qed.

Lemma all_within_grace_fully_mature_witness :
  let r :=
    MaturityErrors.calculatePRMaturity (MaturityErrors.compiling noGlob)
      allWithinGrace defaultOptions 789 in
  let filteredFiles :=
    [ file "src/main.js" 100 50; file "test/main.test.js" 30 0 ] in
  maturity_ratio r = Some 1%Q
  /\ maturity_percentage r = Some 100
  /\ exists d,
       details r = DetailsOk d
       /\ changes_after_publication d = 0
       /\ stable_changes d = total_changes d
       /\ total_changes d
          = size_total_changes
              (calculateSizeDetails defaultOptions filteredFiles)
       /\ reason d = "All commits within grace period or pre-existing".
Proof.
  intros r filteredFiles.
  refine (proj1
    (all_within_grace_fully_mature (MaturityErrors.compiling noGlob)
       allWithinGrace defaultOptions 789 {| created_at := t1000 |}
       [ {| sha := "commit1-sha"; author_date := t1000 - minutes 2 |};
         {| sha := "commit2-sha"; author_date := t1000 + minutes 2 |} ]
       _ _ _ _) filteredFiles _).
  - reflexivity.
  - reflexivity.
  - simpl. lia.
  - intros c [ <- | [ <- | [] ] ]; vm_compute; left; discriminate.
  - reflexivity.
Defined.

(** C3 as stated does not hold. [singleCommit] has one commit; with the
    ignore pattern [*.c++], [new RegExp] throws on the one file of the
    PR and the result has no percentage and no ratio. *)
Lemma single_commit_counterexample :
  exists pr commit,
    getPullRequest singleCommit 456 = Some pr
    /\ getPullRequestCommits singleCommit 456 = Some [commit]
    /\ MaturityErrors.regexSource "*.c++" = "^.*.c++$"
    /\ let r :=
         MaturityErrors.calculatePRMaturity engine singleCommit ignoreCpp 456
       in
       maturity_percentage r = None
       /\ maturity_ratio r = None
       /\ details r = DetailsError nothingToRepeat
       /\ maturity_percentage r <> Some 100.
Proof.
  eexists. eexists.
  split; [ reflexivity | ]. split; [ reflexivity | ].
  split; [ reflexivity | ].
  cbn. repeat split; try reflexivity. discriminate.
Qed.

Lemma single_commit_fully_mature_witness :
  let r :=
    MaturityErrors.calculatePRMaturity (MaturityErrors.compiling noGlob)
      singleCommit defaultOptions 456 in
  let filteredFiles := [ file "src/feature.js" 75 25 ] in
  maturity_percentage r = Some 100
  /\ maturity_ratio r = Some 1%Q
  /\ exists d,
       details r = DetailsOk d
       /\ reason d = "Single commit PR"
       /\ total_changes d
          = size_total_changes
              (calculateSizeDetails defaultOptions filteredFiles).
Proof.
  intros r filteredFiles.
  refine (proj1
    (single_commit_fully_mature (MaturityErrors.compiling noGlob)
       singleCommit defaultOptions 456 {| created_at := t1000 |}
       {| sha := "single-commit-sha"; author_date := t1000 - minutes 5 |}
       _ _) filteredFiles _); reflexivity.
Defined.

(** The PR of the test suite in the general case, with an ignore
    pattern that does not compile. *)
Lemma filtering_error_reported_witness :
  MaturityErrors.calculatePRMaturity engine multipleCommits ignoreCpp 123
  = failure nothingToRepeat.
Proof.
  apply (filtering_error_reported engine multipleCommits ignoreCpp 123
           {| created_at := t1000 |}
           {| sha := "commit1-sha"; author_date := t1000 - minutes 2 |}
           [ {| sha := "commit2-sha"; author_date := t1000 + minutes 2 |};
             {| sha := "commit3-sha"; author_date := t1000 + minutes 15 |} ]);
    reflexivity.
Defined.

End MaturityErrorFacts.

(** ** Deployment metrics *)

Module DoraFacts.

Import Dora.

(** *** [Math.min] over ages *)

Lemma Qmin_le_l (a b : Q) : (JS.Qmin a b <= a)%Q.
Proof.
  unfold JS.Qmin. destruct (Qle_bool a b) eqn:H.
  - apply Qle_refl.
  - apply Qlt_le_weak, Qnot_le_lt. intro Hle.
    apply Qle_bool_iff in Hle. congruence.
Qed.

Lemma Qmin_le_r (a b : Q) : (JS.Qmin a b <= b)%Q.
Proof.
  unfold JS.Qmin. destruct (Qle_bool a b) eqn:H.
  - apply Qle_bool_iff. exact H.
  - apply Qle_refl.
Qed.

Lemma fold_Qmin_le (xs : list Q) :
  forall x : Q,
    (fold_left JS.Qmin xs x <= x)%Q
    /\ forall y, In y xs -> (fold_left JS.Qmin xs x <= y)%Q.
Proof.
  induction xs as [ | a xs IH ]; intro x; cbn.
  - split; [ apply Qle_refl | intros y [] ].
  - destruct (IH (JS.Qmin x a)) as [Hhead Htail]. split.
    + eapply Qle_trans; [ exact Hhead | apply Qmin_le_l ].
    + intros y [ <- | Hy ].
      * eapply Qle_trans; [ exact Hhead | apply Qmin_le_r ].
      * apply Htail. exact Hy.
Qed.

Lemma fold_Qmin_In (xs : list Q) :
  forall x : Q, In (fold_left JS.Qmin xs x) (x :: xs).
Proof.
  induction xs as [ | a xs IH ]; intro x.
  - left. reflexivity.
  - change (fold_left JS.Qmin (a :: xs) x)
      with (fold_left JS.Qmin xs (JS.Qmin x a)).
    destruct (IH (JS.Qmin x a)) as [ Heq | Hin ].
    + rewrite <- Heq. unfold JS.Qmin.
      destruct (Qle_bool x a); [ left | right; left ]; reflexivity.
    + right; right. exact Hin.
Qed.

Lemma Math_min_le (xs : list Q) (y : Q) :
  In y xs -> (JS.Math_min xs <= y)%Q.
Proof.
  destruct xs as [ | x xs ]; [ intros [] | ].
  unfold JS.Math_min.
  destruct (fold_Qmin_le xs x) as [Hhead Htail].
  intros [ <- | Hy ]; [ exact Hhead | apply Htail; exact Hy ].
Qed.

Lemma Math_min_In (xs : list Q) : xs <> [] -> In (JS.Math_min xs) xs.
Proof.
  destruct xs as [ | x xs ]; [ congruence | intros _ ].
  apply fold_Qmin_In.
Qed.

(** [find] with the minimal age returns a commit, and its age is
    minimal. *)
Lemma find_newest (cs : list CommitWithAge) :
  cs <> [] ->
  exists c,
    find (fun c => Qeq_bool (cwa_age c) (JS.Math_min (map cwa_age cs))) cs
    = Some c
    /\ In c cs
    /\ forall c', In c' cs -> (cwa_age c <= cwa_age c')%Q.
Proof.
  intro Hne.
  destruct (find _ cs) as [ c | ] eqn:Hfind.
  - apply find_some in Hfind. destruct Hfind as [Hin Heq].
    exists c. split; [ reflexivity | ]. split; [ exact Hin | ].
    intros c' Hc'. apply Qeq_bool_iff in Heq. rewrite Heq.
    apply Math_min_le. apply in_map. exact Hc'.
  - exfalso.
    assert (map cwa_age cs <> []) as Hmap
      by (destruct cs; [ congruence | discriminate ]).
    apply Math_min_In in Hmap. apply in_map_iff in Hmap.
    destruct Hmap as (c & Hage & Hin).
    pose proof (find_none _ _ Hfind c Hin) as Hfalse. cbn in Hfalse.
    rewrite Hage in Hfalse.
    rewrite (proj2 (Qeq_bool_iff _ _) (Qeq_refl _)) in Hfalse.
    discriminate.
Qed.

(** *** The commits that have a date *)

Lemma in_withAges_inv (latest : Latest) (allCommits : list Commit)
    (x : CommitWithAge) :
  In x (withAges latest allCommits) ->
  exists c d,
    In c allCommits /\ commitDate c = Some d
    /\ cwa_sha x = sha c
    /\ cwa_age x = hoursBetween (latest_created_at latest) d
    /\ cwa_isMerge x = isMergeCommit c.
Proof.
  unfold withAges. rewrite in_flat_map.
  intros (c & Hin & Hx). destruct (commitDate c) as [ d | ] eqn:Hd.
  - destruct Hx as [ <- | [] ]. exists c, d. cbn. auto.
  - destruct Hx.
Qed.

Lemma in_withAges_intro (latest : Latest) (allCommits : list Commit)
    (c : Commit) (d : Z) :
  In c allCommits -> commitDate c = Some d ->
  exists x,
    In x (withAges latest allCommits)
    /\ cwa_sha x = sha c
    /\ cwa_age x = hoursBetween (latest_created_at latest) d
    /\ cwa_isMerge x = isMergeCommit c.
Proof.
  intros Hin Hd. eexists. split.
  - unfold withAges. apply in_flat_map. exists c.
    split; [ exact Hin | ]. rewrite Hd. left. reflexivity.
  - cbn. auto.
Qed.

Lemma datesOf_length (latest : Latest) (allCommits : list Commit) :
  length (datesOf allCommits) = length (withAges latest allCommits).
Proof.
  induction allCommits as [ | c cs IH ]; [ reflexivity | ].
  cbn. destruct (commitDate c); cbn; [ f_equal | ]; exact IH.
Qed.

Lemma sha_identifies (allCommits : list Commit) (a b : Commit) :
  NoDup (map sha allCommits) ->
  In a allCommits -> In b allCommits -> sha a = sha b -> a = b.
Proof.
  induction allCommits as [ | c cs IH ]; [ intros _ [] | ].
  cbn. intros Hnd Ha Hb Heq. inversion Hnd as [ | ? ? Hnotin Hnd' ]; subst.
  destruct Ha as [ <- | Ha ], Hb as [ <- | Hb ].
  - reflexivity.
  - exfalso. apply Hnotin. rewrite Heq. apply in_map. exact Hb.
  - exfalso. apply Hnotin. rewrite <- Heq. apply in_map. exact Ha.
  - apply IH; assumption.
Qed.

Section CycleTime.

Variable githubClient : GitHubClient.
Variable options : Options.
Variable latest : Latest.
Variable previous : option Deployment.

Lemma newest_excludes_merges_option :
  newest_excludes_merges
    (calculateCycleTime githubClient options latest previous)
  = negb (includeMergeCommits options).
Proof.
  unfold calculateCycleTime. cbv zeta.
  repeat match goal with
         | |- context [ if ?b then _ else _ ] => destruct b
         end; reflexivity.
Qed.

(** The newest commit when merges are excluded and some commit has a
    date. *)
Lemma newest_commit_excluding :
  let commitsWithAges :=
    withAges latest (fetchCommits githubClient latest previous) in
  let candidateCommits :=
    filter (fun c => negb (cwa_isMerge c)) commitsWithAges in
  includeMergeCommits options = false ->
  commitsWithAges <> [] ->
  newest_commit_sha
    (calculateCycleTime githubClient options latest previous)
  = option_map cwa_sha
      (if (0 <? length candidateCommits)%nat
       then find
              (fun c =>
                 Qeq_bool (cwa_age c)
                   (JS.Math_min (map cwa_age candidateCommits)))
              candidateCommits
       else find
              (fun c =>
                 Qeq_bool (cwa_age c)
                   (JS.Math_min (map cwa_age commitsWithAges)))
              commitsWithAges).
Proof.
  intros commitsWithAges candidateCommits Hoption Hne.
  unfold calculateCycleTime. cbv zeta.
  rewrite (datesOf_length latest). fold commitsWithAges.
  rewrite Hoption. cbn [negb]. fold candidateCommits.
  replace (0 <? length commitsWithAges)%nat with true.
  - cbn [andb]. destruct (0 <? length candidateCommits)%nat; reflexivity.
  - symmetry. apply Nat.ltb_lt.
    destruct commitsWithAges; [ congruence | cbn; lia ].
Qed.

(** C6 (as amended). When merges are excluded and some commit that has
    a date is not a merge, the newest commit is a commit with a date and
    at most one parent, the youngest of those; no merge commit carries
    its SHA when SHAs identify commits. When every commit that has a date
    is a merge, the newest commit is the youngest of all commits that
    have a date. *)
Theorem newest_commit_excludes_merges :
  let allCommits := fetchCommits githubClient latest previous in
  let r := calculateCycleTime githubClient options latest previous in
  let age := hoursBetween (latest_created_at latest) in
  newest_excludes_merges r = true ->
  ((exists c,
      In c allCommits /\ commitDate c <> None /\ isMergeCommit c = false) ->
   (exists c d,
      In c allCommits /\ commitDate c = Some d
      /\ isMergeCommit c = false
      /\ newest_commit_sha r = Some (sha c)
      /\ forall c' d',
           In c' allCommits -> commitDate c' = Some d' ->
           isMergeCommit c' = false -> (age d <= age d')%Q)
   /\ (NoDup (map sha allCommits) ->
       forall c,
         In c allCommits -> newest_commit_sha r = Some (sha c) ->
         isMergeCommit c = false))
  /\ ((exists c, In c allCommits /\ commitDate c <> None) ->
      (forall c,
         In c allCommits -> commitDate c <> None ->
         isMergeCommit c = true) ->
      exists c d,
        In c allCommits /\ commitDate c = Some d
        /\ newest_commit_sha r = Some (sha c)
        /\ forall c' d',
             In c' allCommits -> commitDate c' = Some d' ->
             (age d <= age d')%Q).
Proof.
  intros allCommits r age Hexcl. subst r.
  rewrite newest_excludes_merges_option in Hexcl.
  apply negb_true_iff in Hexcl.
  set (commitsWithAges := withAges latest allCommits).
  set (candidateCommits :=
         filter (fun c => negb (cwa_isMerge c)) commitsWithAges).
  assert (forall c d, In c allCommits -> commitDate c = Some d ->
          commitsWithAges <> []) as Hdated.
  { intros c d Hin Hd Hnil.
    destruct (in_withAges_intro latest allCommits c d Hin Hd) as (x & Hx & _).
    fold commitsWithAges in Hx. rewrite Hnil in Hx. destruct Hx. }
  split.
  - (* some commit with a date is not a merge *)
    intros (c0 & Hin0 & Hd0 & Hm0).
    destruct (commitDate c0) as [ d0 | ] eqn:Hdate0; [ clear Hd0 | congruence ].
    pose proof (newest_commit_excluding
                  Hexcl (Hdated c0 d0 Hin0 Hdate0)) as Hsha.
    cbv zeta in Hsha. fold allCommits commitsWithAges candidateCommits in Hsha.
    destruct (in_withAges_intro latest allCommits c0 d0 Hin0 Hdate0)
      as (x0 & Hx0 & _ & _ & Hxm0).
    assert (In x0 candidateCommits) as Hcand0.
    { apply filter_In. split; [ exact Hx0 | ]. rewrite Hxm0, Hm0.
      reflexivity. }
    assert (candidateCommits <> []) as Hne
      by (intro Hnil; rewrite Hnil in Hcand0; destruct Hcand0).
    replace (0 <? length candidateCommits)%nat with true in Hsha
      by (symmetry; apply Nat.ltb_lt;
          destruct candidateCommits; [ congruence | cbn; lia ]).
    destruct (find_newest candidateCommits Hne) as (x & Hfind & Hin & Hmin).
    rewrite Hfind in Hsha. cbn in Hsha.
    apply filter_In in Hin. destruct Hin as [Hin Hxm].
    apply negb_true_iff in Hxm.
    destruct (in_withAges_inv latest allCommits x Hin)
      as (c & d & Hc & Hd & Hxsha & Hxage & Hxmerge).
    assert (isMergeCommit c = false) as Hcm by congruence.
    assert (newest_commit_sha
              (calculateCycleTime githubClient options latest previous)
            = Some (sha c)) as Hnewest by congruence.
    split.
    + exists c, d. repeat split; try assumption.
      intros c' d' Hc' Hd' Hm'.
      destruct (in_withAges_intro latest allCommits c' d' Hc' Hd')
        as (x' & Hx' & _ & Hage' & Hxm').
      fold commitsWithAges in Hx'.
      assert (In x' candidateCommits) as Hcand'.
      { apply filter_In. split; [ exact Hx' | ]. rewrite Hxm', Hm'.
        reflexivity. }
      specialize (Hmin x' Hcand'). rewrite Hxage, Hage' in Hmin.
      exact Hmin.
    + intros Hnodup c' Hc' Hsha'.
      assert (sha c' = sha c) as Heq by congruence.
      rewrite (sha_identifies allCommits c' c Hnodup Hc' Hc Heq).
      exact Hcm.
  - (* every commit with a date is a merge *)
    intros (c0 & Hin0 & Hd0) Hall.
    destruct (commitDate c0) as [ d0 | ] eqn:Hdate0; [ clear Hd0 | congruence ].
    pose proof (Hdated c0 d0 Hin0 Hdate0) as Hne.
    pose proof (newest_commit_excluding
                  Hexcl Hne) as Hsha.
    cbv zeta in Hsha. fold allCommits commitsWithAges candidateCommits in Hsha.
    assert (candidateCommits = []) as Hnil.
    { destruct candidateCommits as [ | x xs ] eqn:Hcands; [ reflexivity | ].
      assert (In x candidateCommits) as Hx
        by (rewrite Hcands; left; reflexivity).
      apply filter_In in Hx. destruct Hx as [Hx Hxm].
      destruct (in_withAges_inv latest allCommits x Hx)
        as (c & d & Hc & Hd & _ & _ & Hxmerge).
      assert (commitDate c <> None) as Hsome by congruence.
      rewrite Hxmerge, (Hall c Hc Hsome) in Hxm. discriminate. }
    rewrite Hnil in Hsha. cbn [length Nat.ltb Nat.leb] in Hsha.
    destruct (find_newest commitsWithAges Hne) as (x & Hfind & Hin & Hmin).
    rewrite Hfind in Hsha. cbn in Hsha.
    destruct (in_withAges_inv latest allCommits x Hin)
      as (c & d & Hc & Hd & Hxsha & Hxage & _).
    exists c, d. repeat split; try assumption; [ congruence | ].
    intros c' d' Hc' Hd'.
    destruct (in_withAges_intro latest allCommits c' d' Hc' Hd')
      as (x' & Hx' & _ & Hage' & _).
    specialize (Hmin x' Hx'). rewrite Hxage, Hage' in Hmin. exact Hmin.
Qed.

End CycleTime.

Import DoraScenarios.

(** In the range of the test suite the newest commit is the regular
    commit, though the merge commit is younger; in a range of merge
    commits the newest commit is the youngest merge commit. *)
Lemma newest_commit_excludes_merges_witness :
  let age := hoursBetween (latest_created_at latestJan2) in
  (let allCommits := fetchCommits mergeAndRegular latestJan2 previousSha in
   let r :=
     calculateCycleTime mergeAndRegular defaultOptions latestJan2
       previousSha in
   newest_excludes_merges r = true
   /\ newest_commit_sha r = Some "commit1"
   /\ (exists c d,
         In c allCommits /\ commitDate c = Some d
         /\ isMergeCommit c = false
         /\ newest_commit_sha r = Some (sha c)
         /\ forall c' d',
              In c' allCommits -> commitDate c' = Some d' ->
              isMergeCommit c' = false -> (age d <= age d')%Q)
   /\ forall c,
        In c allCommits -> newest_commit_sha r = Some (sha c) ->
        isMergeCommit c = false)
  /\ (let allCommits := fetchCommits mergesOnly latestJan2 previousSha in
      let r :=
        calculateCycleTime mergesOnly defaultOptions latestJan2
          previousSha in
      newest_excludes_merges r = true
      /\ newest_commit_sha r = Some "commit3"
      /\ exists c d,
           In c allCommits /\ commitDate c = Some d
           /\ newest_commit_sha r = Some (sha c)
           /\ forall c' d',
                In c' allCommits -> commitDate c' = Some d' ->
                (age d <= age d')%Q).
Proof.
  cbv zeta. split.
  - split; [ reflexivity | ]. split; [ reflexivity | ].
    destruct (newest_commit_excludes_merges mergeAndRegular defaultOptions
                latestJan2 previousSha eq_refl) as [ Hregular _ ].
    destruct Hregular as [ Hnewest Hnever ].
    + exists regular. split; [ left; reflexivity | ].
      split; [ discriminate | reflexivity ].
    + split; [ exact Hnewest | ].
      apply Hnever. cbn.
      repeat constructor; cbn; intuition discriminate.
  - split; [ reflexivity | ]. split; [ reflexivity | ].
    destruct (newest_commit_excludes_merges mergesOnly defaultOptions
                latestJan2 previousSha eq_refl) as [ _ Hmerges ].
    apply Hmerges.
    + exists merge. split; [ left; reflexivity | discriminate ].
    + intros c [ <- | [ <- | [] ] ] _; reflexivity.
Defined.

(** C6 as stated does not hold. In [mergeAndUndated] the range has a
    merge commit and a commit with one parent, merges are excluded, and
    the newest commit is the merge commit: the other commit has no date
    and is not a candidate. *)
Lemma merge_exclusion_counterexample :
  let allCommits := fetchCommits mergeAndUndated latestJan2 previousSha in
  let r :=
    calculateCycleTime mergeAndUndated defaultOptions latestJan2
      previousSha in
  allCommits = [ undated; merge ]
  /\ NoDup (map sha allCommits)
  /\ isMergeCommit undated = false
  /\ isMergeCommit merge = true
  /\ newest_excludes_merges r = true
  /\ newest_commit_sha r = Some (sha merge).
Proof.
  cbv zeta. split; [ reflexivity | ]. split.
  - cbn. repeat constructor; cbn; intuition discriminate.
  - repeat split; reflexivity.
Qed.

Section DataSource.

Variable githubClient : GitHubClient.
Variable options : Options.

(** C7. Whenever there is a release, the source is the releases, whatever
    the tags are; the latest deployment takes its date from the first
    release and its SHA from the resolution of the tag of that release. *)
Theorem releases_preferred (release0 : Release) (more : list Release) :
  listReleases githubClient (maxReleases options) = release0 :: more ->
  (exists latest0 previous0,
     determineDataSource githubClient options
     = Returns {| source := release; latest := Some latest0;
                  previous := previous0 |}
     /\ d_created_at latest0 = Some (created_at release0)
     /\ d_tag latest0 = Some (tag_name release0)
     /\ d_sha latest0
        = match resolveTag githubClient (tag_name release0) with
          | Some r => resolved_sha r
          | None => None
          end)
  /\ forall tags,
       determineDataSource (withTags githubClient tags) options
       = determineDataSource githubClient options.
Proof.
  intro Hreleases. split.
  - unfold determineDataSource. rewrite Hreleases. cbv zeta.
    eexists. eexists. split; [ reflexivity | ].
    cbn. repeat split; reflexivity.
  - intro tags. unfold determineDataSource.
    change (listReleases (withTags githubClient tags))
      with (listReleases githubClient).
    rewrite Hreleases. reflexivity.
Qed.

(** C8. [determineDataSource] throws exactly when there is neither a
    release nor a tag; [collectMetrics] then returns an error, not
    metrics. *)
Theorem no_deployments_is_an_error :
  ((exists error_message,
      determineDataSource githubClient options = Throws error_message)
   <-> listReleases githubClient (maxReleases options) = []
       /\ listTags githubClient (maxTags options) = [])
  /\ forall error_message,
       determineDataSource githubClient options = Throws error_message ->
       error_message = "No releases or tags found"
       /\ forall now,
            collectMetrics githubClient options now
            = CollectError
                "Metrics collection failed: No releases or tags found"
            /\ forall m,
                 collectMetrics githubClient options now <> Collected m.
Proof.
  assert (forall error_message,
            determineDataSource githubClient options = Throws error_message ->
            listReleases githubClient (maxReleases options) = []
            /\ listTags githubClient (maxTags options) = []
            /\ error_message = "No releases or tags found") as Hthrows.
  { intro error_message. unfold determineDataSource.
    destruct (listReleases githubClient (maxReleases options));
      [ | discriminate ].
    destruct (listTags githubClient (maxTags options)); [ | discriminate ].
    intros [= <-]. auto. }
  split.
  - split.
    + intros (error_message & H). apply Hthrows in H. tauto.
    + intros [Hreleases Htags]. eexists. unfold determineDataSource.
      rewrite Hreleases, Htags. reflexivity.
  - intros error_message H.
    destruct (Hthrows error_message H) as (_ & _ & ->).
    split; [ reflexivity | ]. intro now.
    unfold collectMetrics. rewrite H.
    split; [ reflexivity | discriminate ].
Qed.

Lemma floor_within_one (y : Q) : (y - 1 < inject_Z (Qfloor y) <= y)%Q.
Proof.
  split.
  - pose proof (Qlt_floor y) as H. rewrite inject_Z_plus in H.
    change (inject_Z 1) with 1%Q in H. lra.
  - apply Qfloor_le.
Qed.

(** A number to two decimals is a multiple of 1/100 within 1/100 of the
    number. This does not depend on the way a tie is rounded. *)
Lemma toFixed2_close (x : Q) :
  (exists k : Z, (JS.toFixed2 x == inject_Z k / 100)%Q)
  /\ (x - (1 # 100) <= JS.toFixed2 x <= x + (1 # 100))%Q.
Proof.
  unfold JS.toFixed2. destruct (Qle_bool 0 x).
  - split; [ eexists; reflexivity | ].
    pose proof (floor_within_one (x * 100 + (1 # 2))) as [Hlow Hhigh].
    set (k := inject_Z (Qfloor (x * 100 + (1 # 2)))) in *.
    unfold Qdiv. change (/ 100)%Q with (1 # 100)%Q. lra.
  - split.
    + exists (- Qfloor (- x * 100 + (1 # 2))).
      rewrite inject_Z_opp. unfold Qdiv. ring.
    + pose proof (floor_within_one (- x * 100 + (1 # 2))) as [Hlow Hhigh].
      set (k := inject_Z (Qfloor (- x * 100 + (1 # 2)))) in *.
      unfold Qdiv. change (/ 100)%Q with (1 # 100)%Q. lra.
Qed.






End DataSource.

Lemma releases_preferred_witness :
  (exists latest0 previous0,
     determineDataSource fromReleases defaultOptions
     = Returns {| source := release; latest := Some latest0;
                  previous := previous0 |}
     /\ d_created_at latest0 = Some (jan1 + hours 24)
     /\ d_tag latest0 = Some "v2.0.0"
     /\ d_sha latest0 = Some "sha2")
  /\ forall tags,
       determineDataSource (withTags fromReleases tags) defaultOptions
       = determineDataSource fromReleases defaultOptions.
Proof.
  apply (releases_preferred fromReleases defaultOptions
           {| name := Some "v2.0.0"; tag_name := "v2.0.0";
              created_at := jan1 + hours 24 |}
           [ {| name := Some "v1.0.0"; tag_name := "v1.0.0";
                created_at := jan1 |} ]).
  reflexivity.
Defined.

Lemma no_deployments_is_an_error_witness :
  determineDataSource noDeployments defaultOptions
  = Throws "No releases or tags found"
  /\ collectMetrics noDeployments defaultOptions 0
     = CollectError "Metrics collection failed: No releases or tags found".
Proof.
  split; [ reflexivity | ].
  destruct (no_deployments_is_an_error noDeployments defaultOptions)
    as [ _ H ].
  destruct (H "No releases or tags found" eq_refl) as [ _ Hcollect ].
  exact (proj1 (Hcollect 0)).
Defined.



End DoraFacts.

(** ** Team aggregation *)

Module Binary64Facts.

Import TeamBinary64.

Lemma average_sample (xs : list float) (avg : float) :
  average xs = Some avg -> (0 < length xs)%nat.
Proof.
  unfold average. destruct (Nat.ltb_spec 0 (length xs)); [ | discriminate ].
  intros _. assumption.
Qed.

Lemma zero_is_falsy (avg : float) :
  (avg =? 0)%float = true -> truthy (Some avg) = false.
Proof.
  intro H. unfold truthy. rewrite H. reflexivity.
Qed.

Section Aggregate.

Variable timePeriod : string.
Variable prMetrics : list PRMetrics.

(** C10 (as amended). When the average that the calculator computes for
    a duration, the left-to-right binary64 sum of its samples divided by
    their number, is zero, the duration is reported without average and
    without rating although it has samples. *)
Theorem zero_average_reported_as_null :
  let stats := calculateAggregateStats timePeriod prMetrics in
  (forall avg,
     average (nonNull pickup_time_hours prMetrics) = Some avg ->
     (avg =? 0)%float = true ->
     average_hours (pickup_time stats) = None
     /\ rating (pickup_time stats) = None
     /\ (0 < sample_size (pickup_time stats))%nat)
  /\ (forall avg,
        average (nonNull approve_time_hours prMetrics) = Some avg ->
        (avg =? 0)%float = true ->
        average_hours (approve_time stats) = None
        /\ rating (approve_time stats) = None
        /\ (0 < sample_size (approve_time stats))%nat)
  /\ (forall avg,
        average (nonNull merge_time_hours prMetrics) = Some avg ->
        (avg =? 0)%float = true ->
        average_hours (merge_time stats) = None
        /\ rating (merge_time stats) = None
        /\ (0 < sample_size (merge_time stats))%nat).
Proof.
  cbv zeta. unfold calculateAggregateStats.
  cbn [pickup_time approve_time merge_time average_hours rating sample_size].
  repeat apply conj; intros avg Havg Hzero;
    rewrite Havg, (zero_is_falsy avg Hzero);
    (split; [ reflexivity | ]); (split; [ reflexivity | ]);
    exact (average_sample _ avg Havg).
Qed.

End Aggregate.



Import Binary64Scenarios.

#[local] Set Warnings "-inexact-float".

Lemma zero_average_reported_as_null_witness :
  let prMetrics := [ promptReview; unreviewed ] in
  let stats := calculateAggregateStats "weekly" prMetrics in
  average (nonNull pickup_time_hours prMetrics) = Some 0%float
  /\ average_hours (pickup_time stats) = None
  /\ rating (pickup_time stats) = None
  /\ (0 < sample_size (pickup_time stats))%nat.
Proof.
  split; [ reflexivity | ].
  refine (proj1
    (zero_average_reported_as_null "weekly" [ promptReview; unreviewed ])
    0%float _ _); reflexivity.
Defined.

(** C10 as stated does not hold. The four delays 0.1, 0.2, -0.1 and
    -0.2 hours sum to zero, and so does their average; the calculator
    adds them in binary64, from the left, and finds 2.78e-17: it reports
    an average and the rating of a short delay. *)
Lemma zero_average_counterexample :
  let samples := nonNull merge_time_hours cancelling in
  (exists sum, exactSum samples = Some sum /\ (sum == 0)%Q)
  /\ average samples = Some 6.9388939039072284e-18%float
  /\ forall timePeriod,
       let stats := calculateAggregateStats timePeriod cancelling in
       average_hours (merge_time stats) = Some 0%float
       /\ rating (merge_time stats) = Some "Elite"
       /\ sample_size (merge_time stats) = 4%nat.
Proof.
  split; [ | split ].
  - eexists. split; [ vm_compute; reflexivity | reflexivity ].
  - vm_compute. reflexivity.
  - intros timePeriod. repeat split; vm_compute; reflexivity.
Qed.

(** The averages of the machine: 23 PRs of 40 are 57 percent, since
    [(23 / 40) * 100] is computed as 57.49999999999999; the durations 1
    and 1.01 average to 1.0049999999999999, reported as 1; and a sample
    that is not a number makes the average one. *)
Lemma averages_evaluated :
  percent 23 40 = 57%float
  /\ option_map round2 (average [1; 1.01]%float) = Some 1%float
  /\ (let stats := calculateAggregateStats "weekly" undatedReview in
      average_hours (merge_time stats) = None
      /\ rating (merge_time stats) = None
      /\ sample_size (merge_time stats) = 2%nat).
Proof.
  repeat split; vm_compute; reflexivity.
Qed.

End Binary64Facts.

(** ** PR maturity: sizes, branches and bounds *)

Module MaturityExtras.

Import Maturity Sums MaturityFacts.

Lemma sizes_fold (ignore : bool) (fs : list PRFile) :
  forall a d : Z,
    fold_left
      (fun (acc : Z * Z) file =>
         (fst acc + JS.orZero (additions file),
          if ignore then snd acc
          else snd acc + JS.orZero (deletions file)))
      fs (a, d)
    = (a + additionsOf fs, if ignore then d else d + deletionsOf fs).
Proof.
  induction fs as [ | file fs IH ]; intros a d.
  - cbn. destruct ignore; f_equal; lia.
  - cbn [fold_left fst snd]. rewrite IH.
    change (additionsOf (file :: fs))
      with (JS.orZero (additions file) + additionsOf fs).
    change (deletionsOf (file :: fs))
      with (JS.orZero (deletions file) + deletionsOf fs).
    destruct ignore; f_equal; lia.
Qed.

Lemma calculateSizeDetails_sums (options : Options) (fs : list PRFile) :
  calculateSizeDetails options fs
  = {| total_additions := additionsOf fs;
       total_deletions :=
         if ignoreLineDeletions options then 0 else deletionsOf fs;
       size_total_changes :=
         additionsOf fs
         + (if ignoreLineDeletions options then 0 else deletionsOf fs) |}.
Proof.
  unfold calculateSizeDetails. rewrite sizes_fold. cbn.
  destruct (ignoreLineDeletions options); reflexivity.
Qed.

Lemma calculateDiffSize_sums (fs : list PRFile) :
  calculateDiffSize fs = additionsOf fs + deletionsOf fs.
Proof.
  unfold calculateDiffSize.
  assert (forall changes,
            fold_left
              (fun changes file =>
                 changes
                 + (JS.orZero (additions file) + JS.orZero (deletions file)))
              fs changes
            = changes + (additionsOf fs + deletionsOf fs)) as H.
  { induction fs as [ | file fs IH ]; intro changes; [ cbn; lia | ].
    cbn [fold_left]. rewrite IH.
    change (additionsOf (file :: fs))
      with (JS.orZero (additions file) + additionsOf fs).
    change (deletionsOf (file :: fs))
      with (JS.orZero (deletions file) + deletionsOf fs).
    lia. }
  rewrite H. lia.
Qed.

Lemma sums_nonneg (fs : list PRFile) :
  Forall countsNonNegative fs -> 0 <= additionsOf fs /\ 0 <= deletionsOf fs.
Proof.
  induction 1 as [ | file fs [Ha Hd] _ [IHa IHd] ];
    cbn [additionsOf deletionsOf fold_right]; [ lia | ].
  fold (additionsOf fs) (deletionsOf fs). lia.
Qed.

Lemma sums_filter (p : PRFile -> bool) (fs : list PRFile) :
  Forall countsNonNegative fs ->
  Forall countsNonNegative (filter p fs)
  /\ additionsOf (filter p fs) <= additionsOf fs
  /\ deletionsOf (filter p fs) <= deletionsOf fs.
Proof.
  induction 1 as [ | file fs [Ha Hd] Hfs (IHf & IHa & IHd) ].
  - cbn. split; [ constructor | lia ].
  - cbn [filter].
    change (additionsOf (file :: fs))
      with (JS.orZero (additions file) + additionsOf fs).
    change (deletionsOf (file :: fs))
      with (JS.orZero (deletions file) + deletionsOf fs).
    destruct (p file).
    + change (additionsOf (file :: filter p fs))
        with (JS.orZero (additions file) + additionsOf (filter p fs)).
      change (deletionsOf (file :: filter p fs))
        with (JS.orZero (deletions file) + deletionsOf (filter p fs)).
      split; [ constructor; [ split | ]; assumption | lia ].
    + split; [ assumption | lia ].
Qed.

Section Sizes.

Variable globTest : string -> string -> bool.
Variable options : Options.

(** X1. The size of a diff is the size of the same files with deletions
    counted; [total_changes] is the sum of the additions and the
    deletions reported, and no deletion is reported when line deletions
    are ignored. *)
Theorem sizes_compose (fs : list PRFile) :
  let size := calculateSizeDetails options fs in
  size_total_changes size = total_additions size + total_deletions size
  /\ (ignoreLineDeletions options = true ->
      total_deletions size = 0
      /\ size_total_changes size = total_additions size)
  /\ (ignoreLineDeletions options = false ->
      size_total_changes size = calculateDiffSize fs).
Proof.
  cbv zeta. rewrite calculateSizeDetails_sums, calculateDiffSize_sums. cbn.
  split; [ reflexivity | ].
  split; intros ->; [ split; [ reflexivity | lia ] | reflexivity ].
Qed.

(** X2. With counts that are not negative, ignoring files and ignoring
    line deletions never make a PR larger: the filtered total is between
    0 and the size of the unfiltered diff; without options it is that
    size. *)
Theorem filtering_never_enlarges (fs : list PRFile) :
  Forall countsNonNegative fs ->
  0 <= size_total_changes (calculateSizeDetails options
                             (filterFiles globTest options fs))
    <= calculateDiffSize fs
  /\ size_total_changes (calculateSizeDetails defaultOptions
                           (filterFiles globTest defaultOptions fs))
     = calculateDiffSize fs.
Proof.
  intro Hfs. split.
  - rewrite calculateSizeDetails_sums, calculateDiffSize_sums. cbn.
    unfold filterFiles.
    destruct (sums_filter
                (fun file =>
                   if ignoreFileDeletions options && isRemoved file
                   then false
                   else if (0 <? length (filesToIgnore options))%nat
                           && existsb
                                (fun pattern =>
                                   globTest pattern (filename file))
                                (filesToIgnore options)
                   then false
                   else true) fs Hfs) as (Hf & Ha & Hd).
    destruct (sums_nonneg _ Hf) as [Hfa Hfd].
    destruct (sums_nonneg _ Hfs) as [Hsa Hsd].
    destruct (ignoreLineDeletions options); lia.
  - rewrite calculateSizeDetails_sums, calculateDiffSize_sums. cbn.
    unfold filterFiles. cbn.
    replace (filter (fun _ : PRFile => true) fs) with fs; [ reflexivity | ].
    clear Hfs. induction fs as [ | file fs IH ]; cbn; congruence.
Qed.

End Sizes.

Import Scenarios.

Lemma filtering_never_enlarges_witness :
  let fs :=
    [ file "src/file1.js" 50 10; file "src/file2.js" 30 5;
      file "test/file1.test.js" 20 0 ] in
  0 <= size_total_changes
         (calculateSizeDetails
            {| filesToIgnore := []; ignoreLineDeletions := true;
               ignoreFileDeletions := false |}
            (filterFiles noGlob
               {| filesToIgnore := []; ignoreLineDeletions := true;
                  ignoreFileDeletions := false |} fs))
    <= calculateDiffSize fs
  /\ size_total_changes (calculateSizeDetails defaultOptions
                           (filterFiles noGlob defaultOptions fs))
     = calculateDiffSize fs.
Proof.
  apply (filtering_never_enlarges noGlob
           {| filesToIgnore := []; ignoreLineDeletions := true;
              ignoreFileDeletions := false |}).
  repeat constructor; vm_compute; discriminate.
Defined.

Section Results.

Variable globTest : string -> string -> bool.
Variable githubClient : GitHubClient.
Variable options : Options.
Variable prNumber : Z.

Let r := calculatePRMaturity globTest githubClient options prNumber.

(** X3. The ratio, the percentage and the details fail together: the
    ratio is null exactly when the percentage is, and exactly when the
    details are an error. *)
Theorem maturity_nulls_together :
  (maturity_ratio r = None <-> maturity_percentage r = None)
  /\ (maturity_ratio r = None <-> exists msg, details r = DetailsError msg).
Proof.
  subst r. unfold calculatePRMaturity.
  destruct (getPullRequest githubClient prNumber) as [ pr | ].
  2: { cbn. split; split; try reflexivity; eauto. }
  destruct (getPullRequestCommits githubClient prNumber)
    as [ [ | first others ] | ].
  1, 3: cbn; split; split; try reflexivity; eauto.
  cbv zeta.
  destruct (length (first :: others) =? 1)%nat.
  { cbn. split; split; try discriminate. intros (msg & H). discriminate. }
  destruct (length (filter _ (first :: others)) =? _)%nat.
  { cbn. split; split; try discriminate. intros (msg & H). discriminate. }
  destruct (filter (isSignificant _) (first :: others))
    as [ | firstSignificant more ].
  { cbn. split; split; try discriminate. intros (msg & H). discriminate. }
  destruct (compareCommitsDiff githubClient _ _) as [ diff | ].
  - cbn. split; split; try discriminate. intros (msg & H). discriminate.
  - cbn. split; split; try reflexivity; eauto.
Qed.

(** X6. What every result that is not an error reports of its inputs:
    the number of commits, the SHAs of the first and the last commit,
    the creation date of the PR and the filtered total. *)
Theorem maturity_bookkeeping (pr : PRDetails) (first : PRCommit)
    (others : list PRCommit) (d : MaturityDetails) :
  getPullRequest githubClient prNumber = Some pr ->
  getPullRequestCommits githubClient prNumber = Some (first :: others) ->
  details r = DetailsOk d ->
  total_commits d = length (first :: others)
  /\ first_commit_sha d = sha first
  /\ last_commit_sha d = sha (last (first :: others) first)
  /\ pr_created_at d = created_at pr
  /\ total_changes d = totalChangesOf globTest githubClient options prNumber
  /\ (stable_changes d
      = Z.max 0 (total_changes d - changes_after_publication d)
      \/ (changes_after_publication d = 0
          /\ stable_changes d = total_changes d)).
Proof.
  intros Hpr Hcs. subst r. unfold calculatePRMaturity.
  rewrite Hpr, Hcs. cbv zeta.
  destruct (length (first :: others) =? 1)%nat eqn:Hlen.
  { intros [= <-]. cbn.
    destruct others; [ | discriminate ].
    repeat split; try reflexivity. right. auto. }
  destruct (length (filter _ (first :: others)) =? _)%nat.
  { intros [= <-]. cbn -[last]. repeat split; try reflexivity.
    right. auto. }
  destruct (filter (isSignificant _) (first :: others))
    as [ | firstSignificant more ].
  { intros [= <-]. cbn -[last]. repeat split; try reflexivity.
    right. auto. }
  destruct (compareCommitsDiff githubClient _ _) as [ diff | ];
    [ | discriminate ].
  intros [= <-]. cbn -[last Z.max]. repeat split; try reflexivity.
  left. reflexivity.
Qed.

(** Rounding a fraction of the unit. *)
Lemma percent_of_unit (x : Q) :
  (0 <= x)%Q -> (x <= 1)%Q ->
  0 <= JS.Math_round (x * 100) <= 100
  /\ (0 <= inject_Z (JS.Math_round (x * 1000)) / 1000)%Q
  /\ (inject_Z (JS.Math_round (x * 1000)) / 1000 <= 1)%Q.
Proof.
  intros H0 H1. unfold JS.Math_round.
  assert (0 <= Qfloor (x * 100 + (1 # 2)) <= 100) as Hpercent.
  { split.
    - apply (Qfloor_resp_le 0). lra.
    - apply (Qfloor_resp_le _ (100 + (1 # 2))). lra. }
  assert (0 <= Qfloor (x * 1000 + (1 # 2)) <= 1000) as Hratio.
  { split.
    - apply (Qfloor_resp_le 0). lra.
    - apply (Qfloor_resp_le _ (1000 + (1 # 2))). lra. }
  split; [ exact Hpercent | ].
  destruct Hratio as [Hlow Hhigh].
  rewrite Zle_Qle in Hlow, Hhigh. split.
  - apply Qle_shift_div_l; [ reflexivity | ].
    change (inject_Z 0) with 0%Q in Hlow. lra.
  - apply Qle_shift_div_r; [ reflexivity | ].
    change (inject_Z 1000) with 1000%Q in Hhigh. lra.
Qed.

Lemma ratio_of_unit (stable total : Z) :
  0 <= stable <= total -> 0 < total ->
  (0 <= inject_Z stable / inject_Z total)%Q
  /\ (inject_Z stable / inject_Z total <= 1)%Q.
Proof.
  intros [Hlow Hhigh] Hpos.
  rewrite Zle_Qle in Hlow, Hhigh. rewrite Zlt_Qlt in Hpos.
  change (inject_Z 0) with 0%Q in Hlow, Hpos. split.
  - apply Qle_shift_div_l; [ exact Hpos | lra ].
  - apply Qle_shift_div_r; [ exact Hpos | lra ].
Qed.

(** X7. When no file of the PR and no file of a comparison has a
    negative count, the ratio is between 0 and 1, the percentage between
    0 and 100, and the stable changes between 0 and the total. *)
Theorem maturity_bounds :
  (forall fs,
     getPullRequestFiles githubClient prNumber = Some fs ->
     Forall countsNonNegative fs) ->
  (forall base head diff fs,
     compareCommitsDiff githubClient base head = Some diff ->
     files diff = Some fs -> Forall countsNonNegative fs) ->
  (forall ratio, maturity_ratio r = Some ratio -> (0 <= ratio <= 1)%Q)
  /\ (forall percentage,
        maturity_percentage r = Some percentage -> 0 <= percentage <= 100)
  /\ (forall d,
        details r = DetailsOk d ->
        0 <= stable_changes d <= total_changes d
        /\ 0 <= changes_after_publication d).
Proof.
  intros Hfiles Hdiffs.
  assert (0 <= totalChangesOf globTest githubClient options prNumber)
    as Htotal.
  { unfold totalChangesOf.
    destruct (getPullRequestFiles githubClient prNumber) as [ fs | ] eqn:Hfs.
    - apply (filtering_never_enlarges globTest options fs).
      apply Hfiles. reflexivity.
    - apply (filtering_never_enlarges globTest options []). constructor. }
  unfold totalChangesOf in Htotal.
  assert (forall ratio, Some 1%Q = Some ratio -> (0 <= ratio <= 1)%Q)
    as Hone by (intros ratio [= <-]; split; discriminate).
  assert (forall percentage,
            Some 100 = Some percentage -> 0 <= percentage <= 100)
    as Hhundred by (intros percentage [= <-]; lia).
  subst r. unfold calculatePRMaturity.
  destruct (getPullRequest githubClient prNumber) as [ pr | ].
  2: { cbn. repeat split; discriminate. }
  destruct (getPullRequestCommits githubClient prNumber)
    as [ [ | first others ] | ].
  1, 3: cbn; repeat split; discriminate.
  cbv zeta.
  set (total :=
         size_total_changes
           (calculateSizeDetails options
              (filterFiles globTest options
                 (JS.orEmpty (getPullRequestFiles githubClient prNumber)))))
    in *.
  destruct (length (first :: others) =? 1)%nat.
  { cbn [maturity_ratio maturity_percentage details].
    split; [ exact Hone | ]. split; [ exact Hhundred | ].
    intros d [= <-].
    cbn [stable_changes total_changes changes_after_publication]. lia. }
  destruct (length (filter _ (first :: others)) =? _)%nat.
  { cbn [maturity_ratio maturity_percentage details].
    split; [ exact Hone | ]. split; [ exact Hhundred | ].
    intros d [= <-].
    cbn [stable_changes total_changes changes_after_publication]. lia. }
  destruct (filter (isSignificant _) (first :: others))
    as [ | firstSignificant more ].
  { cbn [maturity_ratio maturity_percentage details].
    split; [ exact Hone | ]. split; [ exact Hhundred | ].
    intros d [= <-].
    cbn [stable_changes total_changes changes_after_publication]. lia. }
  destruct (compareCommitsDiff githubClient _ _) as [ diff | ] eqn:Hdiff.
  2: { cbn. repeat split; discriminate. }
  assert (0 <= calculateDiffSize (JS.orEmpty (files diff))) as Hafter.
  { rewrite calculateDiffSize_sums.
    destruct (files diff) as [ fs | ] eqn:Hfs; cbn [JS.orEmpty];
      [ | cbn; lia ].
    destruct (sums_nonneg fs (Hdiffs _ _ _ _ Hdiff Hfs)). lia. }
  set (after := calculateDiffSize (JS.orEmpty (files diff))) in *.
  set (ratio :=
         if 0 <? total
         then (inject_Z (Z.max 0 (total - after)) / inject_Z total)%Q
         else 1%Q).
  assert ((0 <= ratio)%Q /\ (ratio <= 1)%Q) as [Hlow Hhigh].
  { subst ratio. destruct (Z.ltb_spec 0 total).
    - apply ratio_of_unit; lia.
    - split; discriminate. }
  destruct (percent_of_unit ratio Hlow Hhigh) as (Hp & Hr0 & Hr1).
  cbn [maturity_ratio maturity_percentage details].
  split; [ intros ? [= <-]; split; assumption | ].
  split; [ intros ? [= <-]; exact Hp | ].
  intros d [= <-]. cbn [stable_changes total_changes
                         changes_after_publication]. lia.
Qed.

End Results.

(** *** The baseline of the general case *)

Lemma findIndex_at (pre post : list PRCommit) (target : PRCommit) :
  NoDup (map sha (pre ++ target :: post)) ->
  JS.findIndex (fun c => String.eqb (sha c) (sha target))
    (pre ++ target :: post)
  = Z.of_nat (length pre).
Proof.
  induction pre as [ | c pre IH ]; intro Hnodup.
  - cbn. rewrite String.eqb_refl. reflexivity.
  - cbn [app map] in Hnodup. inversion Hnodup as [ | ? ? Hnotin Hrest ].
    subst. cbn [app JS.findIndex length].
    destruct (String.eqb_spec (sha c) (sha target)) as [ Heq | _ ].
    + exfalso. apply Hnotin. rewrite Heq, map_app.
      apply in_or_app. right. left. reflexivity.
    + rewrite (IH Hrest).
      destruct (Z.ltb_spec (Z.of_nat (length pre)) 0); lia.
Qed.

Lemma filter_from_first (p : PRCommit -> bool)
    (pre post : list PRCommit) (target : PRCommit) :
  (forall c, In c pre -> p c = false) -> p target = true ->
  filter p (pre ++ target :: post) = target :: filter p post.
Proof.
  intros Hpre Htarget. induction pre as [ | c pre IH ]; cbn.
  - rewrite Htarget. reflexivity.
  - rewrite (Hpre c (or_introl eq_refl)). apply IH.
    intros c' Hc'. apply Hpre. right. exact Hc'.
Qed.

Lemma nth_before (pre post : list PRCommit) (d d' : PRCommit) :
  pre <> [] ->
  nth (length pre - 1) (pre ++ post) d = last pre d'.
Proof.
  induction pre as [ | c pre IH ]; [ congruence | intros _ ].
  destruct pre as [ | c' pre ]; [ reflexivity | ].
  replace (length (c :: c' :: pre) - 1)%nat
    with (S (length (c' :: pre) - 1)) by (cbn [length]; lia).
  change (last (c :: c' :: pre) d') with (last (c' :: pre) d').
  rewrite <- IH by discriminate. reflexivity.
Qed.

(** X8. When SHAs identify the commits of the PR, the first significant
    commit is the first commit more than five minutes younger than the
    PR, and the baseline is the commit just before it: a commit of the
    grace period; when the very first commit is significant, the
    baseline is that commit itself. *)
Theorem baseline_precedes_first_significant (prCreatedAt : Z)
    (pre post : list PRCommit) (firstSignificant : PRCommit) :
  let prCommits := (pre ++ firstSignificant :: post)%list in
  let first := hd firstSignificant prCommits in
  NoDup (map sha prCommits) ->
  (forall c, In c pre -> author_date c - prCreatedAt <= 5 * 60 * 1000) ->
  5 * 60 * 1000 < author_date firstSignificant - prCreatedAt ->
  filter (isSignificant prCreatedAt) prCommits
  = firstSignificant :: filter (isSignificant prCreatedAt) post
  /\ baselineCommitOf first prCommits firstSignificant
     = last pre firstSignificant
  /\ (pre <> [] ->
      isSignificant prCreatedAt
        (baselineCommitOf first prCommits firstSignificant)
      = false).
Proof.
  intros prCommits first Hnodup Hpre Hfs.
  assert (forall c, In c pre -> isSignificant prCreatedAt c = false)
    as Hpre'.
  { intros c Hc. destruct (isSignificant prCreatedAt c) eqn:Hs;
      [ | reflexivity ].
    apply isSignificant_spec in Hs. specialize (Hpre c Hc). lia. }
  assert (baselineCommitOf first prCommits firstSignificant
          = last pre firstSignificant) as Hbase.
  { unfold baselineCommitOf. cbv zeta. subst prCommits.
    rewrite (findIndex_at pre post firstSignificant Hnodup).
    destruct pre as [ | c pre ]; [ reflexivity | ].
    replace (0 <? Z.of_nat (length (c :: pre))) with true
      by (symmetry; apply Z.ltb_lt; cbn [length]; lia).
    replace (Z.to_nat (Z.of_nat (length (c :: pre)) - 1))
      with (length (c :: pre) - 1)%nat by lia.
    apply nth_before. discriminate. }
  split.
  - apply filter_from_first; [ exact Hpre' | ].
    apply isSignificant_spec. lia.
  - split; [ exact Hbase | ].
    intro Hne. rewrite Hbase. apply Hpre'.
    clear - Hne. induction pre as [ | c [ | c' pre ] IH ].
    + congruence.
    + left. reflexivity.
    + right. apply IH. discriminate.
Qed.

Lemma inject_Z_nonzero (z : Z) : 0 < z -> ~ (inject_Z z == 0)%Q.
Proof.
  intros Hpos H. unfold Qeq in H. cbn in H. lia.
Qed.

(** X9. The extremes of the general case: nothing changed after the
    baseline, or a PR without counted changes, is 100 percent mature; a
    diff after the baseline at least as large as the PR is 0 percent
    mature, with no stable change. *)
Theorem general_case_extremes (globTest : string -> string -> bool)
    (githubClient : GitHubClient) (options : Options) (prNumber : Z)
    (pr : PRDetails) (first : PRCommit) (others : list PRCommit)
    (firstSignificant : PRCommit) (more : list PRCommit)
    (diff : CommitDiff) :
  getPullRequest githubClient prNumber = Some pr ->
  getPullRequestCommits githubClient prNumber = Some (first :: others) ->
  (1 <= length others)%nat ->
  filter (isSignificant (created_at pr)) (first :: others)
  = firstSignificant :: more ->
  compareCommitsDiff githubClient
    (sha (baselineCommitOf first (first :: others) firstSignificant))
    (sha (last (first :: others) first))
  = Some diff ->
  let r := calculatePRMaturity globTest githubClient options prNumber in
  let total := totalChangesOf globTest githubClient options prNumber in
  let after := diffSizeOf diff in
  (total <= 0 -> maturity_percentage r = Some 100)
  /\ (0 < total -> after = 0 -> maturity_percentage r = Some 100)
  /\ (0 < total -> total <= after ->
      maturity_percentage r = Some 0
      /\ exists d, details r = DetailsOk d /\ stable_changes d = 0).
Proof.
  intros Hpr Hcs Hlen Hsig Hdiff r total after.
  pose proof (general_case globTest githubClient options prNumber pr first
                others firstSignificant more Hpr Hcs Hsig Hlen) as H.
  cbv zeta in H. rewrite Hdiff in H. fold r total after in H.
  destruct H as (_ & Hpct & d & Hd & _ & _ & Hstable & _).
  rewrite Hpct. unfold JS.Math_round. split; [ | split ].
  - intro Htotal.
    replace (0 <? total) with false by (symmetry; apply Z.ltb_ge; lia).
    reflexivity.
  - intros Htotal Hafter.
    replace (0 <? total) with true by (symmetry; apply Z.ltb_lt; lia).
    rewrite Hafter. replace (Z.max 0 (total - 0)) with total by lia.
    f_equal.
    rewrite (Qfloor_comp _ (100 + (1 # 2))); [ reflexivity | ].
    field. apply inject_Z_nonzero. exact Htotal.
  - intros Htotal Hafter.
    replace (0 <? total) with true by (symmetry; apply Z.ltb_lt; lia).
    replace (Z.max 0 (total - after)) with 0 in * by lia.
    split.
    + f_equal. rewrite (Qfloor_comp _ (1 # 2)); [ reflexivity | ].
      change (inject_Z 0) with 0%Q. field.
      apply inject_Z_nonzero. exact Htotal.
    + exists d. split; assumption.
Qed.

Lemma maturity_bookkeeping_witness :
  exists d,
    details (calculatePRMaturity noGlob multipleCommits defaultOptions 123)
    = DetailsOk d
    /\ total_commits d = 3%nat
    /\ first_commit_sha d = "commit1-sha"
    /\ last_commit_sha d = "commit3-sha"
    /\ pr_created_at d = t1000
    /\ total_changes d = 115
    /\ (stable_changes d
        = Z.max 0 (total_changes d - changes_after_publication d)
        \/ (changes_after_publication d = 0
            /\ stable_changes d = total_changes d)).
Proof.
  eexists. split; [ reflexivity | ].
  apply (maturity_bookkeeping noGlob multipleCommits defaultOptions 123
           {| created_at := t1000 |}
           {| sha := "commit1-sha"; author_date := t1000 - minutes 2 |}
           [ {| sha := "commit2-sha"; author_date := t1000 + minutes 2 |};
             {| sha := "commit3-sha"; author_date := t1000 + minutes 15 |} ]);
    reflexivity.
Defined.

Lemma maturity_bounds_witness :
  let r := calculatePRMaturity noGlob multipleCommits defaultOptions 123 in
  maturity_percentage r = Some 83
  /\ (forall ratio, maturity_ratio r = Some ratio -> (0 <= ratio <= 1)%Q)
  /\ (forall percentage,
        maturity_percentage r = Some percentage -> 0 <= percentage <= 100)
  /\ (forall d,
        details r = DetailsOk d ->
        0 <= stable_changes d <= total_changes d
        /\ 0 <= changes_after_publication d).
Proof.
  split; [ reflexivity | ].
  apply (maturity_bounds noGlob multipleCommits defaultOptions 123).
  - intros fs H. injection H as <-.
    repeat constructor; vm_compute; discriminate.
  - intros base head diff fs H Hfs. injection H as <-.
    injection Hfs as <-.
    repeat constructor; vm_compute; discriminate.
Defined.

Lemma baseline_precedes_first_significant_witness :
  let c1 := {| sha := "commit1-sha"; author_date := t1000 - minutes 2 |} in
  let c2 := {| sha := "commit2-sha"; author_date := t1000 + minutes 2 |} in
  let c3 := {| sha := "commit3-sha"; author_date := t1000 + minutes 15 |} in
  filter (isSignificant t1000) [ c1; c2; c3 ] = [ c3 ]
  /\ baselineCommitOf c1 [ c1; c2; c3 ] c3 = c2
  /\ ([ c1; c2 ] <> [] ->
      isSignificant t1000 (baselineCommitOf c1 [ c1; c2; c3 ] c3) = false).
Proof.
  cbv zeta.
  apply (baseline_precedes_first_significant t1000
           [ {| sha := "commit1-sha"; author_date := t1000 - minutes 2 |};
             {| sha := "commit2-sha"; author_date := t1000 + minutes 2 |} ]
           []
           {| sha := "commit3-sha"; author_date := t1000 + minutes 15 |}).
  - repeat constructor; cbn; intuition discriminate.
  - intros c [ <- | [ <- | [] ] ]; vm_compute; discriminate.
  - vm_compute. reflexivity.
Defined.

Lemma general_case_extremes_witness :
  let r :=
    calculatePRMaturity noGlob rewrittenAfterPublication defaultOptions 123 in
  totalChangesOf noGlob rewrittenAfterPublication defaultOptions 123 = 10
  /\ maturity_percentage r = Some 0
  /\ exists d, details r = DetailsOk d /\ stable_changes d = 0.
Proof.
  split; [ reflexivity | ].
  refine (proj2 (proj2
            (general_case_extremes noGlob rewrittenAfterPublication
               defaultOptions 123
               {| created_at := t1000 |}
               {| sha := "commit1-sha"; author_date := t1000 - minutes 2 |}
               [ {| sha := "commit2-sha";
                    author_date := t1000 + minutes 15 |} ]
               {| sha := "commit2-sha"; author_date := t1000 + minutes 15 |}
               []
               {| files := Some [ file "src/app.js" 20 5 ] |}
               eq_refl eq_refl _ eq_refl eq_refl)) _ _).
  - simpl. lia.
  - vm_compute. reflexivity.
  - vm_compute. discriminate.
Defined.

End MaturityExtras.

(** ** Deployment metrics: cycle time, sources and frequency *)

Module DoraExtras.

Import Dora DoraFacts.

(** *** Rounding to two decimals *)

Lemma hundredths_le (a b : Z) :
  a <= b -> (inject_Z a / 100 <= inject_Z b / 100)%Q.
Proof.
  intro H. rewrite Zle_Qle in H. unfold Qdiv.
  change (/ 100)%Q with (1 # 100)%Q. lra.
Qed.

Lemma hundredths_nonneg (a : Z) : 0 <= a -> (0 <= inject_Z a / 100)%Q.
Proof.
  intro H. rewrite Zle_Qle in H. unfold Qdiv.
  change (/ 100)%Q with (1 # 100)%Q. change (inject_Z 0) with 0%Q in H. lra.
Qed.

Lemma round_magnitude_nonneg (x : Q) :
  (0 <= x)%Q -> 0 <= Qfloor (x * 100 + (1 # 2)).
Proof.
  intro H. apply (Qfloor_resp_le 0). lra.
Qed.

Lemma toFixed2_nonneg (x : Q) : (0 <= x)%Q -> (0 <= JS.toFixed2 x)%Q.
Proof.
  intro H. unfold JS.toFixed2.
  rewrite (proj2 (Qle_bool_iff 0 x) H).
  apply hundredths_nonneg. apply round_magnitude_nonneg. exact H.
Qed.

Lemma toFixed2_nonpos (x : Q) : ~ (0 <= x)%Q -> (JS.toFixed2 x <= 0)%Q.
Proof.
  intro H. unfold JS.toFixed2.
  destruct (Qle_bool 0 x) eqn:Hsign;
    [ apply Qle_bool_iff in Hsign; contradiction | ].
  apply Qnot_le_lt in H.
  assert (0 <= inject_Z (Qfloor (- x * 100 + (1 # 2))) / 100)%Q as Hm.
  { apply hundredths_nonneg. apply (Qfloor_resp_le 0). lra. }
  lra.
Qed.

(** [toFixed(2)] keeps the order. *)
Lemma toFixed2_monotone (x y : Q) :
  (x <= y)%Q -> (JS.toFixed2 x <= JS.toFixed2 y)%Q.
Proof.
  intro Hxy.
  destruct (Qlt_le_dec x 0) as [ Hx | Hx ], (Qlt_le_dec y 0) as [ Hy | Hy ].
  - unfold JS.toFixed2.
    replace (Qle_bool 0 x) with false.
    replace (Qle_bool 0 y) with false.
    + apply Qopp_le_compat. apply hundredths_le.
      apply Qfloor_resp_le. lra.
    + symmetry. apply not_true_iff_false. rewrite Qle_bool_iff. lra.
    + symmetry. apply not_true_iff_false. rewrite Qle_bool_iff. lra.
  - apply Qle_trans with 0%Q.
    + apply toFixed2_nonpos. lra.
    + apply toFixed2_nonneg. exact Hy.
  - lra.
  - unfold JS.toFixed2.
    rewrite (proj2 (Qle_bool_iff 0 x) Hx), (proj2 (Qle_bool_iff 0 y) Hy).
    apply hundredths_le. apply Qfloor_resp_le. lra.
Qed.

(** [toFixed(2)] of equal numbers is the same number. *)
Lemma toFixed2_comp (x y : Q) : (x == y)%Q -> JS.toFixed2 x = JS.toFixed2 y.
Proof.
  intro H. unfold JS.toFixed2.
  assert (Qle_bool 0 x = Qle_bool 0 y) as ->.
  { destruct (Qle_bool 0 x) eqn:Hx, (Qle_bool 0 y) eqn:Hy; try reflexivity.
    - apply Qle_bool_iff in Hx. rewrite H in Hx.
      apply Qle_bool_iff in Hx. congruence.
    - apply Qle_bool_iff in Hy. rewrite <- H in Hy.
      apply Qle_bool_iff in Hy. congruence. }
  rewrite (Qfloor_comp (x * 100 + (1 # 2)) (y * 100 + (1 # 2)))
    by (rewrite H; reflexivity).
  rewrite (Qfloor_comp (- x * 100 + (1 # 2)) (- y * 100 + (1 # 2)))
    by (rewrite H; reflexivity).
  reflexivity.
Qed.

(** *** [Math.max] over ages *)

Lemma Qmax_ge_l (a b : Q) : (a <= JS.Qmax a b)%Q.
Proof.
  unfold JS.Qmax. destruct (Qle_bool a b) eqn:H.
  - apply Qle_bool_iff. exact H.
  - apply Qle_refl.
Qed.

Lemma Qmax_ge_r (a b : Q) : (b <= JS.Qmax a b)%Q.
Proof.
  unfold JS.Qmax. destruct (Qle_bool a b) eqn:H.
  - apply Qle_refl.
  - apply Qlt_le_weak, Qnot_le_lt. intro Hle.
    apply Qle_bool_iff in Hle. congruence.
Qed.

Lemma fold_Qmax_ge (xs : list Q) :
  forall x : Q,
    (x <= fold_left JS.Qmax xs x)%Q
    /\ forall y, In y xs -> (y <= fold_left JS.Qmax xs x)%Q.
Proof.
  induction xs as [ | a xs IH ]; intro x.
  - split; [ apply Qle_refl | intros y [] ].
  - change (fold_left JS.Qmax (a :: xs) x)
      with (fold_left JS.Qmax xs (JS.Qmax x a)).
    destruct (IH (JS.Qmax x a)) as [Hhead Htail]. split.
    + eapply Qle_trans; [ apply Qmax_ge_l | exact Hhead ].
    + intros y [ <- | Hy ].
      * eapply Qle_trans; [ apply Qmax_ge_r | exact Hhead ].
      * apply Htail. exact Hy.
Qed.

Lemma fold_Qmax_In (xs : list Q) :
  forall x : Q, In (fold_left JS.Qmax xs x) (x :: xs).
Proof.
  induction xs as [ | a xs IH ]; intro x.
  - left. reflexivity.
  - change (fold_left JS.Qmax (a :: xs) x)
      with (fold_left JS.Qmax xs (JS.Qmax x a)).
    destruct (IH (JS.Qmax x a)) as [ Heq | Hin ].
    + rewrite <- Heq. unfold JS.Qmax.
      destruct (Qle_bool x a); [ right; left | left ]; reflexivity.
    + right; right. exact Hin.
Qed.

Lemma Math_max_ge (xs : list Q) (y : Q) :
  In y xs -> (y <= JS.Math_max xs)%Q.
Proof.
  destruct xs as [ | x xs ]; [ intros [] | ].
  unfold JS.Math_max.
  destruct (fold_Qmax_ge xs x) as [Hhead Htail].
  intros [ <- | Hy ]; [ exact Hhead | apply Htail; exact Hy ].
Qed.

Lemma Math_max_In (xs : list Q) : xs <> [] -> In (JS.Math_max xs) xs.
Proof.
  destruct xs as [ | x xs ]; [ congruence | intros _ ].
  apply fold_Qmax_In.
Qed.

Lemma find_oldest (cs : list CommitWithAge) :
  cs <> [] ->
  exists c,
    find (fun c => Qeq_bool (cwa_age c) (JS.Math_max (map cwa_age cs))) cs
    = Some c
    /\ In c cs
    /\ forall c', In c' cs -> (cwa_age c' <= cwa_age c)%Q.
Proof.
  intro Hne.
  destruct (find _ cs) as [ c | ] eqn:Hfind.
  - apply find_some in Hfind. destruct Hfind as [Hin Heq].
    exists c. split; [ reflexivity | ]. split; [ exact Hin | ].
    intros c' Hc'. apply Qeq_bool_iff in Heq. rewrite Heq.
    apply Math_max_ge. apply in_map. exact Hc'.
  - exfalso.
    assert (map cwa_age cs <> []) as Hmap
      by (destruct cs; [ congruence | discriminate ]).
    apply Math_max_In in Hmap. apply in_map_iff in Hmap.
    destruct Hmap as (c & Hage & Hin).
    pose proof (find_none _ _ Hfind c Hin) as Hfalse. cbn in Hfalse.
    rewrite Hage in Hfalse.
    rewrite (proj2 (Qeq_bool_iff _ _) (Qeq_refl _)) in Hfalse.
    discriminate.
Qed.

Lemma nil_or_not {A : Type} (l : list A) : l = [] \/ l <> [].
Proof.
  destruct l; [ left; reflexivity | right; discriminate ].
Qed.

Lemma nonempty_length {A : Type} (l : list A) :
  l <> [] -> (0 <? length l)%nat = true.
Proof.
  intro H. apply Nat.ltb_lt. destruct l; [ congruence | cbn; lia ].
Qed.

Section CycleTime.

Variable githubClient : GitHubClient.
Variable options : Options.
Variable latest : Latest.
Variable previous : option Deployment.

Let allCommits := fetchCommits githubClient latest previous.
Let commitsWithAges := withAges latest allCommits.
Let ages := map cwa_age commitsWithAges.
Let r := calculateCycleTime githubClient options latest previous.

(** The result when no commit has a date. *)
Lemma cycle_time_without_dates :
  commitsWithAges = [] ->
  r = {| commit_count := 0;
         avg_hours := None;
         oldest_hours := None;
         newest_hours := None;
         oldest_commit_sha := None;
         newest_commit_sha := None;
         newest_excludes_merges := negb (includeMergeCommits options) |}.
Proof.
  intro Hnil. subst r. unfold calculateCycleTime. cbv zeta.
  rewrite (datesOf_length latest).
  fold allCommits. fold commitsWithAges. rewrite Hnil. reflexivity.
Qed.

(** The result when some commit has a date: the candidates for the
    newest commit are the commits that are not merges, or all commits
    when merges are included or when there is no other commit. *)
Lemma cycle_time_with_dates :
  commitsWithAges <> [] ->
  let nonMerges := filter (fun c => negb (cwa_isMerge c)) commitsWithAges in
  let candidates :=
    if includeMergeCommits options then commitsWithAges
    else if (0 <? length nonMerges)%nat then nonMerges
         else commitsWithAges in
  candidates <> []
  /\ r = {| commit_count := length commitsWithAges;
            avg_hours :=
              Some (JS.toFixed2
                      (fold_left Qplus ages 0%Q
                       / inject_Z (Z.of_nat (length ages))));
            oldest_hours := Some (JS.toFixed2 (JS.Math_max ages));
            newest_hours :=
              Some (JS.toFixed2 (JS.Math_min (map cwa_age candidates)));
            oldest_commit_sha :=
              option_map cwa_sha
                (find (fun c => Qeq_bool (cwa_age c) (JS.Math_max ages))
                   commitsWithAges);
            newest_commit_sha :=
              option_map cwa_sha
                (find
                   (fun c =>
                      Qeq_bool (cwa_age c)
                        (JS.Math_min (map cwa_age candidates)))
                   candidates);
            newest_excludes_merges := negb (includeMergeCommits options) |}.
Proof.
  intros Hne nonMerges candidates. split.
  - subst candidates. destruct (includeMergeCommits options); [ exact Hne | ].
    destruct (0 <? length nonMerges)%nat eqn:Hlen; [ | exact Hne ].
    intro Hnil. rewrite Hnil in Hlen. discriminate.
  - subst r candidates. unfold calculateCycleTime. cbv zeta.
    rewrite (datesOf_length latest).
    fold allCommits. fold commitsWithAges. fold ages. fold nonMerges.
    rewrite (nonempty_length _ Hne). cbn [andb].
    destruct (includeMergeCommits options); cbn [negb].
    + rewrite (nonempty_length _ Hne). reflexivity.
    + destruct (0 <? length nonMerges)%nat; reflexivity.
Qed.

Lemma datesOf_le (cs : list Commit) :
  (length (datesOf cs) <= length cs)%nat.
Proof.
  induction cs as [ | c cs IH ]; [ cbn; lia | ].
  unfold datesOf in *. cbn [flat_map]. rewrite length_app.
  destruct (commitDate c); cbn [length]; lia.
Qed.

Lemma dated_commit_gives_age (c : Commit) (d : Z) :
  In c allCommits -> commitDate c = Some d -> commitsWithAges <> [].
Proof.
  intros Hin Hd Hnil.
  destruct (in_withAges_intro latest allCommits c d Hin Hd) as (x & Hx & _).
  fold commitsWithAges in Hx. rewrite Hnil in Hx. destruct Hx.
Qed.

(** X10. [commit_count] is the number of commits that have a date. With
    none, the three durations and the two SHAs are null; with one or
    more, none of them is. *)
Theorem cycle_time_nulls :
  commit_count r = length (datesOf allCommits)
  /\ (commit_count r <= length allCommits)%nat
  /\ (commit_count r = 0%nat ->
      avg_hours r = None /\ oldest_hours r = None /\ newest_hours r = None
      /\ oldest_commit_sha r = None /\ newest_commit_sha r = None)
  /\ ((0 < commit_count r)%nat ->
      avg_hours r <> None /\ oldest_hours r <> None
      /\ newest_hours r <> None
      /\ oldest_commit_sha r <> None /\ newest_commit_sha r <> None).
Proof.
  assert (commit_count r = length (datesOf allCommits)) as Hcount.
  { subst r. unfold calculateCycleTime. cbv zeta.
    fold allCommits.
    repeat match goal with
           | |- context [ if ?b then _ else _ ] => destruct b
           end; reflexivity. }
  split; [ exact Hcount | ].
  split; [ rewrite Hcount; apply datesOf_le | ].
  rewrite Hcount, (datesOf_length latest). fold commitsWithAges.
  destruct (nil_or_not commitsWithAges) as [ Hnil | Hne ].
  - rewrite (cycle_time_without_dates Hnil), Hnil. cbn.
    split; [ auto | intro; lia ].
  - pose proof (nonempty_length _ Hne) as Hlen. apply Nat.ltb_lt in Hlen.
    destruct (cycle_time_with_dates Hne) as [Hcand Hr].
    cbv zeta in Hcand, Hr.
    split; [ intro; lia | intros _ ].
    destruct (find_oldest commitsWithAges Hne) as (o & Ho & _).
    fold ages in Ho.
    destruct (find_newest _ Hcand) as (n & Hn & _).
    rewrite Hr. cbn [avg_hours oldest_hours newest_hours
                     oldest_commit_sha newest_commit_sha].
    rewrite Ho, Hn. cbn.
    repeat split; discriminate.
Qed.

(** X11. The oldest commit is chosen among all commits that have a
    date, merges included: [oldest_commit_sha] is the SHA of one of
    them, no other is older, and [oldest_hours] is its age to two
    decimals: a multiple of 1/100 within 1/100 of it. *)
Theorem oldest_commit_is_oldest :
  let age := hoursBetween (latest_created_at latest) in
  (exists c, In c allCommits /\ commitDate c <> None) ->
  exists c d,
    In c allCommits /\ commitDate c = Some d
    /\ oldest_commit_sha r = Some (sha c)
    /\ (exists oldest,
          oldest_hours r = Some oldest
          /\ (exists k : Z, (oldest == inject_Z k / 100)%Q)
          /\ (age d - (1 # 100) <= oldest <= age d + (1 # 100))%Q)
    /\ forall c' d',
         In c' allCommits -> commitDate c' = Some d' ->
         (age d' <= age d)%Q.
Proof.
  intros age (c0 & Hin0 & Hd0).
  destruct (commitDate c0) as [ d0 | ] eqn:Hdate0; [ clear Hd0 | congruence ].
  pose proof (dated_commit_gives_age c0 d0 Hin0 Hdate0) as Hne.
  destruct (cycle_time_with_dates Hne) as [_ Hr]. cbv zeta in Hr.
  destruct (find_oldest commitsWithAges Hne) as (x & Hfind & Hin & Hmax).
  fold ages in Hfind.
  pose proof (find_some _ _ Hfind) as [_ Hage]. apply Qeq_bool_iff in Hage.
  destruct (in_withAges_inv latest allCommits x Hin)
    as (c & d & Hc & Hd & Hxsha & Hxage & _).
  exists c, d. split; [ exact Hc | ]. split; [ exact Hd | ].
  rewrite Hr. cbn [oldest_commit_sha oldest_hours]. rewrite Hfind. cbn.
  split; [ congruence | ]. split.
  - exists (JS.toFixed2 (age d)). split; [ | apply toFixed2_close ].
    f_equal. apply toFixed2_comp. rewrite <- Hage, Hxage. reflexivity.
  - intros c' d' Hc' Hd'.
    destruct (in_withAges_intro latest allCommits c' d' Hc' Hd')
      as (x' & Hx' & _ & Hage' & _).
    specialize (Hmax x' Hx'). rewrite Hxage, Hage' in Hmax. exact Hmax.
Qed.

(** X12. When merge commits are included, the newest commit is chosen
    among all commits that have a date: [newest_commit_sha] is the SHA
    of one of them, possibly a merge, no other is younger, and
    [newest_hours] is its age to two decimals: a multiple of 1/100
    within 1/100 of it. *)
Theorem newest_commit_including_merges :
  let age := hoursBetween (latest_created_at latest) in
  includeMergeCommits options = true ->
  (exists c, In c allCommits /\ commitDate c <> None) ->
  newest_excludes_merges r = false
  /\ exists c d,
       In c allCommits /\ commitDate c = Some d
       /\ newest_commit_sha r = Some (sha c)
       /\ (exists newest,
             newest_hours r = Some newest
             /\ (exists k : Z, (newest == inject_Z k / 100)%Q)
             /\ (age d - (1 # 100) <= newest <= age d + (1 # 100))%Q)
       /\ forall c' d',
            In c' allCommits -> commitDate c' = Some d' ->
            (age d <= age d')%Q.
Proof.
  intros age Hinclude (c0 & Hin0 & Hd0).
  destruct (commitDate c0) as [ d0 | ] eqn:Hdate0; [ clear Hd0 | congruence ].
  pose proof (dated_commit_gives_age c0 d0 Hin0 Hdate0) as Hne.
  destruct (cycle_time_with_dates Hne) as [_ Hr]. cbv zeta in Hr.
  rewrite Hinclude in Hr.
  destruct (find_newest commitsWithAges Hne) as (x & Hfind & Hin & Hmin).
  pose proof (find_some _ _ Hfind) as [_ Hage]. apply Qeq_bool_iff in Hage.
  destruct (in_withAges_inv latest allCommits x Hin)
    as (c & d & Hc & Hd & Hxsha & Hxage & _).
  rewrite Hr.
  cbn [newest_excludes_merges newest_commit_sha newest_hours negb].
  split; [ reflexivity | ].
  exists c, d. split; [ exact Hc | ]. split; [ exact Hd | ].
  rewrite Hfind. cbn. split; [ congruence | ]. split.
  - exists (JS.toFixed2 (age d)). split; [ | apply toFixed2_close ].
    f_equal. apply toFixed2_comp. rewrite <- Hage, Hxage. reflexivity.
  - intros c' d' Hc' Hd'.
    destruct (in_withAges_intro latest allCommits c' d' Hc' Hd')
      as (x' & Hx' & _ & Hage' & _).
    specialize (Hmin x' Hx'). rewrite Hxage, Hage' in Hmin. exact Hmin.
Qed.

(** X13. The extreme durations are ordered: [newest_hours] is at most
    [oldest_hours], whether merges are excluded or not. *)
Theorem cycle_time_ordered (newest oldest : Q) :
  newest_hours r = Some newest ->
  oldest_hours r = Some oldest ->
  (newest <= oldest)%Q.
Proof.
  destruct (nil_or_not commitsWithAges) as [ Hnil | Hne ].
  { rewrite (cycle_time_without_dates Hnil). discriminate. }
  destruct (cycle_time_with_dates Hne) as [Hcand Hr].
  cbv zeta in Hcand, Hr. rewrite Hr.
  cbn [newest_hours oldest_hours].
  intros [= <-] [= <-].
  apply toFixed2_monotone. apply Math_max_ge.
  set (candidates :=
         if includeMergeCommits options then commitsWithAges
         else if (0 <? length
                         (filter (fun c => negb (cwa_isMerge c))
                            commitsWithAges))%nat
              then filter (fun c => negb (cwa_isMerge c)) commitsWithAges
              else commitsWithAges) in *.
  assert (map cwa_age candidates <> []) as Hmap.
  { intro Hnil. apply map_eq_nil in Hnil. contradiction. }
  apply Math_min_In in Hmap. apply in_map_iff in Hmap.
  destruct Hmap as (c & <- & Hc). apply in_map.
  subst candidates. destruct (includeMergeCommits options); [ exact Hc | ].
  destruct (0 <? _)%nat; [ | exact Hc ].
  apply filter_In in Hc. apply Hc.
Qed.

(** X14. When exactly one commit has a date, the average, the oldest and
    the newest duration are the same, and so are the two SHAs. *)
Theorem single_commit_cycle_time :
  commit_count r = 1%nat ->
  avg_hours r = oldest_hours r
  /\ newest_hours r = oldest_hours r
  /\ oldest_hours r <> None
  /\ newest_commit_sha r = oldest_commit_sha r.
Proof.
  intro Hone.
  destruct (nil_or_not commitsWithAges) as [ Hnil | Hne ].
  { rewrite (cycle_time_without_dates Hnil) in Hone. discriminate. }
  destruct (cycle_time_with_dates Hne) as [Hcand Hr].
  cbv zeta in Hcand, Hr. rewrite Hr in Hone |- *.
  cbn [commit_count] in Hone.
  cbn [avg_hours oldest_hours newest_hours oldest_commit_sha
       newest_commit_sha].
  assert (exists c, commitsWithAges = [c]) as (c & Hc).
  { destruct commitsWithAges as [ | c [ | c' cs ] ];
      [ discriminate | exists c; reflexivity | discriminate ]. }
  unfold ages. revert Hcand. rewrite Hc. cbn [filter].
  destruct (includeMergeCommits options), (negb (cwa_isMerge c));
    cbn; intros _; rewrite (proj2 (Qeq_bool_iff _ _) (Qeq_refl _)); cbn;
    (split; [ f_equal; apply toFixed2_comp; field | ]);
    repeat split; try reflexivity; discriminate.
Qed.

End CycleTime.

(** X15. The merge option bears on the newest commit only: the count,
    the average, the oldest duration and the oldest commit are the same
    under any two configurations. *)
Theorem merge_option_affects_newest_only (githubClient : GitHubClient)
    (options options' : Options) (latest : Latest)
    (previous : option Deployment) :
  let r := calculateCycleTime githubClient options latest previous in
  let r' := calculateCycleTime githubClient options' latest previous in
  commit_count r = commit_count r'
  /\ avg_hours r = avg_hours r'
  /\ oldest_hours r = oldest_hours r'
  /\ oldest_commit_sha r = oldest_commit_sha r'.
Proof.
  cbv zeta.
  destruct (nil_or_not
              (withAges latest (fetchCommits githubClient latest previous)))
    as [ Hnil | Hne ].
  - rewrite (cycle_time_without_dates githubClient options latest previous
               Hnil),
      (cycle_time_without_dates githubClient options' latest previous Hnil).
    repeat split; reflexivity.
  - destruct (cycle_time_with_dates githubClient options latest previous
                Hne) as [_ ->].
    destruct (cycle_time_with_dates githubClient options' latest previous
                Hne) as [_ ->].
    repeat split; reflexivity.
Qed.

(** *** Sources and collection *)

Section Collection.

Variable githubClient : GitHubClient.
Variable options : Options.

(** X16. Without a release and with a tag, the source is the tags; the
    latest deployment is what the first tag resolves to, SHA and date
    alike, and is absent when the tag does not resolve; with one tag
    there is no previous deployment. *)
Theorem tags_when_no_release (tag0 : Tag) (more : list Tag) :
  listReleases githubClient (maxReleases options) = [] ->
  listTags githubClient (maxTags options) = tag0 :: more ->
  exists ds,
    determineDataSource githubClient options = Returns ds
    /\ source ds = tag_source
    /\ (latest ds = None <-> resolveTag githubClient (tag tag0) = None)
    /\ (forall resolved,
          resolveTag githubClient (tag tag0) = Some resolved ->
          exists deployment,
            latest ds = Some deployment
            /\ d_name deployment = resolved_name resolved
            /\ d_sha deployment = resolved_sha resolved
            /\ d_created_at deployment = resolved_created_at resolved)
    /\ (more = [] -> previous ds = None).
Proof.
  intros Hreleases Htags. unfold determineDataSource.
  rewrite Hreleases, Htags. cbv zeta.
  eexists. split; [ reflexivity | ].
  cbn [source latest previous]. split; [ reflexivity | ].
  destruct (resolveTag githubClient (tag tag0)) as [ resolved | ]; cbn.
  - split; [ split; discriminate | ]. split.
    + intros ? [= <-]. eexists. split; [ reflexivity | ]. cbn. auto.
    + intros ->. reflexivity.
  - split; [ split; reflexivity | ]. split.
    + discriminate.
    + intros ->. reflexivity.
Qed.

(** X17. What [collectMetrics] returns: metrics whose latest deployment
    has a SHA and a date, stamped with the clock and the repository,
    with the metrics that are enabled and no other; or one of two
    errors. *)
Theorem collect_metrics_outcomes (now : Z) :
  (forall m,
     collectMetrics githubClient options now = Collected m ->
     report_sha (metrics_latest m) <> None
     /\ report_created_at (metrics_latest m) <> None
     /\ generated_at m = now
     /\ metrics_repo m = owner githubClient ++ "/" ++ repo githubClient
     /\ (exists ds,
           determineDataSource githubClient options = Returns ds
           /\ metrics_source m = source ds)
     /\ (deploy_frequency (metrics m) <> None
         <-> deploymentFrequency (enabledMetrics options) = true)
     /\ (cycle_time (metrics m) <> None
         <-> leadTime (enabledMetrics options) = true))
  /\ (forall error,
        collectMetrics githubClient options now = CollectError error ->
        error = "Could not resolve latest release/tag SHA or created_at"
        \/ error = "Metrics collection failed: No releases or tags found").
Proof.
  unfold collectMetrics.
  destruct (determineDataSource githubClient options)
    as [ [ source0 latest0 previous0 ] | error_message ] eqn:Hsource.
  - destruct latest0 as [ [ ? ? [ latest_sha0 | ] [ created | ] ] | ];
      (split; [ | intros error [= <-]; left; reflexivity ]);
      try discriminate.
    intros m [= <-].
    cbn [metrics_latest report_sha report_created_at generated_at
         metrics_repo metrics_source metrics deploy_frequency cycle_time].
    split; [ discriminate | ]. split; [ discriminate | ].
    split; [ reflexivity | ]. split; [ reflexivity | ].
    split; [ eexists; split; reflexivity | ].
    destruct (deploymentFrequency (enabledMetrics options)),
      (leadTime (enabledMetrics options));
      repeat split; intros; try discriminate; try reflexivity; congruence.
  - split; [ discriminate | ].
    intros error [= <-]. right.
    unfold determineDataSource in Hsource.
    destruct (listReleases githubClient (maxReleases options));
      [ | discriminate ].
    destruct (listTags githubClient (maxTags options)); [ | discriminate ].
    injection Hsource as <-. reflexivity.
Qed.

(** X18. With a release, [collectMetrics] succeeds exactly when the tag
    of the first release resolves to a SHA; the latest deployment then
    has the tag and the date of the release and the SHA of the tag. *)
Theorem collect_from_releases (now : Z) (release0 : Release)
    (more : list Release) :
  listReleases githubClient (maxReleases options) = release0 :: more ->
  (forall resolved commit_sha,
     resolveTag githubClient (tag_name release0) = Some resolved ->
     resolved_sha resolved = Some commit_sha ->
     exists m,
       collectMetrics githubClient options now = Collected m
       /\ metrics_source m = release
       /\ report_tag (metrics_latest m) = Some (tag_name release0)
       /\ report_sha (metrics_latest m) = Some commit_sha
       /\ report_created_at (metrics_latest m) = Some (created_at release0)
       /\ (more = [] -> metrics_previous m = None))
  /\ ((forall resolved,
         resolveTag githubClient (tag_name release0) = Some resolved ->
         resolved_sha resolved = None) ->
      collectMetrics githubClient options now
      = CollectError
          "Could not resolve latest release/tag SHA or created_at").
Proof.
  intro Hreleases. unfold collectMetrics, determineDataSource.
  rewrite Hreleases. cbv zeta. split.
  - intros resolved commit_sha Hresolved Hsha.
    rewrite Hresolved. unfold setSha at 1.
    cbn [d_name d_tag d_sha d_created_at]. rewrite Hsha.
    eexists. split; [ reflexivity | ].
    cbn [metrics_source metrics_latest metrics_previous report_tag
         report_sha report_created_at JS.orElse].
    repeat split; try reflexivity.
    intros ->. reflexivity.
  - intro Hnone.
    destruct (resolveTag githubClient (tag_name release0))
      as [ resolved | ]; [ | reflexivity ].
    unfold setSha at 1. cbn [d_name d_tag d_sha d_created_at].
    rewrite (Hnone resolved eq_refl). reflexivity.
Qed.

(** X19. Without a release, [collectMetrics] succeeds exactly when the
    first tag resolves to a SHA and a date; the tag reported for the
    latest deployment is then the name that the resolution gave. *)
Theorem collect_from_tags (now : Z) (tag0 : Tag) (more : list Tag) :
  listReleases githubClient (maxReleases options) = [] ->
  listTags githubClient (maxTags options) = tag0 :: more ->
  (forall resolved commit_sha created,
     resolveTag githubClient (tag tag0) = Some resolved ->
     resolved_sha resolved = Some commit_sha ->
     resolved_created_at resolved = Some created ->
     exists m,
       collectMetrics githubClient options now = Collected m
       /\ metrics_source m = tag_source
       /\ report_tag (metrics_latest m) = resolved_name resolved
       /\ report_name (metrics_latest m) = resolved_name resolved
       /\ report_sha (metrics_latest m) = Some commit_sha
       /\ report_created_at (metrics_latest m) = Some created
       /\ (more = [] -> metrics_previous m = None))
  /\ (resolveTag githubClient (tag tag0) = None
      \/ (exists resolved,
            resolveTag githubClient (tag tag0) = Some resolved
            /\ (resolved_sha resolved = None
                \/ resolved_created_at resolved = None)) ->
      collectMetrics githubClient options now
      = CollectError
          "Could not resolve latest release/tag SHA or created_at").
Proof.
  intros Hreleases Htags. unfold collectMetrics, determineDataSource.
  rewrite Hreleases, Htags. cbv zeta. split.
  - intros [ resolved_name0 ? ? ] commit_sha created Hresolved Hsha Hdate.
    cbn in Hsha, Hdate. subst. rewrite Hresolved. cbn [option_map].
    eexists. split; [ reflexivity | ].
    cbn [metrics_source metrics_latest metrics_previous report_tag
         report_name report_sha report_created_at JS.orElse resolved_name].
    repeat split; try reflexivity.
    + destruct resolved_name0; reflexivity.
    + intros ->. reflexivity.
  - intros [ -> | ([ ? [ s | ] [ t | ] ] & -> & [ H | H ]) ];
      try reflexivity; discriminate.
Qed.

(** X20. [calculateDeployFrequency] and [determineDataSource] agree on
    what a deployment history is: the count is zero exactly when the
    source cannot be determined; and a rate, when there is one, is not
    negative and rests on two deployments or more. *)
Theorem deploy_frequency_consistent :
  let frequency := calculateDeployFrequency githubClient options in
  (deployCount frequency = 0%nat
   <-> exists error_message,
         determineDataSource githubClient options = Throws error_message)
  /\ forall perWeek,
       deploysPerWeek frequency = Some perWeek ->
       (0 <= perWeek)%Q /\ (2 <= deployCount frequency)%nat.
Proof.
  assert (forall (count : nat) (weeks perWeek : Q),
            (if negb (Qle_bool weeks 0)
             then Some (JS.toFixed2 (inject_Z (Z.of_nat count) / weeks))
             else None) = Some perWeek ->
            (0 <= perWeek)%Q) as Hrate.
  { intros count weeks perWeek.
    destruct (Qle_bool weeks 0) eqn:Hweeks; [ discriminate | ].
    cbn [negb]. intros [= <-]. apply toFixed2_nonneg.
    assert (0 < weeks)%Q as Hpos.
    { apply Qnot_le_lt. intro H. apply Qle_bool_iff in H. congruence. }
    apply Qle_shift_div_l; [ exact Hpos | ].
    assert (0 <= inject_Z (Z.of_nat count))%Q
      by (change 0%Q with (inject_Z 0); rewrite <- Zle_Qle; lia).
    lra. }
  unfold calculateDeployFrequency, determineDataSource. cbv zeta.
  destruct (listReleases githubClient (maxReleases options))
    as [ | release0 [ | release1 releases ] ].
  - destruct (listTags githubClient (maxTags options))
      as [ | tag0 [ | tag1 tags ] ].
    + cbn. split; [ split; eauto | discriminate ].
    + cbn. split; [ | discriminate ].
      split; [ discriminate | intros (? & H); discriminate ].
    + split.
      * destruct (resolveTag githubClient (tag (last _ tag0)))
          as [ [ ? ? [ ? | ] ] | ];
          destruct (resolveTag githubClient (tag tag0))
          as [ [ ? ? [ ? | ] ] | ];
          cbn [deployCount length];
          (split; [ discriminate | intros (? & H); discriminate ]).
      * intros perWeek.
        destruct (resolveTag githubClient (tag (last _ tag0)))
          as [ [ ? ? [ ? | ] ] | ];
          destruct (resolveTag githubClient (tag tag0))
          as [ [ ? ? [ ? | ] ] | ];
          cbn [deployCount deploysPerWeek length]; try discriminate.
        intro H. split; [ exact (Hrate _ _ _ H) | lia ].
  - cbn. split; [ | discriminate ].
    split; [ discriminate | intros (? & H); discriminate ].
  - cbn [deployCount deploysPerWeek length]. split.
    + split; [ discriminate | intros (? & H); discriminate ].
    + intros perWeek H. split; [ exact (Hrate _ _ _ H) | lia ].
Qed.

End Collection.

(** X21. Durations between dates: reversing the dates changes the sign
    of the hours and of the days, a date is at no distance from itself,
    and a duration is not negative exactly when the later date is not
    before the earlier. *)
Theorem durations_between (a b : Z) :
  (hoursBetween a b == - hoursBetween b a)%Q
  /\ (daysBetween a b == - daysBetween b a)%Q
  /\ (hoursBetween a a == 0)%Q
  /\ (daysBetween a a == 0)%Q
  /\ ((0 <= hoursBetween a b)%Q <-> b <= a)
  /\ ((0 <= daysBetween a b)%Q <-> b <= a).
Proof.
  unfold hoursBetween, daysBetween, Qdiv.
  change (/ inject_Z 3600000)%Q with (1 # 3600000)%Q.
  change (/ inject_Z 86400000)%Q with (1 # 86400000)%Q.
  assert (forall x y, inject_Z (x - y) == inject_Z x - inject_Z y)%Q
    as Hsub.
  { intros x y. unfold Z.sub. rewrite inject_Z_plus, inject_Z_opp.
    reflexivity. }
  assert (forall x y, (0 <= inject_Z (x - y))%Q <-> y <= x) as Hsign.
  { intros x y. change 0%Q with (inject_Z 0). rewrite <- Zle_Qle. lia. }
  split; [ rewrite !Hsub; lra | ].
  split; [ rewrite !Hsub; lra | ].
  split; [ rewrite !Hsub; lra | ].
  split; [ rewrite !Hsub; lra | ].
  split; rewrite <- (Hsign a b); split; intro H; lra.
Qed.

Import DoraScenarios DoraMoreScenarios.

Lemma oldest_commit_is_oldest_witness :
  let r :=
    calculateCycleTime mergeAndRegular defaultOptions latestJan2
      previousSha in
  let allCommits := fetchCommits mergeAndRegular latestJan2 previousSha in
  let age := hoursBetween (latest_created_at latestJan2) in
  oldest_commit_sha r = Some "commit1"
  /\ exists c d,
       In c allCommits /\ commitDate c = Some d
       /\ oldest_commit_sha r = Some (sha c)
       /\ (exists oldest,
             oldest_hours r = Some oldest
             /\ (exists k : Z, (oldest == inject_Z k / 100)%Q)
             /\ (age d - (1 # 100) <= oldest <= age d + (1 # 100))%Q)
       /\ forall c' d',
            In c' allCommits -> commitDate c' = Some d' ->
            (age d' <= age d)%Q.
Proof.
  split; [ reflexivity | ].
  apply (oldest_commit_is_oldest mergeAndRegular defaultOptions latestJan2
           previousSha).
  exists regular. split; [ left; reflexivity | discriminate ].
Defined.

Lemma newest_commit_including_merges_witness :
  let r :=
    calculateCycleTime mergeAndRegular includingMerges latestJan2
      previousSha in
  let allCommits := fetchCommits mergeAndRegular latestJan2 previousSha in
  let age := hoursBetween (latest_created_at latestJan2) in
  newest_commit_sha r = Some "commit2"
  /\ newest_excludes_merges r = false
  /\ exists c d,
       In c allCommits /\ commitDate c = Some d
       /\ newest_commit_sha r = Some (sha c)
       /\ (exists newest,
             newest_hours r = Some newest
             /\ (exists k : Z, (newest == inject_Z k / 100)%Q)
             /\ (age d - (1 # 100) <= newest <= age d + (1 # 100))%Q)
       /\ forall c' d',
            In c' allCommits -> commitDate c' = Some d' ->
            (age d <= age d')%Q.
Proof.
  split; [ reflexivity | ].
  apply (newest_commit_including_merges mergeAndRegular includingMerges
           latestJan2 previousSha).
  - reflexivity.
  - exists regular. split; [ left; reflexivity | discriminate ].
Defined.

Lemma cycle_time_ordered_witness :
  let r :=
    calculateCycleTime mergeAndRegular includingMerges latestJan2
      previousSha in
  newest_hours r = Some (JS.toFixed2 6)
  /\ oldest_hours r = Some (JS.toFixed2 12)
  /\ (JS.toFixed2 6 <= JS.toFixed2 12)%Q.
Proof.
  cbv zeta.
  assert (newest_hours
            (calculateCycleTime mergeAndRegular includingMerges latestJan2
               previousSha) = Some (JS.toFixed2 6)) as Hnewest
    by (vm_compute; reflexivity).
  assert (oldest_hours
            (calculateCycleTime mergeAndRegular includingMerges latestJan2
               previousSha) = Some (JS.toFixed2 12)) as Holdest
    by (vm_compute; reflexivity).
  split; [ exact Hnewest | ]. split; [ exact Holdest | ].
  exact (cycle_time_ordered mergeAndRegular includingMerges latestJan2
           previousSha _ _ Hnewest Holdest).
Defined.

Lemma single_commit_cycle_time_witness :
  let r := calculateCycleTime singleTag defaultOptions latestJan1 None in
  commit_count r = 1%nat
  /\ avg_hours r = oldest_hours r
  /\ newest_hours r = oldest_hours r
  /\ oldest_hours r <> None
  /\ newest_commit_sha r = oldest_commit_sha r.
Proof.
  split; [ reflexivity | ].
  apply (single_commit_cycle_time singleTag defaultOptions latestJan1 None).
  reflexivity.
Defined.

Lemma tags_when_no_release_witness :
  exists ds,
    determineDataSource singleTag defaultOptions = Returns ds
    /\ source ds = tag_source
    /\ (latest ds = None <-> resolveTag singleTag "v1.0.0" = None)
    /\ (forall resolved,
          resolveTag singleTag "v1.0.0" = Some resolved ->
          exists deployment,
            latest ds = Some deployment
            /\ d_name deployment = resolved_name resolved
            /\ d_sha deployment = resolved_sha resolved
            /\ d_created_at deployment = resolved_created_at resolved)
    /\ (@nil Tag = [] -> previous ds = None).
Proof.
  apply (tags_when_no_release singleTag defaultOptions
           {| tag := "v1.0.0" |} []); reflexivity.
Defined.

Lemma collect_from_releases_witness :
  exists m,
    collectMetrics fromReleases defaultOptions 0 = Collected m
    /\ metrics_source m = release
    /\ report_tag (metrics_latest m) = Some "v2.0.0"
    /\ report_sha (metrics_latest m) = Some "sha2"
    /\ report_created_at (metrics_latest m) = Some (jan1 + hours 24).
Proof.
  destruct (proj1 (collect_from_releases fromReleases defaultOptions 0
                     {| name := Some "v2.0.0"; tag_name := "v2.0.0";
                        created_at := jan1 + hours 24 |}
                     [ {| name := Some "v1.0.0"; tag_name := "v1.0.0";
                          created_at := jan1 |} ]
                     eq_refl)
              {| resolved_name := None; resolved_sha := Some "sha2";
                 resolved_created_at := None |}
              "sha2" eq_refl eq_refl)
    as (m & Hm & Hsource & Htag & Hsha & Hdate & _).
  exists m. repeat split; assumption.
Defined.

Lemma collect_from_tags_witness :
  exists m,
    collectMetrics fromTags defaultOptions 0 = Collected m
    /\ metrics_source m = tag_source
    /\ report_tag (metrics_latest m) = Some "v1.0.0"
    /\ report_sha (metrics_latest m) = Some "sha1".
Proof.
  destruct (proj1 (collect_from_tags fromTags defaultOptions 0
                     {| tag := "v1.0.0" |} [ {| tag := "v0.9.0" |} ]
                     eq_refl eq_refl)
              (resolved "v1.0.0" "sha1" jan1) "sha1" jan1
              eq_refl eq_refl eq_refl)
    as (m & Hm & Hsource & Htag & _ & Hsha & _).
  exists m. repeat split; assumption.
Defined.

End DoraExtras.

(** ** Team aggregation: ratings, distribution and review times *)

Module TeamExtras.

Import Team TeamMore.

(** Splits on every threshold test of the goal and turns the outcomes
    into inequalities. *)
Ltac thresholds :=
  unfold Qlt_bool;
  repeat match goal with
         | |- context [ Qle_bool ?a ?b ] =>
             let H := fresh "Hle" in
             destruct (Qle_bool a b) eqn:H;
             [ apply Qle_bool_iff in H
             | apply not_true_iff_false in H; rewrite Qle_bool_iff in H;
               apply Qnot_le_lt in H ]
         end;
  cbn [negb].

(** X22. The tables for durations are monotone: of two durations the
    shorter is never rated worse, for pickup, approve, merge and cycle
    time; and the rating is one of the four tiers. *)
Theorem duration_ratings_monotone (shorter longer : Q) :
  (shorter <= longer)%Q ->
  (tierRank (ratePickupTime shorter) <= tierRank (ratePickupTime longer)
   <= 3)%nat
  /\ (tierRank (rateApproveTime shorter) <= tierRank (rateApproveTime longer)
      <= 3)%nat
  /\ (tierRank (rateMergeTime shorter) <= tierRank (rateMergeTime longer)
      <= 3)%nat
  /\ (tierRank (rateCycleTime shorter) <= tierRank (rateCycleTime longer)
      <= 3)%nat.
Proof.
  intro H.
  unfold ratePickupTime, rateApproveTime, rateMergeTime, rateCycleTime.
  repeat apply conj; thresholds; cbn; try lia; exfalso; lra.
Qed.

(** X23. The tables for rates are monotone the other way: of two merge
    frequencies, deploy frequencies or maturity percentages the higher
    is never rated worse; a maturity that is null is rated "Unknown";
    and the output manager rates a maturity as the team collector
    does. *)
Theorem rate_ratings_monotone (lower higher : Q) :
  (lower <= higher)%Q ->
  (tierRank (rateMergeFrequency higher) <= tierRank (rateMergeFrequency lower)
   <= 3)%nat
  /\ (tierRank (rateDeployFrequency higher)
      <= tierRank (rateDeployFrequency lower) <= 3)%nat
  /\ (tierRank (ratePRMaturity (Some higher))
      <= tierRank (ratePRMaturity (Some lower)) <= 3)%nat
  /\ ratePRMaturity None = "Unknown"
  /\ forall percentage,
       Outputs.getMaturityLevel percentage = ratePRMaturity percentage.
Proof.
  intro H.
  unfold rateMergeFrequency, rateDeployFrequency, ratePRMaturity.
  repeat apply conj; try reflexivity;
    thresholds; cbn; try lia; exfalso; lra.
Qed.

Lemma duration_ratings_monotone_witness :
  ratePickupTime 1 = "Elite" /\ ratePickupTime 20 = "Needs Focus"
  /\ (tierRank (ratePickupTime 1) <= tierRank (ratePickupTime 20) <= 3)%nat.
Proof.
  split; [ reflexivity | ]. split; [ reflexivity | ].
  apply (duration_ratings_monotone 1 20). discriminate.
Defined.

Lemma rate_ratings_monotone_witness :
  ratePRMaturity (Some 83%Q) = "Good" /\ ratePRMaturity (Some 74%Q) = "Needs Focus"
  /\ (tierRank (ratePRMaturity (Some 83%Q))
      <= tierRank (ratePRMaturity (Some 74%Q)) <= 3)%nat.
Proof.
  split; [ reflexivity | ]. split; [ reflexivity | ].
  apply (rate_ratings_monotone 74 83). discriminate.
Defined.

(** *** The size distribution *)

Lemma sizes_counted (prMetrics : list PRMetrics) :
  forall s m l xl unknown : nat,
    fold_left
      (fun sizes pr =>
         match pr_size pr with
         | Some size =>
             if negb (String.eqb size "") && hasOwnProperty sizes size
             then increment sizes size
             else increment sizes "unknown"
         | None => increment sizes "unknown"
         end)
      prMetrics
      [("s", s); ("m", m); ("l", l); ("xl", xl); ("unknown", unknown)]
    = [("s", (s + withSize "s" prMetrics)%nat);
       ("m", (m + withSize "m" prMetrics)%nat);
       ("l", (l + withSize "l" prMetrics)%nat);
       ("xl", (xl + withSize "xl" prMetrics)%nat);
       ("unknown", (unknown + withoutSize prMetrics)%nat)].
Proof.
  induction prMetrics as [ | pr prs IH ]; intros s m l xl unknown.
  - cbn. rewrite !Nat.add_0_r. reflexivity.
  - cbn [fold_left]. unfold withSize, withoutSize. cbn [filter].
    fold (withSize "s" prs) (withSize "m" prs) (withSize "l" prs)
      (withSize "xl" prs) (withoutSize prs).
    destruct (pr_size pr) as [ size | ].
    2: { cbn [increment map fst snd String.eqb Ascii.eqb Bool.eqb].
         cbn. rewrite IH. unfold withSize, withoutSize.
         repeat (f_equal; try lia). }
    destruct (String.eqb_spec size "s") as [ -> | Hs ].
    { cbn. rewrite IH. unfold withSize, withoutSize.
      repeat (f_equal; try lia). }
    destruct (String.eqb_spec size "m") as [ -> | Hm ].
    { cbn. rewrite IH. unfold withSize, withoutSize.
      repeat (f_equal; try lia). }
    destruct (String.eqb_spec size "l") as [ -> | Hl ].
    { cbn. rewrite IH. unfold withSize, withoutSize.
      repeat (f_equal; try lia). }
    destruct (String.eqb_spec size "xl") as [ -> | Hxl ].
    { cbn. rewrite IH. unfold withSize, withoutSize.
      repeat (f_equal; try lia). }
    cbn [orb negb].
    assert ((if negb (String.eqb size "")
                && hasOwnProperty
                     [("s", s); ("m", m); ("l", l); ("xl", xl);
                      ("unknown", unknown)] size
             then increment
                    [("s", s); ("m", m); ("l", l); ("xl", xl);
                     ("unknown", unknown)] size
             else increment
                    [("s", s); ("m", m); ("l", l); ("xl", xl);
                     ("unknown", unknown)] "unknown")
            = [("s", s); ("m", m); ("l", l); ("xl", xl);
               ("unknown", S unknown)]) as ->.
    { unfold hasOwnProperty, increment. cbn [existsb map fst snd].
      rewrite (proj2 (String.eqb_neq "s" size)) by congruence.
      rewrite (proj2 (String.eqb_neq "m" size)) by congruence.
      rewrite (proj2 (String.eqb_neq "l" size)) by congruence.
      rewrite (proj2 (String.eqb_neq "xl" size)) by congruence.
      destruct (String.eqb_spec "unknown" size) as [ <- | _ ];
        [ reflexivity | ].
      cbn [orb andb]. rewrite andb_false_r. reflexivity. }
    rewrite IH. unfold withSize, withoutSize. cbn [length].
    repeat (f_equal; try lia).
Qed.

Lemma sizes_partition (prMetrics : list PRMetrics) :
  (withSize "s" prMetrics + withSize "m" prMetrics + withSize "l" prMetrics
   + withSize "xl" prMetrics + withoutSize prMetrics
   = length prMetrics)%nat.
Proof.
  unfold withSize, withoutSize.
  induction prMetrics as [ | pr prs IH ]; [ reflexivity | ].
  cbn [filter length]. destruct (pr_size pr) as [ size | ].
  - destruct (String.eqb_spec size "s") as [ -> | ];
      [ cbn; lia | ].
    destruct (String.eqb_spec size "m") as [ -> | ];
      [ cbn; lia | ].
    destruct (String.eqb_spec size "l") as [ -> | ];
      [ cbn; lia | ].
    destruct (String.eqb_spec size "xl") as [ -> | ];
      [ cbn; lia | ].
    cbn. lia.
  - cbn. lia.
Qed.

Lemma percent_bounds (n total : nat) :
  (n <= total)%nat -> (0 < total)%nat -> 0 <= percent n total <= 100.
Proof.
  intros Hn Htotal. unfold percent.
  destruct (MaturityExtras.ratio_of_unit (Z.of_nat n) (Z.of_nat total))
    as [Hlow Hhigh]; try lia.
  apply (MaturityExtras.percent_of_unit _ Hlow Hhigh).
Qed.

Lemma percent_monotone (n m total : nat) :
  (n <= m)%nat -> (0 < total)%nat -> percent n total <= percent m total.
Proof.
  intros Hnm Htotal. unfold percent, JS.Math_round.
  apply Qfloor_resp_le. apply Qplus_le_compat; [ | apply Qle_refl ].
  apply Qmult_le_compat_r; [ | discriminate ].
  unfold Qdiv. apply Qmult_le_compat_r.
  - rewrite <- Zle_Qle. lia.
  - apply Qlt_le_weak, Qinv_lt_0_compat.
    change 0%Q with (inject_Z 0). rewrite <- Zlt_Qlt. lia.
Qed.

Lemma percent_none (total : nat) : percent 0 total = 0.
Proof.
  unfold percent, JS.Math_round.
  rewrite (Qfloor_comp _ (1 # 2)); [ reflexivity | ].
  unfold Qdiv. change (inject_Z (Z.of_nat 0)) with 0%Q. ring.
Qed.

Lemma percent_all (total : nat) : (0 < total)%nat -> percent total total = 100.
Proof.
  intro Htotal. unfold percent, JS.Math_round.
  rewrite (Qfloor_comp _ (100 + (1 # 2))); [ reflexivity | ].
  assert (~ (inject_Z (Z.of_nat total) == 0)%Q) as Hnz.
  { apply MaturityExtras.inject_Z_nonzero. lia. }
  field. exact Hnz.
Qed.

Lemma predominant_entry (s m l xl unknown : nat) :
  let top := Nat.max s (Nat.max m (Nat.max l xl)) in
  let predominant :=
    fold_left
      (fun (acc : string * nat) (entry : string * nat) =>
         if negb (String.eqb (fst entry) "unknown")
            && (snd acc <? snd entry)%nat
         then (fst entry, snd entry)
         else acc)
      [("s", s); ("m", m); ("l", l); ("xl", xl); ("unknown", unknown)]
      ("unknown", 0%nat) in
  snd predominant = top
  /\ (fst predominant = "unknown"
      <-> s = 0%nat /\ m = 0%nat /\ l = 0%nat /\ xl = 0%nat)
  /\ ((fst predominant = "unknown" /\ top = 0%nat)
      \/ (fst predominant = "s" /\ top = s)
      \/ (fst predominant = "m" /\ top = m)
      \/ (fst predominant = "l" /\ top = l)
      \/ (fst predominant = "xl" /\ top = xl)).
Proof.
  cbn [fold_left fst snd String.eqb Ascii.eqb Bool.eqb negb andb].
  destruct (Nat.ltb_spec 0 s); cbn [fst snd];
    match goal with
    | |- context [ (?a <? m)%nat ] => destruct (Nat.ltb_spec a m)
    end; cbn [fst snd];
    match goal with
    | |- context [ (?a <? l)%nat ] => destruct (Nat.ltb_spec a l)
    end; cbn [fst snd];
    match goal with
    | |- context [ (?a <? xl)%nat ] => destruct (Nat.ltb_spec a xl)
    end; cbn [fst snd];
    (split; [ lia | ]);
    (split;
     [ split; [ try discriminate; intros _; lia | intro; try lia; reflexivity ]
     | ]);
    intuition (try discriminate; try reflexivity; lia).
Qed.

(** X24. The size distribution counts every PR once: under its size
    when that is [s], [m], [l] or [xl], as unknown otherwise. Each
    percentage is between 0 and 100, 0 for a size that no PR has and 100
    for a size that every PR has; the predominant size is a size with
    the largest count, "unknown" exactly when no PR has one of the four
    sizes, and no size has a larger percentage. *)
Theorem size_distribution_counts (prMetrics : list PRMetrics) :
  let total := length prMetrics in
  let dist := calculateSizeDistribution prMetrics in
  let s := withSize "s" prMetrics in
  let m := withSize "m" prMetrics in
  let l := withSize "l" prMetrics in
  let xl := withSize "xl" prMetrics in
  let unknown := withoutSize prMetrics in
  let top := Nat.max s (Nat.max m (Nat.max l xl)) in
  (s + m + l + xl + unknown = total)%nat
  /\ (prMetrics = [] ->
      small_percent dist = 0 /\ medium_percent dist = 0
      /\ large_percent dist = 0 /\ xl_percent dist = 0
      /\ unknown_percent dist = 0 /\ predominant_percent dist = 0)
  /\ (prMetrics <> [] ->
      0 <= unknown_percent dist <= 100
      /\ 0 <= small_percent dist <= predominant_percent dist
      /\ 0 <= medium_percent dist <= predominant_percent dist
      /\ 0 <= large_percent dist <= predominant_percent dist
      /\ 0 <= xl_percent dist <= predominant_percent dist
      /\ predominant_percent dist <= 100
      /\ (s = 0%nat -> small_percent dist = 0)
      /\ (m = 0%nat -> medium_percent dist = 0)
      /\ (l = 0%nat -> large_percent dist = 0)
      /\ (xl = 0%nat -> xl_percent dist = 0)
      /\ (unknown = 0%nat -> unknown_percent dist = 0)
      /\ (s = total -> small_percent dist = 100)
      /\ (m = total -> medium_percent dist = 100)
      /\ (l = total -> large_percent dist = 100)
      /\ (xl = total -> xl_percent dist = 100)
      /\ (unknown = total -> unknown_percent dist = 100))
  /\ (predominant_size dist = "unknown"
      <-> s = 0%nat /\ m = 0%nat /\ l = 0%nat /\ xl = 0%nat)
  /\ ((predominant_size dist = "unknown"
       /\ predominant_rating dist = "Unknown")
      \/ (predominant_size dist = "s"
          /\ predominant_rating dist = "Elite" /\ top = s)
      \/ (predominant_size dist = "m"
          /\ predominant_rating dist = "Good" /\ top = m)
      \/ (predominant_size dist = "l"
          /\ predominant_rating dist = "Fair" /\ top = l)
      \/ (predominant_size dist = "xl"
          /\ predominant_rating dist = "Needs Focus" /\ top = xl)).
Proof.
  intros total dist s m l xl unknown top.
  pose proof (sizes_partition prMetrics) as Hsum.
  fold s m l xl unknown total in Hsum.
  split; [ exact Hsum | ].
  subst dist. unfold calculateSizeDistribution. cbv zeta.
  unfold initialSizes. rewrite (sizes_counted prMetrics 0 0 0 0 0).
  cbn [Nat.add]. fold s m l xl unknown total.
  destruct (predominant_entry s m l xl unknown)
    as (Hmax & Hunknown & Hcases).
  fold top in Hmax, Hcases.
  set (predominant := fold_left _ _ ("unknown", 0%nat)) in *.
  unfold count.
  cbn [find fst snd String.eqb Ascii.eqb Bool.eqb
       small_percent medium_percent large_percent xl_percent
       unknown_percent predominant_size predominant_rating
       predominant_percent].
  rewrite Hmax.
  split; [ | split; [ | split ] ].
  - intros ->. cbn. repeat split; reflexivity.
  - intro Hne.
    assert (0 < total)%nat as Htotal
      by (subst total; destruct prMetrics; [ congruence | cbn; lia ]).
    replace (0 <? total)%nat with true by (symmetry; apply Nat.ltb_lt; lia).
    pose proof (percent_bounds unknown total ltac:(lia) Htotal).
    pose proof (percent_bounds s total ltac:(lia) Htotal).
    pose proof (percent_bounds m total ltac:(lia) Htotal).
    pose proof (percent_bounds l total ltac:(lia) Htotal).
    pose proof (percent_bounds xl total ltac:(lia) Htotal).
    pose proof (percent_bounds top total ltac:(lia) Htotal).
    pose proof (percent_monotone s top total ltac:(lia) Htotal).
    pose proof (percent_monotone m top total ltac:(lia) Htotal).
    pose proof (percent_monotone l top total ltac:(lia) Htotal).
    pose proof (percent_monotone xl top total ltac:(lia) Htotal).
    pose proof (percent_none total) as Hnone.
    pose proof (percent_all total Htotal) as Hall.
    repeat split; try lia; intros ->; assumption.
  - exact Hunknown.
  - destruct Hcases as [ [-> _] | [ [-> ?] | [ [-> ?] | [ [-> ?] | [-> ?] ] ] ] ];
      cbn; intuition.
Qed.

(** *** The aggregate *)

Lemma nodup_length (l : list string) :
  (length (nodup string_dec l) <= length l)%nat
  /\ (length (nodup string_dec l) = 0%nat <-> l = []).
Proof.
  split.
  - induction l as [ | x l IH ]; cbn; [ lia | ].
    destruct (in_dec string_dec x l); cbn; lia.
  - split.
    + intro H. destruct l as [ | x l ]; [ reflexivity | ].
      assert (In x (nodup string_dec (x :: l))) as Hin
        by (apply nodup_In; left; reflexivity).
      destruct (nodup string_dec (x :: l)); [ destruct Hin | discriminate ].
    + intros ->. reflexivity.
Qed.

Lemma nonNull_le (f : PRMetrics -> option Q) (prMetrics : list PRMetrics) :
  (length (nonNull f prMetrics) <= length prMetrics)%nat.
Proof.
  unfold nonNull. induction prMetrics as [ | pr prs IH ]; [ cbn; lia | ].
  cbn [flat_map]. rewrite length_app.
  destruct (f pr); cbn [length]; lia.
Qed.

Section Aggregate.

Variable timePeriod : string.
Variable prMetrics : list PRMetrics.

Let stats := calculateAggregateStats timePeriod prMetrics.

(** X26. The counts of the aggregate: no count exceeds the number of
    PRs, there is an author exactly when there is a PR, and the merge
    frequency is not negative; without PRs it is 0, rated "Needs
    Focus". *)
Theorem aggregate_counts :
  total_prs (merge_frequency stats) = length prMetrics
  /\ (merged_prs (merge_frequency stats) <= length prMetrics)%nat
  /\ (unique_authors (merge_frequency stats) <= length prMetrics)%nat
  /\ (unique_authors (merge_frequency stats) = 0%nat <-> prMetrics = [])
  /\ (sample_size (pickup_time stats) <= length prMetrics)%nat
  /\ (sample_size (approve_time stats) <= length prMetrics)%nat
  /\ (sample_size (merge_time stats) <= length prMetrics)%nat
  /\ (0 <= mf_value (merge_frequency stats))%Q
  /\ (prMetrics = [] ->
      mf_value (merge_frequency stats) = round2 0
      /\ mf_rating (merge_frequency stats) = "Needs Focus").
Proof.
  subst stats. unfold calculateAggregateStats. cbv zeta.
  cbn [merge_frequency pickup_time approve_time merge_time total_prs
       merged_prs unique_authors sample_size mf_value mf_rating].
  destruct (nodup_length (map author prMetrics)) as [Hle Hzero].
  rewrite length_map in Hle.
  split; [ reflexivity | ].
  split; [ apply filter_length_le | ].
  split; [ exact Hle | ].
  split.
  { rewrite Hzero. split.
    - intro H. apply map_eq_nil in H. exact H.
    - intros ->. reflexivity. }
  split; [ apply nonNull_le | ].
  split; [ apply nonNull_le | ].
  split; [ apply nonNull_le | ].
  split.
  - unfold round2. apply DoraExtras.hundredths_nonneg.
    apply (Qfloor_resp_le 0).
    set (authors := length (nodup string_dec (map author prMetrics))).
    set (merged := length (filter Team.merged prMetrics)).
    assert (0 <= (if (0 <? authors)%nat
                     && Qlt_bool 0 (inject_Z (getDaysInPeriod timePeriod) / 7)
                  then inject_Z (Z.of_nat merged)
                       / (inject_Z (Z.of_nat authors)
                          * (inject_Z (getDaysInPeriod timePeriod) / 7))
                  else 0))%Q as Hfrequency.
    { destruct (Nat.ltb_spec 0 authors); cbn [andb]; [ | discriminate ].
      destruct (Qlt_bool 0 (inject_Z (getDaysInPeriod timePeriod) / 7))
        eqn:Hweeks; [ | discriminate ].
      unfold Qlt_bool in Hweeks. apply negb_true_iff in Hweeks.
      apply not_true_iff_false in Hweeks. rewrite Qle_bool_iff in Hweeks.
      apply Qnot_le_lt in Hweeks.
      apply Qle_shift_div_l.
      - apply Qmult_lt_0_compat; [ | exact Hweeks ].
        change 0%Q with (inject_Z 0). rewrite <- Zlt_Qlt. lia.
      - assert (0 <= inject_Z (Z.of_nat merged))%Q
          by (change 0%Q with (inject_Z 0); rewrite <- Zle_Qle; lia).
        lra. }
    lra.
  - intros ->. cbn. split; reflexivity.
Qed.

End Aggregate.

(** *** Review times *)

(** A number rounded to two decimals is within 1/100 of the number,
    whatever the rounding of a tie. *)
Lemma round2_close (x : Q) :
  (x - (1 # 100) <= round2 x <= x + (1 # 100))%Q.
Proof.
  unfold round2, JS.Math_round.
  pose proof (DoraFacts.floor_within_one (x * 100 + (1 # 2)))
    as [Hlow Hhigh].
  set (k := inject_Z (Qfloor (x * 100 + (1 # 2)))) in *.
  unfold Qdiv. change (/ 100)%Q with (1 # 100)%Q. lra.
Qed.

Lemma roundedHours_monotone (d1 d2 : Z) :
  d1 <= d2 -> (roundedHours d1 <= roundedHours d2)%Q.
Proof.
  intro H. unfold roundedHours, round2, JS.Math_round.
  apply DoraExtras.hundredths_le. apply Qfloor_resp_le.
  apply Qplus_le_compat; [ | apply Qle_refl ].
  apply Qmult_le_compat_r; [ | discriminate ].
  unfold Qdiv. apply Qmult_le_compat_r; [ | discriminate ].
  rewrite <- Zle_Qle. exact H.
Qed.

Lemma roundedHours_nonneg (d : Z) : 0 <= d -> (0 <= roundedHours d)%Q.
Proof.
  intro H. apply Qle_trans with (roundedHours 0).
  - discriminate.
  - apply roundedHours_monotone. exact H.
Qed.

(** The first of the sorted reviews is a review with a date, and none
    was submitted before it. *)
Lemma sortByDate_head (l : list (Z * Review)) :
  match sortByDate l with
  | [] => l = []
  | first :: _ => In first l /\ forall y, In y l -> fst first <= fst y
  end.
Proof.
  induction l as [ | x l IH ]; [ reflexivity | ].
  cbn [sortByDate fold_right]. fold (sortByDate l).
  destruct (sortByDate l) as [ | first rest ].
  - subst l. cbn. split; [ left; reflexivity | ].
    intros y [ <- | [] ]. lia.
  - destruct IH as [Hin Hmin]. cbn [insertByDate].
    destruct (Z.leb_spec (fst x) (fst first)).
    + split; [ left; reflexivity | ].
      intros y [ <- | Hy ]; [ lia | ]. specialize (Hmin y Hy). lia.
    + split; [ right; exact Hin | ].
      intros y [ <- | Hy ]; [ lia | ]. apply Hmin. exact Hy.
Qed.

Lemma in_submitted (reviews : list Review) (t : Z) (r : Review) :
  In (t, r) (submitted reviews) <-> In r reviews /\ submitted_at r = Some t.
Proof.
  unfold submitted. rewrite in_flat_map. split.
  - intros (r' & Hin & H). destruct (submitted_at r') as [ t' | ] eqn:Ht.
    + destruct H as [ [= <- <-] | [] ]. auto.
    + destruct H.
  - intros [Hin Ht]. exists r. split; [ exact Hin | ].
    rewrite Ht. left. reflexivity.
Qed.

Lemma findIn_none {A : Type} (p : A -> bool) (arr : option (list A)) :
  findIn p arr = None <-> forall x, In x (JS.orEmpty arr) -> p x = false.
Proof.
  destruct arr as [ l | ]; cbn; [ | split; [ intros _ x [] | reflexivity ] ].
  split; [ apply find_none | ].
  intro H. destruct (find p l) as [ x | ] eqn:Hfind; [ | reflexivity ].
  apply find_some in Hfind. destruct Hfind as [Hin Hp].
  rewrite (H x Hin) in Hp. discriminate.
Qed.

Section ReviewTimes.

Variable createdAt : Z.
Variable timeline : option (list TimelineEvent).
Variable reviews : option (list Review).

(** X27. The pickup time is null exactly when the timeline has no
    review activity and no review has a submission date. With a review
    that has a date, it is a number of hours, at most the delay of that
    review; it is not a number only when no review has a date and the
    first activity of the timeline has none either. *)
Theorem pickup_time_activity :
  let pickup := calculatePickupTime createdAt timeline reviews in
  (pickup = Null <->
   (forall e, In e (JS.orEmpty timeline) -> isPickupActivity e = false)
   /\ forall r, In r (JS.orEmpty reviews) -> submitted_at r = None)
  /\ (forall r t,
        In r (JS.orEmpty reviews) -> submitted_at r = Some t ->
        exists hours,
          pickup = Hours hours
          /\ (hours <= roundedHours (t - createdAt))%Q)
  /\ (pickup = NotANumber ->
      (forall r, In r (JS.orEmpty reviews) -> submitted_at r = None)
      /\ exists comment,
           findIn isPickupActivity timeline = Some comment
           /\ event_created_at comment = None).
Proof.
  cbv zeta. unfold calculatePickupTime. cbv zeta.
  pose proof (sortByDate_head (submitted (JS.orEmpty reviews))) as Hsorted.
  assert (option_map (fun rs => sortByDate (submitted rs)) reviews
          = match reviews with
            | Some _ => Some (sortByDate (submitted (JS.orEmpty reviews)))
            | None => None
            end) as -> by (destruct reviews; reflexivity).
  assert (match
            match reviews with
            | Some _ => Some (sortByDate (submitted (JS.orEmpty reviews)))
            | None => None
            end
          with
          | Some (first :: _) => Some first
          | _ => None
          end
          = hd_error (sortByDate (submitted (JS.orEmpty reviews)))) as ->.
  { destruct reviews as [ rs | ]; [ | reflexivity ].
    destruct (sortByDate (submitted (JS.orEmpty (Some rs)))); reflexivity. }
  assert (forall r t,
            In r (JS.orEmpty reviews) -> submitted_at r = Some t ->
            exists first reviewTime rest,
              sortByDate (submitted (JS.orEmpty reviews))
              = (reviewTime, first) :: rest
              /\ reviewTime <= t) as Hdated.
  { intros r t Hin Ht.
    assert (In (t, r) (submitted (JS.orEmpty reviews))) as Hpair
      by (apply in_submitted; auto).
    destruct (sortByDate (submitted (JS.orEmpty reviews)))
      as [ | [ reviewTime first ] rest ].
    - rewrite Hsorted in Hpair. destruct Hpair.
    - exists first, reviewTime, rest. split; [ reflexivity | ].
      apply (proj2 Hsorted (t, r) Hpair). }
  assert (sortByDate (submitted (JS.orEmpty reviews)) = [] ->
          forall r, In r (JS.orEmpty reviews) -> submitted_at r = None)
    as Hundated.
  { intros Hnil r Hin. destruct (submitted_at r) as [ t | ] eqn:Ht;
      [ | reflexivity ].
    destruct (Hdated r t Hin Ht) as (? & ? & ? & H & _). congruence. }
  pose proof (findIn_none isPickupActivity timeline) as Hnone.
  destruct (findIn isPickupActivity timeline) as [ comment | ].
  - assert (~ forall e,
                In e (JS.orEmpty timeline) -> isPickupActivity e = false)
      as Hsome by (intro H; apply Hnone in H; discriminate).
    split; [ | split ].
    + split; [ | tauto ].
      destruct (sortByDate _) as [ | [ reviewTime first ] rest ]; cbn;
        [ destruct (event_created_at comment)
        | destruct (event_created_at comment) as [ commentTime | ];
          [ destruct (commentTime <? reviewTime) | ] ];
        discriminate.
    + intros r t Hin Ht.
      destruct (Hdated r t Hin Ht) as (first & reviewTime & rest & -> & Hle).
      cbn [hd_error].
      destruct (event_created_at comment) as [ commentTime | ].
      * destruct (Z.ltb_spec commentTime reviewTime); cbn [since];
          eexists; (split; [ reflexivity | ]);
          apply roundedHours_monotone; lia.
      * cbn [since]. eexists. split; [ reflexivity | ].
        apply roundedHours_monotone. lia.
    + destruct (sortByDate _) as [ | [ reviewTime first ] rest ] eqn:Hsort.
      * cbn [hd_error]. intro H. split; [ apply Hundated; reflexivity | ].
        exists comment. split; [ reflexivity | ].
        destruct (event_created_at comment); [ discriminate | reflexivity ].
      * cbn [hd_error].
        destruct (event_created_at comment) as [ commentTime | ];
          [ destruct (commentTime <? reviewTime) | ]; discriminate.
  - split; [ | split ].
    + destruct (sortByDate _) as [ | [ reviewTime first ] rest ] eqn:Hsort.
      * cbn [hd_error]. split; [ intros _ | reflexivity ].
        split; [ apply Hnone; reflexivity | apply Hundated; reflexivity ].
      * cbn [hd_error since]. split; [ discriminate | ].
        intros [_ H]. exfalso.
        destruct Hsorted as [Hin _]. apply in_submitted in Hin.
        destruct Hin as [Hin Ht]. rewrite (H first Hin) in Ht. discriminate.
    + intros r t Hin Ht.
      destruct (Hdated r t Hin Ht) as (first & reviewTime & rest & -> & Hle).
      cbn [hd_error since]. eexists. split; [ reflexivity | ].
      apply roundedHours_monotone. lia.
    + destruct (sortByDate _) as [ | [ reviewTime first ] rest ];
        cbn; discriminate.
Qed.

(** X28. The approve time and the merge time rest on the first review
    in state APPROVED: both are null exactly when there is none. When
    that review has a date both are numbers: the merge time is the delay
    from the approval to the merge to two decimals, within 1/100 of it,
    and neither is negative when the approval is not before the creation
    of the PR, respectively not after the merge. *)
Theorem approval_times (mergedAt : Z) :
  let approve := calculateApproveTime createdAt timeline reviews in
  let merge := calculateMergeTime mergedAt reviews in
  (approve = Null <->
   forall r, In r (JS.orEmpty reviews) -> state r <> "APPROVED")
  /\ (approve = Null <-> merge = Null)
  /\ forall approval approvalTime,
       findIn isApproved reviews = Some approval ->
       submitted_at approval = Some approvalTime ->
       let delay :=
         (inject_Z (mergedAt - approvalTime) / inject_Z (1000 * 60 * 60))%Q in
       (exists hours,
          merge = Hours hours
          /\ (delay - (1 # 100) <= hours <= delay + (1 # 100))%Q
          /\ (approvalTime <= mergedAt -> (0 <= hours)%Q))
       /\ exists hours,
            approve = Hours hours
            /\ (createdAt <= approvalTime -> (0 <= hours)%Q).
Proof.
  cbv zeta. unfold calculateApproveTime, calculateMergeTime. cbv zeta.
  pose proof (findIn_none isApproved reviews) as Hnone.
  assert ((forall x, In x (JS.orEmpty reviews) -> isApproved x = false)
          <-> forall r, In r (JS.orEmpty reviews) -> state r <> "APPROVED")
    as Hstates.
  { unfold isApproved. split; intros H r Hin.
    - apply String.eqb_neq. apply H. exact Hin.
    - apply String.eqb_neq. apply H. exact Hin. }
  destruct (findIn isApproved reviews) as [ approval | ].
  - split; [ | split ].
    + split.
      * destruct (submitted_at approval); discriminate.
      * intro H. pose proof (proj2 Hnone (proj2 Hstates H)) as Habsurd.
        discriminate.
    + destruct (submitted_at approval); split; discriminate.
    + intros ? approvalTime [= <-] Happroval. rewrite Happroval.
      split.
      { eexists. split; [ reflexivity | ].
        split; [ unfold roundedHours; apply round2_close | ].
        intro; apply roundedHours_nonneg; lia. }
      cbn [since]. eexists. split; [ reflexivity | ].
      intro Hcreated. apply roundedHours_nonneg.
      destruct (findIn _ timeline) as [ [ ? [ commentTime | ] ? ] | ] eqn:Hc;
        try lia.
      destruct timeline as [ events | ]; [ | discriminate ].
      cbn [findIn] in Hc. apply find_some in Hc.
      destruct Hc as [_ Hc]. cbn [event_created_at] in Hc.
      apply andb_true_iff in Hc. destruct Hc as [_ Hc].
      apply Z.ltb_lt in Hc. lia.
  - split; [ | split ].
    + split; [ intros _; exact (proj1 Hstates (proj1 Hnone eq_refl))
             | reflexivity ].
    + split; reflexivity.
    + discriminate.
Qed.

End ReviewTimes.

Import DoraScenarios ReviewScenarios.

Lemma approval_times_evaluated :
  calculatePickupTime jan1 (Some commentedThenApproved)
    (Some changesThenApproval)
  = Hours (roundedHours (hours 1))
  /\ calculateApproveTime jan1 (Some commentedThenApproved)
       (Some changesThenApproval)
     = Hours (roundedHours (hours 4))
  /\ calculateMergeTime (jan1 + hours 6) (Some changesThenApproval)
     = Hours (roundedHours (hours 1)).
Proof.
  repeat split; reflexivity.
Qed.

End TeamExtras.
